(** * Flux-Analyzer: the data pipeline of app.py

    A shallow embedding of the transformation pipeline of [app.py]
    (steps 2 to 9 of the script) and the properties of its stages.

    The script is a straight line of pandas calls on one DataFrame.  The
    embedding keeps that shape: a frame is the ordered list of its column
    names and the list of its rows, a row is a finite map from column
    name to cell, and each pandas call is one function on frames.

    Numeric cells are IEEE-754 binary64 numbers ([PrimFloat.float], the
    numpy float64 of the script); pandas' missing marker is the float
    NaN, and NaT for a timestamp column. *)

From Stdlib Require Import ZArith Floats Ascii String List Sorted Lia.
From stdpp Require Import gmap strings list.

Open Scope Z_scope.

(** ** Configuration (lines 16-18) *)

Definition SENTINEL : float := (-9999)%float.
Definition Z_OUTLIER_CUT : float := 3%float.

(** ** Cells, rows and frames *)

Inductive value : Type :=
| VNum (f : float)      (* a float64 cell; NaN is the missing marker *)
| VStr (s : string)     (* a text cell of an object column *)
| VTime (t : Z)         (* a datetime64 cell: seconds since 1970-01-01T00:00:00Z *)
| VNaT.                 (* the missing timestamp *)

Definition NaN : value := VNum nan.

(** [pd.isna] on one cell. *)
Definition isna (v : value) : bool :=
  match v with
  | VNum f => is_nan f
  | VNaT => true
  | VStr _ | VTime _ => false
  end.

Record frame : Type := Frame {
  columns : list string;
  rows : list (gmap string value)
}.

(** The cell of row [r] under column [c]; a frame is rectangular, so the
    lookup only fails for a name that is not a column. *)
Definition cell (r : gmap string value) (c : string) : value :=
  default NaN (r !! c).

Definition has_column (c : string) (df : frame) : bool :=
  bool_decide (c ∈ columns df).

(** [df[c]]: the column as a list, top to bottom. *)
Definition column (c : string) (df : frame) : list value :=
  map (fun r => cell r c) (rows df).

(** [df[c] = f(df[c])], cell by cell. *)
Definition map_column (c : string) (f : value -> value) (df : frame) : frame :=
  Frame (columns df) (map (fun r => <[c := f (cell r c)]> r) (rows df)).

(** [df.empty] for a frame that has at least one column. *)
Definition empty (df : frame) : bool :=
  match rows df with [] => true | _ => false end.

(** ** Step 2: Sanitizer (lines 36-37) *)

(** A row that [dropna(how="all")] removes: every column is missing. *)
Definition all_missing (cols : list string) (r : gmap string value) : bool :=
  forallb (fun c => isna (cell r c)) cols.

Definition dropna_all (df : frame) : frame :=
  Frame (columns df)
        (List.filter (fun r => negb (all_missing (columns df) r)) (rows df)).

(** A cell is the sentinel when it is a number that compares equal to
    -9999; text is never equal to a number. *)
Definition is_sentinel (v : value) : bool :=
  match v with
  | VNum f => PrimFloat.eqb f SENTINEL
  | _ => false
  end.

Definition replace_cell (v : value) : value :=
  if is_sentinel v then NaN else v.

(** [df.replace(SENTINEL, np.nan)] *)
Definition replace_sentinel (df : frame) : frame :=
  Frame (columns df) (map (fmap replace_cell) (rows df)).

Definition sanitize (df : frame) : frame :=
  replace_sentinel (dropna_all df).

(** ** Step 3: ColumnScoper (lines 42-43) *)

(** The labels of [cols] up to and including [c] (a label slice [:c]). *)
Fixpoint through (c : string) (cols : list string) : list string :=
  match cols with
  | [] => []
  | h :: t => if String.eqb h c then [h] else h :: through c t
  end.

Definition restrict (cols : list string) (r : gmap string value)
  : gmap string value :=
  filter (fun kv => kv.1 ∈ cols) r.

Definition scope_columns (df : frame) : frame :=
  if has_column "hbb" df then
    let cols := through "hbb" (columns df) in
    Frame cols (map (restrict cols) (rows df))
  else df.

(** ** Step 4: TimeParser (lines 48-49)

    [pd.to_datetime(col, format="%Y-%m-%dT%H:%M:%SZ", errors="coerce")].
    The text is matched against the regular expression pandas builds from
    the format, one group for each directive:

      %Y  \d\d\d\d
      %m  1[0-2]|0[1-9]|[1-9]
      %d  3[0-1]|[1-2]\d|0[1-9]|[1-9]| [1-9]
      %H  2[0-3]|[0-1]\d|\d
      %M  [0-5]\d|\d
      %S  6[0-1]|[0-5]\d|\d

    The letters are matched without regard to case ([t] for [T], [z]
    for [Z]), and the whole text must be consumed.  [\d] is a decimal digit
    of any script; the value of a field is read by [int].  The fields
    must name a calendar date ([datetime.date] is built from them); the
    seconds 60 and 61 are carried into the next minute.  A text that
    does not match, names no date, or falls outside the range of a
    64-bit nanosecond timestamp is coerced to NaT. *)

(** The decimal digits beyond ASCII: the value (0 to 9) of a character
    that Python's Unicode tables class as a decimal digit, by its code
    point.  The tables belong to the interpreter; the parser is defined
    over any of them. *)
Class UnicodeDigits := unicode_decimal : N -> option Z.

Definition digit (a : ascii) : option Z :=
  let n := Z.of_N (N_of_ascii a) in
  if (48 <=? n) && (n <=? 57) then Some (n - 48) else None.

(** A text cell holds the UTF-8 bytes of the text; its characters, as
    code points.  Bytes that are the encoding of no text have none. *)
Definition continuation (a : ascii) : option N :=
  let n := N_of_ascii a in
  if (128 <=? n)%N && (n <? 192)%N then Some (n - 128)%N else None.

Definition scalar (least : N) (c : N) : option N :=
  if (least <=? c)%N && (c <? 1114112)%N && negb ((55296 <=? c)%N && (c <? 57344)%N)
  then Some c else None.

Fixpoint code_points (l : list ascii) : option (list N) :=
  match l with
  | [] => Some []
  | a :: l1 =>
      let n := N_of_ascii a in
      if (n <? 128)%N then cons n <$> code_points l1
      else if (n <? 192)%N then None
      else if (n <? 224)%N then
        match l1 with
        | b :: l2 =>
            b ← continuation b;
            c ← scalar 128 ((n - 192) * 64 + b);
            cons c <$> code_points l2
        | _ => None
        end
      else if (n <? 240)%N then
        match l1 with
        | b1 :: b2 :: l3 =>
            b1 ← continuation b1; b2 ← continuation b2;
            c ← scalar 2048 (((n - 224) * 64 + b1) * 64 + b2);
            cons c <$> code_points l3
        | _ => None
        end
      else if (n <? 248)%N then
        match l1 with
        | b1 :: b2 :: b3 :: l4 =>
            b1 ← continuation b1; b2 ← continuation b2; b3 ← continuation b3;
            c ← scalar 65536 ((((n - 240) * 64 + b1) * 64 + b2) * 64 + b3);
            cons c <$> code_points l4
        | _ => None
        end
      else None
  end.

Definition code (a : ascii) : N := N_of_ascii a.

(** The text before the first character accepted by [sep], and the text
    after that character. *)
Fixpoint take_until {A} (sep : A -> bool) (l : list A) : option (list A * list A) :=
  match l with
  | [] => None
  | a :: l' =>
      if sep a then Some ([], l')
      else match take_until sep l' with
           | Some (tok, rest) => Some (a :: tok, rest)
           | None => None
           end
  end.

Definition is_char (c : ascii) (a : N) : bool := (a =? code c)%N.
Definition is_char_nocase (lower upper : ascii) (a : N) : bool :=
  (a =? code lower)%N || (a =? code upper)%N.

(** What one place of a group accepts. *)
Inductive char_class : Type :=
| Range (lo hi : Z)     (* [lo-hi]: an ASCII digit from lo to hi *)
| AnyDigit              (* \d: a decimal digit of any script *)
| Blank.                (* a space, that [int] skips *)

Definition YEAR : list (list char_class) :=
  [[AnyDigit; AnyDigit; AnyDigit; AnyDigit]].
Definition MONTH : list (list char_class) :=
  [[Range 1 1; Range 0 2]; [Range 0 0; Range 1 9]; [Range 1 9]].
Definition DAY : list (list char_class) :=
  [[Range 3 3; Range 0 1]; [Range 1 2; AnyDigit]; [Range 0 0; Range 1 9];
   [Range 1 9]; [Blank; Range 1 9]].
Definition HOUR : list (list char_class) :=
  [[Range 2 2; Range 0 3]; [Range 0 1; AnyDigit]; [AnyDigit]].
Definition MINUTE : list (list char_class) :=
  [[Range 0 5; AnyDigit]; [AnyDigit]].
Definition SECOND : list (list char_class) :=
  [[Range 6 6; Range 0 1]; [Range 0 5; AnyDigit]; [AnyDigit]].

Definition ascii_digit (lo hi : Z) (c : N) : option Z :=
  let n := Z.of_N c in
  if (48 + lo <=? n) && (n <=? 48 + hi) then Some (n - 48) else None.

Definition is_leap (y : Z) : bool :=
  (y mod 4 =? 0) && (negb (y mod 100 =? 0) || (y mod 400 =? 0)).

Definition days_in_month (y m : Z) : Z :=
  if m =? 2 then (if is_leap y then 29 else 28)
  else if (m =? 4) || (m =? 6) || (m =? 9) || (m =? 11) then 30
  else 31.

(** Days from 1970-01-01 to the civil date y-m-d (proleptic Gregorian). *)
Definition days_from_civil (y m d : Z) : Z :=
  let y' := if m <=? 2 then y - 1 else y in
  let era := y' / 400 in
  let yoe := y' - era * 400 in
  let doy := (153 * (if 2 <? m then m - 3 else m + 9) + 2) / 5 + d - 1 in
  let doe := yoe * 365 + yoe / 4 - yoe / 100 + doy in
  era * 146097 + doe - 719468.

(** The civil date of a day number. *)
Definition civil_from_days (n : Z) : Z * Z * Z :=
  let z := n + 719468 in
  let era := z / 146097 in
  let doe := z - era * 146097 in
  let yoe := (doe - doe / 1460 + doe / 36524 - doe / 146096) / 365 in
  let doy := doe - (365 * yoe + yoe / 4 - yoe / 100) in
  let mp := (5 * doy + 2) / 153 in
  let d := doy - (153 * mp + 2) / 5 + 1 in
  let m := if mp <? 10 then mp + 3 else mp - 9 in
  let y := yoe + era * 400 in
  (if m <=? 2 then y + 1 else y, m, d).

(** The whole seconds a datetime64[ns] can hold: the nanosecond count
    must fit a signed 64-bit integer. *)
Definition TS_MIN : Z := -9223372036.
Definition TS_MAX : Z := 9223372036.

Definition in_range (t : Z) : bool := (TS_MIN <=? t) && (t <=? TS_MAX).

(** The fields the groups can yield that name a date and a time of day:
    a year from 1, a day of the month, and seconds up to 61. *)
Definition valid_fields (y m d h mi s : Z) : bool :=
  (1 <=? y) && (1 <=? m) && (m <=? 12) && (1 <=? d) && (d <=? days_in_month y m)
  && (h <=? 23) && (mi <=? 59) && (s <=? 61).

Section TimeParser.

Context `{UnicodeDigits}.

Definition any_digit (c : N) : option Z :=
  if (c <? 128)%N then ascii_digit 0 9 c else unicode_decimal c.

Definition class_value (k : char_class) (c : N) : option Z :=
  match k with
  | Range lo hi => ascii_digit lo hi c
  | AnyDigit => any_digit c
  | Blank => if (c =? code " ")%N then Some 0 else None
  end.

(** One alternative of a group against the whole of a field; the value
    is the number the digits spell. *)
Fixpoint match_places (p : list char_class) (tok : list N) (acc : Z) : option Z :=
  match p, tok with
  | [], [] => Some acc
  | k :: p', c :: tok' =>
      v ← class_value k c; match_places p' tok' (10 * acc + v)
  | _, _ => None
  end.

(** The first alternative that matches. *)
Fixpoint match_field (alts : list (list char_class)) (tok : list N) : option Z :=
  match alts with
  | [] => None
  | p :: alts' =>
      match match_places p tok 0 with
      | Some v => Some v
      | None => match_field alts' tok
      end
  end.

Definition parse_chars (l : list N) : option Z :=
  '(ytok, l) ← take_until (is_char "-") l;
  y ← match_field YEAR ytok;
  '(mtok, l) ← take_until (is_char "-") l;
  m ← match_field MONTH mtok;
  '(dtok, l) ← take_until (is_char_nocase "t" "T") l;
  d ← match_field DAY dtok;
  '(htok, l) ← take_until (is_char ":") l;
  h ← match_field HOUR htok;
  '(mitok, l) ← take_until (is_char ":") l;
  mi ← match_field MINUTE mitok;
  '(stok, l) ← take_until (is_char_nocase "z" "Z") l;
  s ← match_field SECOND stok;
  match l with
  | [] =>
      let t := days_from_civil y m d * 86400 + h * 3600 + mi * 60 + s in
      if valid_fields y m d h mi s && in_range t then Some t else None
  | _ :: _ => None
  end.

Definition parse_time (s : string) : option Z :=
  l ← code_points (list_ascii_of_string s);
  parse_chars l.

(** One cell under [to_datetime(..., errors="coerce")]: text is parsed,
    a cell that is no text has no rendering in the format. *)
Definition to_datetime (v : value) : value :=
  match v with
  | VStr s => match parse_time s with Some t => VTime t | None => VNaT end
  | VTime t => VTime t
  | VNum _ | VNaT => VNaT
  end.

Definition parse_time_column (df : frame) : frame :=
  if has_column "time" df then map_column "time" to_datetime df else df.

End TimeParser.

(** [Timestamp.strftime(TIME_FMT)] *)
Definition digit_char (k : Z) : ascii := ascii_of_N (Z.to_N (48 + k)).
Definition pad2 (k : Z) : list ascii := [digit_char (k / 10); digit_char (k mod 10)].
Definition pad4 (k : Z) : list ascii :=
  [digit_char (k / 1000); digit_char (k / 100 mod 10);
   digit_char (k / 10 mod 10); digit_char (k mod 10)].

(** The text of the six fields, zero-padded. *)
Definition render_fields (y m d h mi s : Z) : list ascii :=
  pad4 y ++ "-"%char :: pad2 m ++ "-"%char :: pad2 d ++ "T"%char ::
  pad2 h ++ ":"%char :: pad2 mi ++ ":"%char :: pad2 s ++ ["Z"%char].

Definition format_chars (t : Z) : list ascii :=
  let '(y, m, d) := civil_from_days (t / 86400) in
  let tod := t mod 86400 in
  render_fields y m d (tod / 3600) (tod mod 3600 / 60) (tod mod 60).

Definition format_time (t : Z) : string :=
  string_of_list_ascii (format_chars t).

(** A text in the strict shape of the format: twenty characters, two
    digits for every field but the year, upper-case [T] and [Z]. *)
Definition is_digit (a : ascii) : bool :=
  match digit a with Some _ => true | None => false end.

Definition strict_chars (l : list ascii) : bool :=
  match l with
  | [y1; y2; y3; y4; s1; m1; m2; s2; d1; d2; s3; h1; h2; s4; n1; n2; s5; c1; c2; s6] =>
      forallb is_digit [y1; y2; y3; y4; m1; m2; d1; d2; h1; h2; n1; n2; c1; c2]
      && Ascii.eqb s1 "-" && Ascii.eqb s2 "-" && Ascii.eqb s3 "T"
      && Ascii.eqb s4 ":" && Ascii.eqb s5 ":" && Ascii.eqb s6 "Z"
  | _ => false
  end.

Definition is_strict (s : string) : bool := strict_chars (list_ascii_of_string s).

(** A strict text whose seconds are below sixty: the first digit of the
    seconds, the eighteenth character, is at most 5. *)
Definition seconds_below_sixty (l : list ascii) : bool :=
  match nth_error l 17 with
  | Some c => match digit c with Some v => v <=? 5 | None => false end
  | None => false
  end.

Definition is_canonical (s : string) : bool :=
  strict_chars (list_ascii_of_string s) && seconds_below_sixty (list_ascii_of_string s).



(** *** The calendar counted from 1 March

    [days_from_civil] and [civil_from_days] count years from 1 March, in
    eras of 400 years.  The length of such a year, the day of the year a
    month starts on, and the length of a month, by the same formulas. *)

Definition march_year_length (yoe : Z) : Z :=
  if (yoe mod 4 =? 3) && (negb (yoe mod 100 =? 99) || (yoe =? 399)) then 366 else 365.

Definition month_start (mp : Z) : Z := (153 * mp + 2) / 5.

Definition march_month_length (mp : Z) : Z := month_start (mp + 1) - month_start mp.

(** ** Aggregates on float64 columns

    [Series.mean] and [Series.std] (pandas' [nanmean] and [nanvar]) put
    0.0 in the place of every missing value, add the column with
    [ndarray.sum], and divide by the number of values present; the
    standard deviation is the sample one (one degree of freedom
    removed), computed from the squared distances to the mean, and is
    NaN when fewer than two values are present.

    [ndarray.sum] of a float64 column is numpy's pairwise sum: fewer
    than eight values are added from the first to the last; up to 128
    values are added in eight accumulators, one for every eighth value,
    that are then added in pairs, and the values left over after the
    last full block of eight are added at the end; a longer column is
    cut in two, at a multiple of eight, and the sums of the two parts
    are added. *)

Definition float_of_Z (z : Z) : float :=
  if z <? 0 then PrimFloat.opp (PrimFloat.of_uint63 (Uint63.of_Z (- z)))
  else PrimFloat.of_uint63 (Uint63.of_Z z).

Definition float_of_nat (n : nat) : float := float_of_Z (Z.of_nat n).

Definition present (l : list float) : list float :=
  List.filter (fun v => negb (is_nan v)) l.

(** [res += a[i]] for every value, in order. *)
Definition add_each (res : float) (l : list float) : float :=
  fold_left PrimFloat.add l res.

(** [r[j] += a[i + j]] for [k] blocks of eight values; the accumulators
    and the values that follow the blocks. *)
Fixpoint add_blocks (k : nat) (r l : list float) : list float * list float :=
  match k with
  | O => (r, l)
  | S k' => add_blocks k' (zip_with PrimFloat.add r (take 8 l)) (drop 8 l)
  end.

(** [((r0 + r1) + (r2 + r3)) + ((r4 + r5) + (r6 + r7))] *)
Definition add_pairs (r : list float) : float :=
  match r with
  | [r0; r1; r2; r3; r4; r5; r6; r7] =>
      PrimFloat.add
        (PrimFloat.add (PrimFloat.add r0 r1) (PrimFloat.add r2 r3))
        (PrimFloat.add (PrimFloat.add r4 r5) (PrimFloat.add r6 r7))
  | _ => add_each 0 r
  end.

(** The sum of eight to 128 values. *)
Definition block_sum (l : list float) : float :=
  let '(r, rest) := add_blocks (length l / 8 - 1) (take 8 l) (drop 8 l) in
  add_each (add_pairs r) rest.

(** numpy's [pairwise_sum]; every cut makes both parts shorter, so a
    depth of the length of the list is never used up. *)
Fixpoint pairwise_sum (depth : nat) (l : list float) : float :=
  let n := length l in
  if (n <? 8)%nat then add_each 0 l
  else if (n <=? 128)%nat then block_sum l
  else
    match depth with
    | O => block_sum l
    | S depth' =>
        let n2 := (n / 2 - (n / 2) mod 8)%nat in
        PrimFloat.add (pairwise_sum depth' (take n2 l)) (pairwise_sum depth' (drop n2 l))
    end.

(** [ndarray.sum]: the reduction starts from 0.0 and adds the pairwise
    sum of the column. *)
Definition np_sum (l : list float) : float :=
  PrimFloat.add 0 (pairwise_sum (length l) l).

(** The column with 0.0 in the place of every missing value. *)
Definition zero_filled (l : list float) : list float :=
  map (fun v => if is_nan v then 0%float else v) l.

(** [Series.mean()] *)
Definition mean (l : list float) : float :=
  let n := length (present l) in
  if (n =? 0)%nat then nan
  else PrimFloat.div (np_sum (zero_filled l)) (float_of_nat n).

(** [Series.std()] *)
Definition std (l : list float) : float :=
  let n := length (present l) in
  if (n <=? 1)%nat then nan
  else
    let avg := PrimFloat.div (np_sum (zero_filled l)) (float_of_nat n) in
    let sqr := map (fun v => if is_nan v then 0%float
                             else PrimFloat.mul (PrimFloat.sub avg v) (PrimFloat.sub avg v)) l in
    PrimFloat.sqrt (PrimFloat.div (np_sum sqr) (float_of_nat (n - 1))).

(** The mean of one group of a resampled column (pandas' [group_mean]):
    the values present are added with Kahan's compensated summation, a
    compensation that is not a number being set back to 0.0, and the sum
    is divided by their number; a group with no value present has the
    mean NaN. *)
Definition kahan_add (acc : float * float) (v : float) : float * float :=
  let '(sumx, compensation) := acc in
  let y := PrimFloat.sub v compensation in
  let t := PrimFloat.add sumx y in
  let c := PrimFloat.sub (PrimFloat.sub t sumx) y in
  (t, if is_nan c then 0%float else c).

Definition group_mean (l : list float) : float :=
  let p := present l in
  match p with
  | [] => nan
  | _ :: _ => PrimFloat.div (fst (fold_left kahan_add p (0%float, 0%float)))
                            (float_of_nat (length p))
  end.

(** The float held by a cell of a numeric column. *)
Definition num (v : value) : float :=
  match v with
  | VNum f => f
  | _ => nan
  end.

Definition numbers (c : string) (df : frame) : list float :=
  map num (column c df).

(** ** Outcomes of a run *)

Inductive exn : Type :=
| KeyError (missing : list string)    (* a label that is not a column *)
| TypeError                           (* [<] between text and a number *)
| StreamlitAPIException.              (* a select box index beyond its options *)

Inductive outcome : Type :=
| Plotted (data : frame)    (* the run reaches step 10 with this frame *)
| NoDataLeft                (* "No data left after filtering / NaN dropping." *)
| AllOutliers               (* "All rows removed as outliers." *)
| Raised (e : exn).         (* an exception leaves the script *)

Inductive result (A : Type) : Type :=
| Ok (a : A)
| Err (e : exn).
Arguments Ok {A} a.
Arguments Err {A} e.

(** [pd.to_numeric(..., errors="coerce")] turns text into a number with
    pandas' own reader, and into NaN when the text is no number.  The
    pipeline is defined over any such reader. *)
Class TextReader := text_to_float : string -> float.

Section Pipeline.

Context `{TextReader} `{UnicodeDigits}.

Definition to_numeric (v : value) : value :=
  match v with
  | VNum f => VNum f
  | VStr s => VNum (text_to_float s)
  | VTime t => VNum (float_of_Z (t * 1000000000))
  | VNaT => NaN
  end.

(** ** Step 5: AxisResolver (lines 54-60) *)

Fixpoint index_of (c : string) (cols : list string) : nat :=
  match cols with
  | [] => 0
  | h :: t => if String.eqb h c then 0 else S (index_of c t)
  end.

Definition lat_idx (cols : list string) : nat :=
  if bool_decide ("latitude" ∈ cols) then index_of "latitude" cols else 0%nat.

Definition axis_cols (df : frame) : list string :=
  let cols := columns df in
  if bool_decide ("time" ∈ cols) then "time" :: drop (lat_idx cols) cols
  else drop (lat_idx cols) cols.

(** The loop [for col in cs: if col != "time": df[col] = to_numeric(df[col])]. *)
Definition coerce_columns (cs : list string) (df : frame) : frame :=
  fold_left
    (fun df col => if String.eqb col "time" then df else map_column col to_numeric df)
    cs df.

(** The same loop on one row. *)
Definition coerce_row (cs : list string) (r : gmap string value) : gmap string value :=
  fold_left
    (fun r col => if String.eqb col "time" then r else <[col := to_numeric (cell r col)]> r)
    cs r.

Definition coerce_axes (df : frame) : frame :=
  coerce_columns (axis_cols df) df.

(** Steps 2 to 5: the frame the widgets are built from. *)
Definition prepare (raw : frame) : frame :=
  coerce_axes (parse_time_column (scope_columns (sanitize raw))).

(** ** Step 7: RowFilter (lines 74-83) *)

(** [==] between a cell and the chosen platform. *)
Definition value_eqb (v w : value) : bool :=
  match v, w with
  | VNum a, VNum b => PrimFloat.eqb a b
  | VStr a, VStr b => String.eqb a b
  | VTime a, VTime b => a =? b
  | _, _ => false
  end.

(** [df[df["platform_name"] == platform]]; the select box yields no
    value ([None]) when it has no option, and nothing equals that. *)
Definition select_platform (platform : option value) (df : frame) : frame :=
  Frame (columns df)
        (List.filter
           (fun r => match platform with
                     | Some p => value_eqb (cell r "platform_name") p
                     | None => false
                     end)
           (rows df)).

(** [data.dropna(subset=cs)] *)
Definition dropna_subset (cs : list string) (df : frame) : frame :=
  Frame (columns df)
        (List.filter (fun r => forallb (fun c => negb (isna (cell r c))) cs) (rows df)).

(** The labels of [cs] that are no column of [df]. *)
Definition missing_labels (cs : list string) (df : frame) : list string :=
  List.filter (fun c => negb (has_column c df)) cs.

Definition row_filter (platform : option value) (x y : string) (df : frame)
  : result frame :=
  let data := select_platform platform df in
  match missing_labels (List.filter (fun c => negb (String.eqb c "time")) [x; y]) data with
  | c :: _ => Err (KeyError [c])
  | [] =>
      let data := coerce_columns [x; y] data in
      match missing_labels [x; y] data with
      | [] => Ok (dropna_subset [x; y] data)
      | ms => Err (KeyError ms)
      end
  end.

(** ** Step 8: Resampler (lines 88-94) *)

Definition BUCKET : Z := 900.   (* "15T": fifteen minutes, in seconds *)

(** The left edge of the bucket of [t]; days are whole numbers of
    buckets, so the edges are the multiples of the width. *)
Definition bucket (t : Z) : Z := BUCKET * (t / BUCKET).

(** The rows as (timestamp, y) pairs; a row without a timestamp belongs
    to no bucket. *)
Definition stamped (y : string) (df : frame) : list (Z * float) :=
  omap (fun r => match cell r "time" with
                 | VTime t => Some (t, num (cell r y))
                 | _ => None
                 end) (rows df).

(** Resampling first puts the rows in the order of their timestamps,
    rows with the same timestamp staying in row order. *)
Fixpoint insert_by_time (p : Z * float) (l : list (Z * float)) : list (Z * float) :=
  match l with
  | [] => [p]
  | q :: l' => if fst p <=? fst q then p :: l else q :: insert_by_time p l'
  end.

Definition by_time (l : list (Z * float)) : list (Z * float) :=
  fold_right insert_by_time [] l.

(** The y-values of the points whose timestamp falls in the bucket at
    [b], in the order of the points. *)
Definition bucket_values (b : Z) (pts : list (Z * float)) : list float :=
  map snd (List.filter (fun p => bucket (fst p) =? b) pts).

(** Every bucket edge from the first bucket to the last, ascending. *)
Definition bins (pts : list (Z * float)) : list Z :=
  match map (fun p => bucket (fst p)) pts with
  | [] => []
  | b :: bs =>
      let lo := fold_right Z.min b bs in
      let hi := fold_right Z.max b bs in
      map (fun k => lo + BUCKET * Z.of_nat k) (seq 0 (S (Z.to_nat ((hi - lo) / BUCKET))))
  end.

(** [.resample("15T")[y].mean().dropna()] as (bucket edge, mean) pairs. *)
Definition bucket_means (pts : list (Z * float)) : list (Z * float) :=
  List.filter (fun p => negb (is_nan (snd p)))
              (map (fun b => (b, group_mean (bucket_values b pts))) (bins pts)).

Definition resample (y : string) (data : frame) : result frame :=
  if String.eqb y "time" then Err (KeyError ["time"])
  else Ok (Frame ["time"; y]
                 (map (fun p => <["time" := VTime (fst p)]> {[ y := VNum (snd p) ]})
                      (bucket_means (by_time (stamped y data))))).

Definition resample_if_time (x y : string) (data : frame) : result frame :=
  if String.eqb x "time" then resample y data else Ok data.

(** ** Step 9: Normalizer (lines 99-112) *)

Definition zscore (mu sigma : float) (v : value) : float :=
  PrimFloat.div (PrimFloat.sub (num v) mu) sigma.

(** The value a turn of the loop writes in the rows it keeps: the
    z-score (line 106), or 0.0 on the constant-column branch (line 108). *)
Definition written (mu sigma : float) (v : value) : float :=
  if negb (PrimFloat.eqb sigma 0) then zscore mu sigma v else 0%float.

(** [z.abs() <= cut] for one row. *)
Definition within_cut (cut mu sigma : float) (c : string) (r : gmap string value) : bool :=
  PrimFloat.leb (PrimFloat.abs (zscore mu sigma (cell r c))) cut.

(** The rows a turn of the loop keeps: all of them on the constant-column
    branch, those within the cut otherwise. *)
Definition kept_rows (cut mu sigma : float) (c : string) (data : frame)
  : list (gmap string value) :=
  if negb (PrimFloat.eqb sigma 0) then List.filter (within_cut cut mu sigma c) (rows data)
  else rows data.

(** The body of the loop (lines 103-108) once [mu] and [sigma] are known. *)
Definition normalize_with (cut mu sigma : float) (c : string) (data : frame) : frame :=
  if negb (PrimFloat.eqb sigma 0) then
    let kept := List.filter (within_cut cut mu sigma c) (rows data) in
    Frame (columns data)
          (map (fun r => <[c := VNum (zscore mu sigma (cell r c))]> r) kept)
  else map_column c (fun _ => VNum 0) data.

(** One turn of the loop for a column that is not "time", with the cut
    as a parameter. *)
Definition normalize_column_cut (cut : float) (c : string) (data : frame) : frame :=
  normalize_with cut (mean (numbers c data)) (std (numbers c data)) c data.

Definition normalize_column (c : string) (data : frame) : frame :=
  normalize_column_cut Z_OUTLIER_CUT c data.

Definition normalize_step (data : frame) (c : string) : frame :=
  if String.eqb c "time" then data else normalize_column c data.

Definition normalizer (x y : string) (data : frame) : frame :=
  fold_left normalize_step [x; y] data.

(** ** The run (steps 2 to 9), for the values of the select boxes *)

(** The frame that reaches the Normalizer, when the run gets there. *)
Definition before_normalizer (raw : frame) (platform : option value) (x y : string)
  : option frame :=
  let df := prepare raw in
  if has_column "platform_name" df then
    match row_filter platform x y df with
    | Ok data =>
        if empty data then None
        else match resample_if_time x y data with
             | Ok data => Some data
             | Err _ => None
             end
    | Err _ => None
    end
  else None.

Definition pipeline (raw : frame) (platform : option value) (x y : string) : outcome :=
  let df := prepare raw in
  if has_column "platform_name" df then
    match row_filter platform x y df with
    | Err e => Raised e
    | Ok data =>
        if empty data then NoDataLeft
        else match resample_if_time x y data with
             | Err e => Raised e
             | Ok data =>
                 let data := normalizer x y data in
                 if empty data then AllOutliers else Plotted data
             end
    end
  else Raised (KeyError ["platform_name"]).

End Pipeline.

(** A reader for the examples: plain decimal integers of at most fifteen
    digits, with an optional minus sign; any other text is no number. *)
Definition digits_value (l : list ascii) : option Z :=
  fold_left (fun acc a => n ← acc; d ← digit a; Some (10 * n + d)) l (Some 0).

Definition integer_text : TextReader :=
  fun s =>
    let l := list_ascii_of_string s in
    let '(neg, ds) := match l with
                      | a :: l' => if Ascii.eqb a "-" then (true, l') else (false, l)
                      | [] => (false, l)
                      end in
    match ds with
    | [] => nan
    | _ :: _ =>
        if (length ds <=? 15)%nat then
          match digits_value ds with
          | Some n => float_of_Z (if neg then - n else n)
          | None => nan
          end
        else nan
    end.

(** Digits for the examples: the Arabic-Indic, Devanagari and fullwidth
    digits, three of the scripts whose digits are decimal digits. *)
Definition digit_block (first c : N) : option Z :=
  if (first <=? c)%N && (c <? first + 10)%N then Some (Z.of_N (c - first)) else None.

Definition three_scripts : UnicodeDigits :=
  fun c =>
    match digit_block 1632 c, digit_block 2406 c, digit_block 65296 c with
    | Some v, _, _ | None, Some v, _ | None, None, Some v => Some v
    | None, None, None => None
    end.

(** ** Step 6: the platform select box (lines 65-66) *)

(** [Series.unique()]: the values in the order of their first
    appearance. *)
Fixpoint unique (l : list value) : list value :=
  match l with
  | [] => []
  | v :: l' => v :: List.filter (fun w => negb (value_eqb w v)) (unique l')
  end.

(** [<] between two platform values; Python orders numbers with numbers
    and text with text, and raises a TypeError otherwise. *)
Definition value_ltb (v w : value) : option bool :=
  match v, w with
  | VNum a, VNum b => Some (PrimFloat.ltb a b)
  | VStr a, VStr b => Some (String.ltb a b)
  | VTime a, VTime b => Some (a <? b)
  | _, _ => None
  end.

Definition same_kind (v w : value) : bool :=
  match value_ltb v w with Some _ => true | None => false end.

(** [sorted] on values that can be compared with each other; equal
    values keep their order. *)
Fixpoint insert_value (v : value) (l : list value) : list value :=
  match l with
  | [] => [v]
  | w :: l' =>
      match value_ltb w v with
      | Some true => w :: insert_value v l'
      | _ => v :: l
      end
  end.

Definition sort_values (l : list value) : list value :=
  fold_right insert_value [] l.

(** What line 65 leaves: the options of the select box, or the
    exception that ends the script there. *)
Inductive platform_options : Type :=
| Offered (ps : list value)
| Unorderable                 (* TypeError: text compared with a number *)
| NoColumn (e : exn).         (* KeyError: no "platform_name" column *)

(** [sorted(df["platform_name"].dropna().unique())] *)
Definition platforms (df : frame) : platform_options :=
  if has_column "platform_name" df then
    let u := unique (List.filter (fun v => negb (isna v)) (column "platform_name" df)) in
    match u with
    | [] => Offered []
    | v :: _ => if forallb (same_kind v) u then Offered (sort_values u) else Unorderable
    end
  else NoColumn (KeyError ["platform_name"]).

(** How many of the values of [l] are equal to [p]. *)
Definition occurrences (p : value) (l : list value) : nat :=
  length (List.filter (fun q => value_eqb q p) l).

(** ** Step 10: the preview table (line 147) *)

(** [data[cs]]: a KeyError names the labels that are no column. *)
Definition select_columns (cs : list string) (data : frame) : result frame :=
  match missing_labels cs data with
  | [] => Ok (Frame cs (map (restrict cs) (rows data)))
  | ms => Err (KeyError ms)
  end.

(** [data.head(n)] *)
Definition head (n : nat) (data : frame) : frame :=
  Frame (columns data) (firstn n (rows data)).

Definition preview (x y : string) (data : frame) : result frame :=
  match select_columns [x; y] data with
  | Ok shown => Ok (head 100 shown)
  | Err e => Err e
  end.

(** ** The script from the select boxes on (lines 65-112)

    The platform list is built (line 65) and the three select boxes are
    drawn (lines 66-69) before the selections are used.  A platform list
    that cannot be sorted raises a TypeError; the Y-axis box, whose
    default is the second option, raises when there is one axis column
    only.  [platform], [x] and [y] are the values the boxes return. *)

Section Session.

Context `{TextReader} `{UnicodeDigits}.

Definition session (raw : frame) (platform : option value) (x y : string) : outcome :=
  let df := prepare raw in
  match platforms df with
  | NoColumn e => Raised e
  | Unorderable => Raised TypeError
  | Offered _ =>
      if (length (axis_cols df) =? 1)%nat then Raised StreamlitAPIException
      else pipeline raw platform x y
  end.

End Session.

(** ** Frames for the examples *)

Definition reading (t p : string) (lat flux : float) : gmap string value :=
  list_to_map [("time"%string, VStr t); ("platform_name"%string, VStr p);
               ("latitude"%string, VNum lat); ("flux"%string, VNum flux)].

Definition blank_line : gmap string value :=
  list_to_map [("time"%string, NaN); ("platform_name"%string, NaN);
               ("latitude"%string, NaN); ("flux"%string, NaN)].

Definition READING_COLUMNS : list string :=
  ["time"; "platform_name"; "latitude"; "flux"]%string.

(** A one-column file whose only row holds the sentinel. *)
Definition only_sentinel : frame :=
  Frame ["flux"%string] [ {[ "flux"%string := VNum SENTINEL ]} ].

(** Two readings in one quarter of an hour, and one blank line. *)
Definition two_readings : frame :=
  Frame READING_COLUMNS
    [ reading "2021-04-05T12:01:00Z" "A" 10 (-9998);
      blank_line;
      reading "2021-04-05T12:07:30Z" "A" 10 (-10000) ].

(** Two readings in one quarter of an hour whose sum is not a number. *)
Definition opposite_infinities : frame :=
  Frame READING_COLUMNS
    [ reading "2021-04-05T12:01:00Z" "A" 10 infinity;
      reading "2021-04-05T12:07:30Z" "A" 10 neg_infinity ].

(** Ten rows: one blank, one sentinel, five of platform "A" in two
    quarters of an hour. *)
Definition ten_rows : frame :=
  Frame READING_COLUMNS
    [ reading "2021-04-05T12:01:00Z" "A" 10 1;
      reading "2021-04-05T12:02:00Z" "B" 11 7;
      reading "2021-04-05T12:07:30Z" "A" 10 2;
      blank_line;
      reading "2021-04-05T12:14:59Z" "A" 10 3;
      reading "2021-04-05T12:20:00Z" "B" 11 SENTINEL;
      reading "2021-04-05T12:45:00Z" "A" 10 10;
      reading "2021-04-05T12:46:00Z" "B" 11 8;
      reading "2021-04-05T12:59:59Z" "A" 10 12;
      reading "2021-04-05T13:00:00Z" "B" 11 9 ].

(** A frame as the RowFilter leaves it, from (latitude, flux) pairs. *)
Definition measured (l : list (float * float)) : frame :=
  Frame ["platform_name"; "latitude"; "flux"]%string
    (map (fun p => list_to_map [("platform_name"%string, VStr "A");
                                ("latitude"%string, VNum (fst p));
                                ("flux"%string, VNum (snd p))]) l).

(** Ten readings at latitude 0 and one far away, with a flux to match. *)
Definition eleven_readings : frame :=
  measured [(0, 1); (0, 2); (0, 3); (0, 4); (0, 5); (0, 6); (0, 7); (0, 8);
            (0, 9); (0, 10); (100, 1000)]%float.

Definition constant_flux : frame :=
  measured [(1, 5); (2, 5); (3, 5)]%float.

Definition single_reading : frame :=
  measured [(10, 5)]%float.

(** Three readings of the same flux, one tenth. *)
Definition tenths : frame :=
  measured [(1, 0x1.999999999999ap-4); (2, 0x1.999999999999ap-4);
            (3, 0x1.999999999999ap-4)]%float.

(** Two readings whose fluxes differ by less than the square root of
    the smallest positive number. *)
Definition tiny_flux : frame :=
  measured [(1, 0); (2, 0x1p-700)]%float.

(** The frame the RowFilter hands on, for platform "A" and the axes
    "time" and "flux". *)
Definition filtered (raw : frame) : frame :=
  match row_filter (H := integer_text) (Some (VStr "A")) "time" "flux"
                   (prepare (H := integer_text) (H0 := three_scripts) raw) with
  | Ok d => d
  | Err _ => Frame [] []
  end.

Definition resampled (data : frame) : frame :=
  match resample_if_time "time" "flux" data with
  | Ok d => d
  | Err _ => Frame [] []
  end.

(** ** More frames for the examples *)

(** Readings with a height column "hbb" and a column of remarks to its
    right. *)
Definition with_hbb : frame :=
  Frame ["time"; "platform_name"; "latitude"; "flux"; "hbb"; "remark"]%string
    [ <["hbb"%string := VNum 2]> (<["remark"%string := VStr "calm"]>
        (reading "2021-04-05T12:01:00Z" "A" 10 1));
      <["hbb"%string := VNum 3]> (<["remark"%string := VStr "gusts"]>
        (reading "2021-04-05T12:07:30Z" "A" 10 2)) ].

(** The frame a run plots, for platform "A". *)
Definition plotted (raw : frame) (x y : string) : frame :=
  match pipeline (H := integer_text) (H0 := three_scripts) raw (Some (VStr "A")) x y with
  | Plotted data => data
  | _ => Frame [] []
  end.

(** The preview table of a frame. *)
Definition previewed (x y : string) (data : frame) : frame :=
  match preview x y data with
  | Ok shown => shown
  | Err _ => Frame [] []
  end.

(** A platform column that holds a number and a text. *)
Definition mixed_platforms : frame :=
  Frame ["platform_name"; "latitude"; "flux"]%string
    [ list_to_map [("platform_name"%string, VNum 7); ("latitude"%string, VNum 1);
                   ("flux"%string, VNum 5)];
      list_to_map [("platform_name"%string, VStr "A"); ("latitude"%string, VNum 2);
                   ("flux"%string, VNum 6)] ].

(** A file whose last column is "latitude": one axis column only. *)
Definition one_axis : frame :=
  Frame ["platform_name"; "flux"; "latitude"]%string
    [ list_to_map [("platform_name"%string, VStr "A"); ("flux"%string, VNum 5);
                   ("latitude"%string, VNum 1)] ].

(** * Properties *)

(** ** Lists *)

Lemma In_first {A} (d : A) (l : list A) :
  (0 <? Z.of_nat (length l)) = true -> In (hd d l) l.
Proof. destruct l; [discriminate | now left]. Qed.

(** ** Sanitizer *)

Lemma is_sentinel_replace_cell (v : value) : is_sentinel (replace_cell v) = false.
Proof.
  unfold replace_cell. destruct (is_sentinel v) eqn:E; [reflexivity | exact E].
Qed.

Lemma cell_fmap (f : value -> value) (r : gmap string value) (c : string) :
  cell (f <$> r) c = match r !! c with Some v => f v | None => NaN end.
Proof. unfold cell. rewrite lookup_fmap. destruct (r !! c); reflexivity. Qed.

Lemma sanitize_columns (df : frame) : columns (sanitize df) = columns df.
Proof. reflexivity. Qed.

Lemma sanitize_rows (df : frame) :
  rows (sanitize df)
  = map (fmap replace_cell)
        (List.filter (fun r => negb (all_missing (columns df) r)) (rows df)).
Proof. reflexivity. Qed.

(** C2 (as amended).  Every row that leaves the Sanitizer is the image of
    a raw row that had at least one cell present, and none of its cells
    is a number equal to the sentinel. *)
Theorem sanitize_postcondition (df : frame) (r : gmap string value) :
  In r (rows (sanitize df)) ->
  (exists r0, In r0 (rows df)
              /\ all_missing (columns df) r0 = false
              /\ r = replace_cell <$> r0)
  /\ (forall c, is_sentinel (cell r c) = false).
Proof.
  rewrite sanitize_rows. intros Hin.
  apply in_map_iff in Hin as (r0 & <- & Hr0).
  apply filter_In in Hr0 as [Hr0 Hkeep].
  split.
  - exists r0. repeat split; [assumption|].
    now apply negb_true_iff in Hkeep.
  - intros c. rewrite cell_fmap.
    destruct (r0 !! c); [apply is_sentinel_replace_cell | reflexivity].
Qed.

(** ** TimeParser *)

Ltac split_tests :=
  repeat match goal with
         | |- context [?a <=? ?b] => destruct (Z.leb_spec a b)
         | |- context [?a <? ?b] => destruct (Z.ltb_spec a b)
         | |- context [?a =? ?b] => destruct (Z.eqb_spec a b)
         | H : context [?a <=? ?b] |- _ => destruct (Z.leb_spec a b)
         | H : context [?a <? ?b] |- _ => destruct (Z.ltb_spec a b)
         | H : context [?a =? ?b] |- _ => destruct (Z.eqb_spec a b)
         end.

Ltac div_lia := Z.to_euclidean_division_equations; lia.

(** The year of the era and the day of the era determine each other. *)
Lemma yoe_of_doe yoe doy :
  0 <= yoe < 400 -> 0 <= doy < march_year_length yoe ->
  let doe := yoe * 365 + yoe / 4 - yoe / 100 + doy in
  0 <= doe < 146097
  /\ (doe - doe / 1460 + doe / 36524 - doe / 146096) / 365 = yoe.
Proof.
  intros Hy Hd doe. subst doe. unfold march_year_length in *.
  split_tests; simpl in Hd; div_lia.
Qed.

Lemma doe_of_yoe doe :
  0 <= doe < 146097 ->
  let yoe := (doe - doe / 1460 + doe / 36524 - doe / 146096) / 365 in
  0 <= yoe < 400
  /\ 0 <= doe - (365 * yoe + yoe / 4 - yoe / 100) < march_year_length yoe.
Proof.
  intros Hd yoe. subst yoe. unfold march_year_length in *.
  split_tests; simpl; div_lia.
Qed.

Lemma month_of_doy mp d :
  0 <= mp <= 11 -> 1 <= d <= march_month_length mp ->
  (5 * (month_start mp + d - 1) + 2) / 153 = mp.
Proof. unfold march_month_length, month_start. intros Hmp Hd. div_lia. Qed.

Lemma doy_of_month doy :
  0 <= doy <= 365 ->
  let mp := (5 * doy + 2) / 153 in
  0 <= mp <= 11 /\ 1 <= doy - month_start mp + 1 <= march_month_length mp.
Proof. intros Hd mp. subst mp. unfold march_month_length, month_start. div_lia. Qed.

Lemma leap_march_year era yoe :
  0 <= yoe < 400 ->
  march_year_length yoe = if is_leap (yoe + era * 400 + 1) then 366 else 365.
Proof.
  intros Hy. unfold march_year_length, is_leap.
  split_tests; simpl; try reflexivity; exfalso; div_lia.
Qed.

(** The civil date of a day number given by its era, year of era, month
    from March and day. *)
Lemma civil_from_days_eq n era yoe mp d :
  0 <= yoe < 400 -> 0 <= mp <= 11 -> 1 <= d <= march_month_length mp ->
  month_start mp + d - 1 < march_year_length yoe ->
  n = era * 146097 + (yoe * 365 + yoe / 4 - yoe / 100 + (month_start mp + d - 1)) - 719468 ->
  civil_from_days n
  = (if mp <? 10 then yoe + era * 400 else yoe + era * 400 + 1,
     if mp <? 10 then mp + 3 else mp - 9, d).
Proof.
  intros Hyoe Hmp Hd Hlen Hn.
  assert (Hdoy : 0 <= month_start mp + d - 1 < march_year_length yoe)
    by (unfold month_start in *; div_lia).
  destruct (yoe_of_doe yoe _ Hyoe Hdoy) as [Hdoe Hy]. cbv zeta in Hdoe, Hy.
  set (doe := yoe * 365 + yoe / 4 - yoe / 100 + (month_start mp + d - 1)) in *.
  unfold civil_from_days. cbv zeta.
  assert (E1 : (n + 719468) / 146097 = era) by (subst n; div_lia).
  rewrite E1.
  assert (E2 : n + 719468 - era * 146097 = doe) by lia.
  rewrite E2, Hy.
  assert (E3 : doe - (365 * yoe + yoe / 4 - yoe / 100) = month_start mp + d - 1)
    by (subst doe; lia).
  rewrite E3, (month_of_doy mp d Hmp Hd).
  fold (month_start mp).
  replace (month_start mp + d - 1 - month_start mp + 1) with d by lia.
  destruct (Z.ltb_spec mp 10); split_tests; try lia; reflexivity.
Qed.

Lemma days_from_civil_eq y m d :
  1 <= m <= 12 ->
  let y' := if m <=? 2 then y - 1 else y in
  let mp := if 2 <? m then m - 3 else m + 9 in
  let era := y' / 400 in
  let yoe := y' - era * 400 in
  days_from_civil y m d
  = era * 146097 + (yoe * 365 + yoe / 4 - yoe / 100 + (month_start mp + d - 1)) - 719468
  /\ 0 <= yoe < 400 /\ 0 <= mp <= 11.
Proof.
  intros Hm y' mp era yoe. unfold days_from_civil, month_start.
  fold y' mp. fold era. fold yoe.
  split; [lia|]. subst yoe era mp. split; [div_lia | split_tests; lia].
Qed.

Lemma days_in_month_march y m :
  1 <= m <= 12 ->
  let y' := if m <=? 2 then y - 1 else y in
  let mp := if 2 <? m then m - 3 else m + 9 in
  let yoe := y' - y' / 400 * 400 in
  days_in_month y m
  = Z.min (march_month_length mp) (march_year_length yoe - month_start mp).
Proof.
  intros Hm y' mp yoe.
  assert (Hyoe : 0 <= yoe < 400) by (subst yoe; div_lia).
  assert (Hy : m <= 2 -> y = yoe + y' / 400 * 400 + 1) by (subst yoe y'; split_tests; lia).
  assert (Hcases : m = 1 \/ m = 2 \/ m = 3 \/ m = 4 \/ m = 5 \/ m = 6 \/ m = 7 \/ m = 8
                   \/ m = 9 \/ m = 10 \/ m = 11 \/ m = 12) by lia.
  rewrite (leap_march_year (y' / 400) yoe Hyoe).
  repeat destruct Hcases as [Hcases|Hcases]; subst m mp; simpl in *;
    try (rewrite <- Hy by lia);
    unfold days_in_month; simpl; destruct (is_leap _); reflexivity.
Qed.

Lemma days_from_civil_inv (y m d : Z) :
  1 <= m <= 12 -> 1 <= d <= days_in_month y m ->
  civil_from_days (days_from_civil y m d) = (y, m, d).
Proof.
  intros Hm Hd.
  destruct (days_from_civil_eq y m d Hm) as (Hn & Hyoe & Hmp).
  pose proof (days_in_month_march y m Hm) as Hlen.
  cbv zeta in Hn, Hyoe, Hmp, Hlen.
  set (y' := if m <=? 2 then y - 1 else y) in *.
  set (mp := if 2 <? m then m - 3 else m + 9) in *.
  set (era := y' / 400) in *.
  set (yoe := y' - era * 400) in *.
  rewrite (civil_from_days_eq _ era yoe mp d Hyoe Hmp) by lia.
  subst yoe y' mp. split_tests; try lia; repeat f_equal; lia.
Qed.

Lemma civil_from_days_valid (n : Z) :
  let '(y, m, d) := civil_from_days n in
  1 <= m <= 12 /\ 1 <= d <= days_in_month y m /\ days_from_civil y m d = n.
Proof.
  set (era := (n + 719468) / 146097).
  set (doe := n + 719468 - era * 146097).
  assert (Hdoe : 0 <= doe < 146097) by (subst doe era; div_lia).
  destruct (doe_of_yoe doe Hdoe) as [Hyoe Hdoy]. cbv zeta in Hyoe, Hdoy.
  set (yoe := (doe - doe / 1460 + doe / 36524 - doe / 146096) / 365) in *.
  set (doy := doe - (365 * yoe + yoe / 4 - yoe / 100)) in *.
  assert (Hdoy' : 0 <= doy <= 365) by (unfold march_year_length in Hdoy; split_tests; simpl in Hdoy; lia).
  destruct (doy_of_month doy Hdoy') as [Hmp Hd]. cbv zeta in Hmp, Hd.
  set (mp := (5 * doy + 2) / 153) in *.
  set (d := doy - month_start mp + 1) in *.
  assert (Hn : n = era * 146097
                   + (yoe * 365 + yoe / 4 - yoe / 100 + (month_start mp + d - 1)) - 719468)
    by (subst d doy doe; lia).
  rewrite (civil_from_days_eq n era yoe mp d Hyoe Hmp Hd) by (subst d; lia || exact Hn).
  set (m := if mp <? 10 then mp + 3 else mp - 9).
  set (y := if mp <? 10 then yoe + era * 400 else yoe + era * 400 + 1).
  assert (Hm : 1 <= m <= 12) by (subst m; split_tests; lia).
  destruct (days_from_civil_eq y m d Hm) as (Hdays & _ & _).
  pose proof (days_in_month_march y m Hm) as Hlen.
  cbv zeta in Hdays, Hlen.
  assert (Ey : (if m <=? 2 then y - 1 else y) = yoe + era * 400)
    by (subst y m; split_tests; lia).
  assert (Emp : (if 2 <? m then m - 3 else m + 9) = mp) by (subst m; split_tests; lia).
  rewrite Ey, Emp in Hdays, Hlen.
  assert (Eera : (yoe + era * 400) / 400 = era) by div_lia.
  rewrite Eera in Hdays, Hlen.
  replace (yoe + era * 400 - era * 400) with yoe in Hdays, Hlen by lia.
  split; [exact Hm|]. split; [subst d; lia | lia].
Qed.

(** A date whose day number is a day of a timestamp has a four-digit
    year. *)
Lemma year_bound (y m d : Z) :
  1 <= m <= 12 -> 1 <= d <= 31 ->
  -106752 <= days_from_civil y m d <= 106751 ->
  1677 <= y <= 2262.
Proof.
  unfold days_from_civil. intros Hm Hd.
  destruct (m <=? 2) eqn:E1; destruct (2 <? m) eqn:E2; intros Hdays; div_lia.
Qed.

Lemma days_in_month_bound (y m : Z) : 28 <= days_in_month y m <= 31.
Proof.
  unfold days_in_month.
  destruct (m =? 2); [destruct (is_leap y); lia|].
  destruct ((m =? 4) || (m =? 6) || (m =? 9) || (m =? 11)); lia.
Qed.

(** The date of a timestamp in range. *)
Lemma civil_in_range (t : Z) :
  in_range t = true ->
  exists y m d,
    civil_from_days (t / 86400) = (y, m, d)
    /\ 1000 <= y <= 9999 /\ 1 <= m <= 12 /\ 1 <= d <= days_in_month y m
    /\ days_from_civil y m d = t / 86400.
Proof.
  unfold in_range, TS_MIN, TS_MAX. intros Hr.
  apply andb_true_iff in Hr as [Hlo Hhi].
  pose proof (civil_from_days_valid (t / 86400)) as Hvalid.
  destruct (civil_from_days (t / 86400)) as [[y m] d].
  destruct Hvalid as (Hm & Hd & Hdays).
  pose proof (days_in_month_bound y m).
  assert (-106752 <= t / 86400) by (apply Z.div_le_lower_bound; lia).
  assert (t / 86400 < 106752) by (apply Z.div_lt_upper_bound; lia).
  assert (1677 <= y <= 2262) by (apply (year_bound y m d); lia).
  exists y, m, d. repeat split; lia.
Qed.

Ltac digit_cases k :=
  let Hk := fresh in
  assert (Hk : k = 0 \/ k = 1 \/ k = 2 \/ k = 3 \/ k = 4 \/ k = 5 \/ k = 6 \/ k = 7
               \/ k = 8 \/ k = 9) by lia;
  repeat destruct Hk as [Hk|Hk]; subst k; reflexivity.

Lemma digit_digit_char (k : Z) : 0 <= k <= 9 -> digit (digit_char k) = Some k.
Proof. intros Hk. digit_cases k. Qed.

Lemma code_digit_char (k : Z) : 0 <= k <= 9 -> code (digit_char k) = Z.to_N (48 + k).
Proof. intros Hk. digit_cases k. Qed.

(** No digit is one of the characters that end a field. *)
Lemma digit_char_plain (k : Z) :
  0 <= k <= 9 ->
  is_char "-" (code (digit_char k)) = false
  /\ is_char ":" (code (digit_char k)) = false
  /\ is_char_nocase "t" "T" (code (digit_char k)) = false
  /\ is_char_nocase "z" "Z" (code (digit_char k)) = false.
Proof. intros Hk. repeat split; digit_cases k. Qed.

Lemma two_digits (k : Z) :
  0 <= k <= 99 -> 0 <= k / 10 <= 9 /\ 0 <= k mod 10 <= 9 /\ 10 * (k / 10) + k mod 10 = k.
Proof.
  intros Hk. pose proof (Z.div_mod k 10 ltac:(lia)).
  pose proof (Z.mod_pos_bound k 10 ltac:(lia)).
  assert (0 <= k / 10) by (apply Z.div_pos; lia).
  assert (k / 10 < 10) by (apply Z.div_lt_upper_bound; lia).
  lia.
Qed.

Lemma take_until_field {A} (sep : A -> bool) (tok rest : list A) (c : A) :
  Forall (fun a => sep a = false) tok -> sep c = true ->
  take_until sep (tok ++ c :: rest) = Some (tok, rest).
Proof.
  intros Htok Hc. induction Htok as [|a tok Ha _ IH]; simpl.
  - now rewrite Hc.
  - now rewrite Ha, IH.
Qed.

Lemma pad2_plain (sep : N -> bool) (k : Z) :
  (forall j, 0 <= j <= 9 -> sep (code (digit_char j)) = false) ->
  0 <= k <= 99 -> Forall (fun a => sep a = false) (map code (pad2 k)).
Proof.
  intros Hsep Hk. destruct (two_digits k Hk) as (Ha & Hb & _).
  unfold pad2. repeat constructor; now apply Hsep.
Qed.

Lemma pad4_plain (sep : N -> bool) (k : Z) :
  (forall j, 0 <= j <= 9 -> sep (code (digit_char j)) = false) ->
  0 <= k <= 9999 -> Forall (fun a => sep a = false) (map code (pad4 k)).
Proof.
  intros Hsep Hk. unfold pad4.
  repeat constructor; apply Hsep; Z.to_euclidean_division_equations; lia.
Qed.

(** The clock fields of a timestamp add up to its time of day. *)
Lemma clock_fields (t : Z) :
  let tod := t mod 86400 in
  0 <= tod / 3600 <= 23
  /\ 0 <= tod mod 3600 / 60 <= 59
  /\ 0 <= tod mod 60 <= 59
  /\ t / 86400 * 86400 + tod / 3600 * 3600 + tod mod 3600 / 60 * 60 + tod mod 60 = t.
Proof. simpl. Z.to_euclidean_division_equations. lia. Qed.

(** Formatting the instant of six valid fields with seconds below sixty
    gives back their zero-padded text. *)
Lemma format_render (y m d h mi s : Z) :
  0 <= h -> 0 <= mi -> 0 <= s <= 59 ->
  valid_fields y m d h mi s = true ->
  let t := days_from_civil y m d * 86400 + h * 3600 + mi * 60 + s in
  format_chars t = render_fields y m d h mi s.
Proof.
  intros Hh Hmi Hs Hvalid t. unfold valid_fields in Hvalid.
  repeat (apply andb_true_iff in Hvalid as [Hvalid ?]).
  assert (Hday : t / 86400 = days_from_civil y m d) by (subst t; div_lia).
  unfold format_chars. rewrite Hday, days_from_civil_inv by lia.
  assert (Htod : t mod 86400 = h * 3600 + mi * 60 + s) by (subst t; div_lia).
  rewrite Htod. f_equal; div_lia.
Qed.

(** The seconds 60 and 61 belong to the next minute. *)
Lemma carry_seconds (y m d h mi s : Z) :
  days_from_civil y m d * 86400 + h * 3600 + mi * 60 + (60 + s)
  = days_from_civil y m d * 86400 + h * 3600 + (mi + 1) * 60 + s.
Proof. lia. Qed.

Lemma digit_inv (a : ascii) (v : Z) :
  digit a = Some v -> 0 <= v <= 9 /\ a = digit_char v.
Proof.
  unfold digit, digit_char. intros Hd.
  destruct ((48 <=? Z.of_N (N_of_ascii a)) && (Z.of_N (N_of_ascii a) <=? 57)) eqn:E;
    [|discriminate].
  injection Hd as <-. apply andb_true_iff in E as [Hlo Hhi].
  split; [lia|].
  replace (48 + (Z.of_N (N_of_ascii a) - 48)) with (Z.of_N (N_of_ascii a)) by lia.
  now rewrite N2Z.id, ascii_N_embedding.
Qed.

Lemma is_digit_inv (a : ascii) :
  is_digit a = true -> exists v, 0 <= v <= 9 /\ a = digit_char v.
Proof.
  unfold is_digit. destruct (digit a) as [v|] eqn:E; [|discriminate].
  intros _. exists v. now apply digit_inv.
Qed.

Lemma pad2_digits (a b : Z) :
  0 <= a <= 9 -> 0 <= b <= 9 ->
  [digit_char a; digit_char b] = pad2 (10 * a + b) /\ 0 <= 10 * a + b <= 99.
Proof.
  intros Ha Hb. unfold pad2. split; [|lia].
  f_equal; [|f_equal]; f_equal; Z.to_euclidean_division_equations; lia.
Qed.

Lemma pad4_digits (a b c d : Z) :
  0 <= a <= 9 -> 0 <= b <= 9 -> 0 <= c <= 9 -> 0 <= d <= 9 ->
  [digit_char a; digit_char b; digit_char c; digit_char d]
  = pad4 (1000 * a + 100 * b + 10 * c + d)
  /\ 0 <= 1000 * a + 100 * b + 10 * c + d <= 9999.
Proof.
  intros Ha Hb Hc Hd. unfold pad4. split; [|lia].
  repeat (f_equal; try (Z.to_euclidean_division_equations; lia)).
Qed.

(** A strict text is the zero-padded text of six fields. *)
Lemma strict_render (l : list ascii) :
  strict_chars l = true ->
  exists y m d h mi s,
    l = render_fields y m d h mi s
    /\ 0 <= y <= 9999 /\ 0 <= m <= 99 /\ 0 <= d <= 99
    /\ 0 <= h <= 99 /\ 0 <= mi <= 99 /\ 0 <= s <= 99.
Proof.
  unfold strict_chars.
  do 20 (destruct l as [|? l]; [discriminate|]). destruct l; [|discriminate].
  intros Hs. simpl in Hs.
  repeat match goal with
         | E : _ && _ = true |- _ => apply andb_true_iff in E as [? ?]
         | E : Ascii.eqb _ _ = true |- _ => apply Ascii.eqb_eq in E; subst
         | E : is_digit _ = true |- _ =>
             apply is_digit_inv in E as (? & ? & ->)
         end.
  unfold render_fields.
  match goal with
  | |- exists y m d h mi s,
        [digit_char ?y1; digit_char ?y2; digit_char ?y3; digit_char ?y4; _;
         digit_char ?m1; digit_char ?m2; _; digit_char ?d1; digit_char ?d2; _;
         digit_char ?h1; digit_char ?h2; _; digit_char ?n1; digit_char ?n2; _;
         digit_char ?c1; digit_char ?c2; _] = _ /\ _ =>
      destruct (pad4_digits y1 y2 y3 y4) as [Ey ?]; [lia..|];
      destruct (pad2_digits m1 m2) as [Em ?]; [lia..|];
      destruct (pad2_digits d1 d2) as [Ed ?]; [lia..|];
      destruct (pad2_digits h1 h2) as [Eh ?]; [lia..|];
      destruct (pad2_digits n1 n2) as [En ?]; [lia..|];
      destruct (pad2_digits c1 c2) as [Ec ?]; [lia..|];
      exists (1000 * y1 + 100 * y2 + 10 * y3 + y4), (10 * m1 + m2), (10 * d1 + d2),
             (10 * h1 + h2), (10 * n1 + n2), (10 * c1 + c2);
      rewrite <- Ey, <- Em, <- Ed, <- Eh, <- En, <- Ec
  end.
  repeat split; lia.
Qed.

Lemma is_digit_digit_char (k : Z) : 0 <= k <= 9 -> is_digit (digit_char k) = true.
Proof. intros Hk. unfold is_digit. now rewrite digit_digit_char. Qed.

Lemma strict_format_chars (t : Z) : in_range t = true -> strict_chars (format_chars t) = true.
Proof.
  intros Hr.
  destruct (civil_in_range t Hr) as (y & m & d & Hcivil & Hy & Hm & Hd & _).
  unfold format_chars. rewrite Hcivil.
  pose proof (days_in_month_bound y m).
  destruct (clock_fields t) as (Hh & Hmi & Hs & _).
  unfold render_fields, pad4, pad2, strict_chars. simpl.
  rewrite !is_digit_digit_char by div_lia.
  reflexivity.
Qed.

(** The seconds of a zero-padded text are below sixty when their first
    digit is at most 5. *)
Lemma seconds_render (y m d h mi s : Z) :
  0 <= s <= 99 ->
  seconds_below_sixty (render_fields y m d h mi s) = (s <=? 59).
Proof.
  intros Hs. destruct (two_digits s Hs) as (Ha & _ & _).
  unfold seconds_below_sixty, render_fields, pad4, pad2. simpl.
  rewrite digit_digit_char by exact Ha.
  destruct (Z.leb_spec (s / 10) 5), (Z.leb_spec s 59); try reflexivity; exfalso; div_lia.
Qed.

Lemma canonical_format_chars (t : Z) :
  in_range t = true -> seconds_below_sixty (format_chars t) = true.
Proof.
  intros Hr. unfold format_chars.
  destruct (civil_from_days (t / 86400)) as [[y m] d].
  destruct (clock_fields t) as (_ & _ & Hs & _).
  rewrite seconds_render by lia. apply Z.leb_le. lia.
Qed.

(** A text of ASCII characters has one code point for every byte. *)
Lemma code_points_ascii (l : list ascii) :
  Forall (fun a => (N_of_ascii a < 128)%N) l -> code_points l = Some (map code l).
Proof.
  induction 1 as [|a l Ha _ IH]; [reflexivity|].
  simpl. apply N.ltb_lt in Ha. rewrite Ha, IH. reflexivity.
Qed.

Lemma digit_char_ascii (k : Z) : 0 <= k <= 9 -> (N_of_ascii (digit_char k) < 128)%N.
Proof.
  intros Hk. change (N_of_ascii (digit_char k)) with (code (digit_char k)).
  rewrite code_digit_char by exact Hk. lia.
Qed.

Lemma render_ascii (y m d h mi s : Z) :
  0 <= y <= 9999 -> 0 <= m <= 99 -> 0 <= d <= 99 ->
  0 <= h <= 99 -> 0 <= mi <= 99 -> 0 <= s <= 99 ->
  Forall (fun a => (N_of_ascii a < 128)%N) (render_fields y m d h mi s).
Proof.
  intros Hy Hm Hd Hh Hmi Hs. unfold render_fields, pad4, pad2. simpl.
  repeat constructor;
    try (apply digit_char_ascii; Z.to_euclidean_division_equations; lia);
    vm_compute; reflexivity.
Qed.

Section TimeFacts.

Context `{UnicodeDigits}.

Lemma any_digit_char (k : Z) : 0 <= k <= 9 -> any_digit (code (digit_char k)) = Some k.
Proof. intros Hk. digit_cases k. Qed.

(** The four digits of a year. *)
Lemma year_field_pad4 (y : Z) :
  0 <= y <= 9999 -> match_field YEAR (map code (pad4 y)) = Some y.
Proof.
  intros Hy.
  pose proof (Z.div_mod y 10 ltac:(lia)).
  pose proof (Z.mod_pos_bound y 10 ltac:(lia)).
  pose proof (Z.div_mod (y / 10) 10 ltac:(lia)).
  pose proof (Z.mod_pos_bound (y / 10) 10 ltac:(lia)).
  pose proof (Z.div_mod (y / 100) 10 ltac:(lia)).
  pose proof (Z.mod_pos_bound (y / 100) 10 ltac:(lia)).
  assert (E100 : y / 100 = y / 10 / 10) by (rewrite Z.div_div; [reflexivity|lia|lia]).
  assert (E1000 : y / 1000 = y / 100 / 10) by (rewrite Z.div_div; [reflexivity|lia|lia]).
  assert (0 <= y / 1000) by (apply Z.div_pos; lia).
  assert (y / 1000 < 10) by (apply Z.div_lt_upper_bound; lia).
  unfold match_field, YEAR, pad4. cbn [map match_places class_value].
  rewrite !any_digit_char by lia. cbn [mbind option_bind]. f_equal. lia.
Qed.

Ltac two_digit_cases :=
  intros a b Ha Hb;
  assert (Ea : a = 0 \/ a = 1 \/ a = 2 \/ a = 3 \/ a = 4 \/ a = 5 \/ a = 6 \/ a = 7
               \/ a = 8 \/ a = 9) by lia;
  assert (Eb : b = 0 \/ b = 1 \/ b = 2 \/ b = 3 \/ b = 4 \/ b = 5 \/ b = 6 \/ b = 7
               \/ b = 8 \/ b = 9) by lia;
  repeat destruct Ea as [Ea|Ea]; subst a;
    repeat destruct Eb as [Eb|Eb]; subst b; reflexivity.

(** A group against two ASCII digits: it matches exactly the numbers of
    its range, and yields the number. *)
Lemma month_group (a b : Z) :
  0 <= a <= 9 -> 0 <= b <= 9 ->
  match_field MONTH [code (digit_char a); code (digit_char b)]
  = if (1 <=? 10 * a + b) && (10 * a + b <=? 12) then Some (10 * a + b) else None.
Proof. revert a b. two_digit_cases. Qed.

Lemma day_group (a b : Z) :
  0 <= a <= 9 -> 0 <= b <= 9 ->
  match_field DAY [code (digit_char a); code (digit_char b)]
  = if (1 <=? 10 * a + b) && (10 * a + b <=? 31) then Some (10 * a + b) else None.
Proof. revert a b. two_digit_cases. Qed.

Lemma hour_group (a b : Z) :
  0 <= a <= 9 -> 0 <= b <= 9 ->
  match_field HOUR [code (digit_char a); code (digit_char b)]
  = if (0 <=? 10 * a + b) && (10 * a + b <=? 23) then Some (10 * a + b) else None.
Proof. revert a b. two_digit_cases. Qed.

Lemma minute_group (a b : Z) :
  0 <= a <= 9 -> 0 <= b <= 9 ->
  match_field MINUTE [code (digit_char a); code (digit_char b)]
  = if (0 <=? 10 * a + b) && (10 * a + b <=? 59) then Some (10 * a + b) else None.
Proof. revert a b. two_digit_cases. Qed.

Lemma second_group (a b : Z) :
  0 <= a <= 9 -> 0 <= b <= 9 ->
  match_field SECOND [code (digit_char a); code (digit_char b)]
  = if (0 <=? 10 * a + b) && (10 * a + b <=? 61) then Some (10 * a + b) else None.
Proof. revert a b. two_digit_cases. Qed.

Lemma group_pad2 (alts : list (list char_class)) (lo hi k : Z) :
  (forall a b, 0 <= a <= 9 -> 0 <= b <= 9 ->
     match_field alts [code (digit_char a); code (digit_char b)]
     = if (lo <=? 10 * a + b) && (10 * a + b <=? hi) then Some (10 * a + b) else None) ->
  0 <= k <= 99 ->
  match_field alts (map code (pad2 k))
  = if (lo <=? k) && (k <=? hi) then Some k else None.
Proof.
  intros Hgroup Hk. destruct (two_digits k Hk) as (Ha & Hb & Hsum).
  unfold pad2. cbn [map]. rewrite (Hgroup _ _ Ha Hb). now rewrite Hsum.
Qed.

Ltac token_step :=
  rewrite take_until_field;
  [ | first [apply pad4_plain | apply pad2_plain];
      [intros j Hj; apply (digit_char_plain j Hj) | lia]
    | reflexivity ];
  cbn [mbind option_bind].

(** Parsing the zero-padded text of six fields. *)
Lemma parse_render (y m d h mi s : Z) :
  0 <= y <= 9999 -> 0 <= m <= 99 -> 0 <= d <= 99 ->
  0 <= h <= 99 -> 0 <= mi <= 99 -> 0 <= s <= 99 ->
  parse_chars (map code (render_fields y m d h mi s))
  = let t := days_from_civil y m d * 86400 + h * 3600 + mi * 60 + s in
    if valid_fields y m d h mi s && in_range t then Some t else None.
Proof.
  intros Hy Hm Hd Hh Hmi Hs. unfold parse_chars, render_fields.
  repeat (rewrite map_app || rewrite map_cons).
  pose proof (days_in_month_bound y m) as Hdim.
  token_step. rewrite year_field_pad4 by lia. cbn [mbind option_bind].
  token_step. rewrite (group_pad2 _ _ _ _ month_group) by lia.
  destruct ((1 <=? m) && (m <=? 12)) eqn:Em; cbn [mbind option_bind].
  2:{ unfold valid_fields. cbv zeta.
      destruct (1 <=? y), (1 <=? m), (m <=? 12); try discriminate; reflexivity. }
  token_step. rewrite (group_pad2 _ _ _ _ day_group) by lia.
  destruct ((1 <=? d) && (d <=? 31)) eqn:Ed; cbn [mbind option_bind].
  2:{ unfold valid_fields. cbv zeta.
      destruct (1 <=? y), (1 <=? m), (m <=? 12); try reflexivity.
      destruct (Z.leb_spec 1 d), (Z.leb_spec d 31), (Z.leb_spec d (days_in_month y m));
        try discriminate; try reflexivity; lia. }
  token_step. rewrite (group_pad2 _ _ _ _ hour_group) by lia.
  destruct ((0 <=? h) && (h <=? 23)) eqn:Eh; cbn [mbind option_bind].
  2:{ unfold valid_fields. cbv zeta.
      destruct (Z.leb_spec 0 h), (Z.leb_spec h 23); try discriminate; try lia.
      now rewrite !andb_false_r. }
  token_step. rewrite (group_pad2 _ _ _ _ minute_group) by lia.
  destruct ((0 <=? mi) && (mi <=? 59)) eqn:Emi; cbn [mbind option_bind].
  2:{ unfold valid_fields. cbv zeta.
      destruct (Z.leb_spec 0 mi), (Z.leb_spec mi 59); try discriminate; try lia.
      now rewrite !andb_false_r. }
  token_step. rewrite (group_pad2 _ _ _ _ second_group) by lia.
  destruct ((0 <=? s) && (s <=? 61)) eqn:Es; cbn [mbind option_bind].
  2:{ unfold valid_fields. cbv zeta.
      destruct (Z.leb_spec 0 s), (Z.leb_spec s 61); try discriminate; try lia.
      now rewrite !andb_false_r. }
  reflexivity.
Qed.

Lemma parse_format_chars (t : Z) :
  in_range t = true -> parse_chars (map code (format_chars t)) = Some t.
Proof.
  intros Hr.
  destruct (civil_in_range t Hr) as (y & m & d & Hcivil & Hy & Hm & Hd & Hdays).
  unfold format_chars. rewrite Hcivil.
  pose proof (days_in_month_bound y m).
  destruct (clock_fields t) as (Hh & Hmi & Hs & Hsum).
  set (tod := t mod 86400) in *.
  rewrite parse_render by lia. cbv zeta.
  rewrite Hdays, Hsum, Hr.
  unfold valid_fields.
  repeat (rewrite (proj2 (Z.leb_le _ _)) by lia). reflexivity.
Qed.

Lemma format_chars_ascii (t : Z) :
  in_range t = true -> Forall (fun a => (N_of_ascii a < 128)%N) (format_chars t).
Proof.
  intros Hr.
  destruct (civil_in_range t Hr) as (y & m & d & Hcivil & Hy & Hm & Hd & _).
  unfold format_chars. rewrite Hcivil.
  pose proof (days_in_month_bound y m).
  destruct (clock_fields t) as (Hh & Hmi & Hs & _).
  apply render_ascii; lia.
Qed.

Lemma parse_format (t : Z) : in_range t = true -> parse_time (format_time t) = Some t.
Proof.
  intros Hr. unfold parse_time, format_time.
  rewrite list_ascii_of_string_of_list_ascii.
  rewrite code_points_ascii by now apply format_chars_ascii.
  cbn [mbind option_bind]. now apply parse_format_chars.
Qed.

Lemma parse_chars_in_range (l : list N) (t : Z) :
  parse_chars l = Some t -> in_range t = true.
Proof.
  unfold parse_chars. intros Hp.
  repeat match type of Hp with
         | context [take_until ?f ?l] =>
             destruct (take_until f l) as [[? ?]|]; cbn [mbind option_bind] in Hp;
             [|discriminate]
         | context [match_field ?g ?l] =>
             destruct (match_field g l); cbn [mbind option_bind] in Hp; [|discriminate]
         end.
  match type of Hp with
  | match ?l with _ => _ end = _ => destruct l; [|discriminate]
  end.
  match type of Hp with
  | (if ?b then _ else _) = _ => destruct b eqn:E; [|discriminate]
  end.
  injection Hp as <-. now apply andb_true_iff in E as [_ E].
Qed.

Lemma parse_time_in_range (s : string) (t : Z) :
  parse_time s = Some t -> in_range t = true.
Proof.
  unfold parse_time. destruct (code_points _) as [l|]; [|discriminate].
  apply parse_chars_in_range.
Qed.

(** A strict text that parses: its six fields are valid and add up to
    the instant. *)
Lemma parse_strict (s : string) (t : Z) :
  is_strict s = true -> parse_time s = Some t ->
  exists y m d h mi c,
    list_ascii_of_string s = render_fields y m d h mi c
    /\ 0 <= h /\ 0 <= mi /\ 0 <= c <= 99
    /\ valid_fields y m d h mi c = true
    /\ t = days_from_civil y m d * 86400 + h * 3600 + mi * 60 + c.
Proof.
  unfold is_strict, parse_time. intros Hstrict Hparse.
  apply strict_render in Hstrict as (y & m & d & h & mi & c & Hl & Hb).
  rewrite Hl in Hparse.
  rewrite code_points_ascii in Hparse by (apply render_ascii; lia).
  cbn [mbind option_bind] in Hparse.
  rewrite parse_render in Hparse by lia. cbv zeta in Hparse.
  destruct (valid_fields y m d h mi c && in_range _) eqn:E; [|discriminate].
  injection Hparse as <-. apply andb_true_iff in E as [Hvalid Hr].
  exists y, m, d, h, mi, c. repeat split; (assumption || lia).
Qed.

Lemma format_parse_canonical (s : string) (t : Z) :
  is_canonical s = true -> parse_time s = Some t -> format_time t = s.
Proof.
  unfold is_canonical. intros Hcanon Hparse.
  apply andb_true_iff in Hcanon as [Hstrict Hsec].
  destruct (parse_strict s t Hstrict Hparse)
    as (y & m & d & h & mi & c & Hl & Hh & Hmi & Hc & Hvalid & ->).
  rewrite Hl, seconds_render in Hsec by exact Hc. apply Z.leb_le in Hsec.
  unfold format_time. rewrite format_render by (assumption || lia).
  rewrite <- Hl. apply string_of_list_ascii_of_string.
Qed.

Lemma canonical_format (t : Z) : in_range t = true -> is_canonical (format_time t) = true.
Proof.
  intros Hr. unfold is_canonical, format_time.
  rewrite list_ascii_of_string_of_list_ascii.
  now rewrite strict_format_chars, canonical_format_chars.
Qed.

Lemma to_datetime_text (s : string) (t : Z) :
  to_datetime (VStr s) = VTime t <-> parse_time s = Some t.
Proof.
  simpl. destruct (parse_time s); split; intros E; try discriminate;
    injection E as ->; reflexivity.
Qed.


End TimeFacts.

(** ** Aggregates *)

(** The depth given to the pairwise sum is enough: any depth from the
    length of the list on gives the same sum. *)
Lemma pairwise_sum_depth (d1 d2 : nat) (l : list float) :
  (length l <= d1)%nat -> (length l <= d2)%nat ->
  pairwise_sum d1 l = pairwise_sum d2 l.
Proof.
  revert d2 l. induction d1 as [|d1 IH]; intros d2 l H1 H2.
  - assert (Hnil : length l = 0%nat) by lia.
    destruct d2; simpl; rewrite Hnil; reflexivity.
  - destruct d2 as [|d2].
    + assert (Hnil : length l = 0%nat) by lia. simpl. rewrite Hnil. reflexivity.
    + cbn [pairwise_sum].
      destruct (Nat.ltb_spec (length l) 8); [reflexivity|].
      destruct (Nat.leb_spec (length l) 128); [reflexivity|].
      set (n := length l) in *.
      set (n2 := (n / 2 - (n / 2) mod 8)%nat).
      assert (Hn2 : (0 < n2 < n)%nat).
      { subst n2. pose proof (Nat.mod_upper_bound (n / 2) 8 ltac:(lia)).
        pose proof (Nat.div_mod_eq n 2). pose proof (Nat.mod_upper_bound n 2 ltac:(lia)).
        lia. }
      f_equal; apply IH; rewrite ?length_take, ?length_drop; fold n; lia.
Qed.

Lemma std_single (v : float) : std [v] = nan.
Proof. unfold std, present. simpl. now destruct (negb (is_nan v)). Qed.

Lemma std_nil : std [] = nan.
Proof. reflexivity. Qed.

Lemma mean_nil : mean [] = nan.
Proof. reflexivity. Qed.

Lemma group_mean_nil : group_mean [] = nan.
Proof. reflexivity. Qed.

(** ** Resampler *)

Lemma fold_min_spec (b : Z) (bs : list Z) :
  In (fold_right Z.min b bs) (b :: bs)
  /\ forall k, In k (b :: bs) -> fold_right Z.min b bs <= k.
Proof.
  induction bs as [|a bs [IHin IHle]]; simpl.
  - split; [now left | intros k [<-|[]]; lia].
  - split.
    + destruct (Z.min_spec a (fold_right Z.min b bs)) as [[_ ->]|[_ ->]].
      * right. now left.
      * simpl in IHin. destruct IHin as [Hb|Hbs]; [now left | right; now right].
    + intros k [<-|[<-|Hk]].
      * specialize (IHle b (or_introl eq_refl)). lia.
      * lia.
      * specialize (IHle k (or_intror Hk)). lia.
Qed.

Lemma fold_max_spec (b : Z) (bs : list Z) :
  forall k, In k (b :: bs) -> k <= fold_right Z.max b bs.
Proof.
  induction bs as [|a bs IH]; simpl.
  - intros k [<-|[]]; lia.
  - intros k [<-|[<-|Hk]].
    + specialize (IH b (or_introl eq_refl)). lia.
    + lia.
    + specialize (IH k (or_intror Hk)). lia.
Qed.

Lemma ladder_sorted (lo : Z) (s n : nat) :
  StronglySorted Z.lt (map (fun k => lo + BUCKET * Z.of_nat k) (seq s n)).
Proof.
  revert s. induction n as [|n IH]; intros s; simpl; constructor.
  - apply IH.
  - apply List.Forall_forall. intros b Hb.
    apply in_map_iff in Hb as (k & <- & Hk). apply in_seq in Hk.
    unfold BUCKET. lia.
Qed.

Lemma bins_sorted (pts : list (Z * float)) : StronglySorted Z.lt (bins pts).
Proof.
  unfold bins. destruct (map _ pts); [constructor | apply ladder_sorted].
Qed.

Lemma filter_sorted {A} (R : A -> A -> Prop) (keep : A -> bool) (l : list A) :
  StronglySorted R l -> StronglySorted R (List.filter keep l).
Proof.
  induction 1 as [|a l Hl IH Ha]; simpl; [constructor|].
  destruct (keep a); [|exact IH].
  constructor; [exact IH|].
  apply List.Forall_forall. intros b Hb. apply filter_In in Hb as [Hb _].
  rewrite List.Forall_forall in Ha. now apply Ha.
Qed.

Lemma bucket_means_edges (pts : list (Z * float)) :
  map fst (bucket_means pts)
  = List.filter (fun b => negb (is_nan (group_mean (bucket_values b pts)))) (bins pts).
Proof.
  unfold bucket_means. induction (bins pts) as [|b l IH]; simpl; [reflexivity|].
  destruct (negb (is_nan (group_mean (bucket_values b pts)))); simpl; now rewrite IH.
Qed.

Lemma bucket_means_sorted (pts : list (Z * float)) :
  StronglySorted Z.lt (map fst (bucket_means pts)).
Proof. rewrite bucket_means_edges. apply filter_sorted, bins_sorted. Qed.

(** The bucket of every stamped row is one of the bins. *)
Lemma bucket_in_bins (pts : list (Z * float)) (p : Z * float) :
  In p pts -> In (bucket (fst p)) (bins pts).
Proof.
  intros Hp. unfold bins.
  assert (Hb : In (bucket (fst p)) (map (fun p => bucket (fst p)) pts))
    by (apply in_map_iff; eauto).
  destruct (map (fun p => bucket (fst p)) pts) as [|b bs] eqn:E; [destruct Hb|].
  destruct (fold_min_spec b bs) as [Hlo_in Hlo].
  pose proof (fold_max_spec b bs) as Hhi.
  set (lo := fold_right Z.min b bs) in *. set (hi := fold_right Z.max b bs) in *.
  assert (Hlo_edge : exists q, lo = BUCKET * q).
  { rewrite <- E in Hlo_in. apply in_map_iff in Hlo_in as (p0 & <- & _).
    unfold bucket. eauto. }
  destruct Hlo_edge as [q Hq].
  specialize (Hlo _ Hb). specialize (Hhi _ Hb).
  unfold bucket in *. set (q0 := fst p / BUCKET) in *.
  unfold BUCKET in *.
  apply in_map_iff. exists (Z.to_nat (q0 - q)). split; [lia|].
  apply in_seq. split; [lia|]. simpl.
  assert (q0 - q <= (hi - lo) / 900) by (apply Z.div_le_lower_bound; lia).
  lia.
Qed.


Lemma bucket_values_nonempty (b : Z) (pts : list (Z * float)) :
  is_nan (group_mean (bucket_values b pts)) = false ->
  exists p, In p pts /\ bucket (fst p) = b.
Proof.
  unfold bucket_values. intros Hm.
  destruct (List.filter (fun p => bucket (fst p) =? b) pts) as [|p l] eqn:E.
  - simpl in Hm. rewrite group_mean_nil in Hm. discriminate.
  - assert (Hp : In p (List.filter (fun p => bucket (fst p) =? b) pts))
      by (rewrite E; now left).
    apply filter_In in Hp as [Hp Hb]. exists p. split; [exact Hp | lia].
Qed.

Lemma bucket_means_In (pts : list (Z * float)) (b : Z) (m : float) :
  In (b, m) (bucket_means pts) <->
  (exists p, In p pts /\ bucket (fst p) = b)
  /\ m = group_mean (bucket_values b pts)
  /\ is_nan m = false.
Proof.
  unfold bucket_means. rewrite filter_In, in_map_iff. simpl. split.
  - intros [(b' & [= -> <-] & _) Hm]. apply negb_true_iff in Hm.
    split; [now apply bucket_values_nonempty | now split].
  - intros ((p & Hp & <-) & -> & Hm). split; [|now rewrite Hm].
    exists (bucket (fst p)). split; [reflexivity | now apply bucket_in_bins].
Qed.

Lemma insert_by_time_In (p q : Z * float) (l : list (Z * float)) :
  In q (insert_by_time p l) <-> q = p \/ In q l.
Proof.
  induction l as [|a l IH]; simpl.
  - intuition.
  - destruct (fst p <=? fst a); simpl; [intuition|].
    rewrite IH. intuition.
Qed.

Lemma by_time_In (q : Z * float) (l : list (Z * float)) :
  In q (by_time l) <-> In q l.
Proof.
  induction l as [|a l IH]; simpl; [reflexivity|].
  rewrite insert_by_time_In, IH. intuition.
Qed.


(** ** Normalizer *)

Lemma normalize_with_columns cut mu sigma c data :
  columns (normalize_with cut mu sigma c data) = columns data.
Proof. unfold normalize_with. now destruct (negb _). Qed.

(** Both branches of the loop body at once: the kept rows, each with
    column [c] overwritten. *)
Lemma normalize_with_rows cut mu sigma c data :
  rows (normalize_with cut mu sigma c data)
  = map (fun r => <[c := VNum (if negb (PrimFloat.eqb sigma 0)
                               then zscore mu sigma (cell r c) else 0%float)]> r)
        (kept_rows cut mu sigma c data).
Proof. unfold normalize_with, kept_rows. now destruct (negb _). Qed.

Lemma kept_rows_In cut mu sigma c data r :
  In r (kept_rows cut mu sigma c data) ->
  In r (rows data)
  /\ (PrimFloat.eqb sigma 0 = false -> within_cut cut mu sigma c r = true).
Proof.
  unfold kept_rows. destruct (PrimFloat.eqb sigma 0); simpl.
  - intros Hr. split; [exact Hr | discriminate].
  - intros Hr. apply filter_In in Hr as [Hr Hz]. now split.
Qed.

Lemma normalizer_unfold x y data :
  normalizer x y data = normalize_step (normalize_step data x) y.
Proof. reflexivity. Qed.

Lemma normalize_step_columns data c :
  columns (normalize_step data c) = columns data.
Proof.
  unfold normalize_step. destruct (String.eqb c "time"); [reflexivity|].
  apply normalize_with_columns.
Qed.

(** What one turn of the loop does to a row that it keeps. *)
Lemma normalize_step_In (data : frame) (c : string) (r : gmap string value) :
  In r (rows (normalize_step data c)) ->
  exists r0, In r0 (rows data)
    /\ (forall k, k <> c -> r !! k = r0 !! k)
    /\ (c = "time"%string -> r = r0)
    /\ (c <> "time"%string ->
        exists f, r !! c = Some (VNum f)
          /\ PrimFloat.leb (PrimFloat.abs f) Z_OUTLIER_CUT = true
          /\ (f = 0%float
              \/ f = zscore (mean (numbers c data)) (std (numbers c data)) (cell r0 c))).
Proof.
  unfold normalize_step. destruct (String.eqb_spec c "time") as [-> | Hc].
  - intros Hr. exists r. repeat split; auto. congruence.
  - unfold normalize_column, normalize_column_cut.
    rewrite normalize_with_rows. intros Hr.
    apply in_map_iff in Hr as (r0 & <- & Hr0).
    apply kept_rows_In in Hr0 as [Hr0 Hcut].
    exists r0. split; [exact Hr0|]. split; [|split; [congruence|]].
    + intros k Hk. now rewrite lookup_insert_ne.
    + intros _. eexists. split; [apply lookup_insert_eq|].
      destruct (PrimFloat.eqb (std (numbers c data)) 0) eqn:E; simpl.
      * split; [reflexivity | now left].
      * split; [now apply Hcut | now right].
Qed.

Lemma normalize_with_constant cut mu sigma c data :
  PrimFloat.eqb sigma 0 = true ->
  rows (normalize_with cut mu sigma c data)
  = map (fun r => <[c := VNum 0]> r) (rows data).
Proof. intros Hsigma. unfold normalize_with. now rewrite Hsigma. Qed.

(** The values of another column are not touched by a turn. *)
Lemma numbers_other (cut mu sigma : float) (c k : string) (data : frame) :
  k <> c -> PrimFloat.eqb sigma 0 = true ->
  numbers k (normalize_with cut mu sigma c data) = numbers k data.
Proof.
  intros Hk Hsigma. unfold numbers, column.
  rewrite normalize_with_constant by exact Hsigma. rewrite !map_map.
  apply map_ext. intros r. unfold cell. now rewrite lookup_insert_ne.
Qed.

Lemma eqb_nan_zero : PrimFloat.eqb nan 0 = false.
Proof. reflexivity. Qed.

(** The standard deviation is a number only when two values are
    present. *)
Lemma std_two_present (l : list float) :
  is_nan (std l) = false -> (2 <= length (present l))%nat.
Proof.
  unfold std. destruct (Nat.leb_spec (length (present l)) 1) as [Hn|Hn]; [discriminate|].
  intros _. lia.
Qed.

(** C3 (as amended).  A turn of the loop on a column whose computed
    standard deviation compares equal to zero rejects no row and writes
    0.0 in every cell of the column, whatever the cut is; the other
    columns keep their values, so a later turn computes its mean and
    standard deviation over all the rows.  Such a column holds at least
    two values. *)
Theorem normalize_column_zero_variance (cut : float) (c : string) (data : frame) :
  PrimFloat.eqb (std (numbers c data)) 0 = true ->
  rows (normalize_column_cut cut c data)
  = map (fun r => <[c := VNum 0]> r) (rows data)
  /\ length (rows (normalize_column_cut cut c data)) = length (rows data)
  /\ (forall r, In r (rows (normalize_column_cut cut c data)) -> r !! c = Some (VNum 0))
  /\ (forall k, k <> c -> numbers k (normalize_column_cut cut c data) = numbers k data)
  /\ (2 <= length (present (numbers c data)))%nat.
Proof.
  intros Hsigma.
  assert (Hrows : rows (normalize_column_cut cut c data)
                  = map (fun r => <[c := VNum 0]> r) (rows data)).
  { unfold normalize_column_cut. now apply normalize_with_constant. }
  split; [exact Hrows|]. rewrite Hrows. split; [apply length_map|].
  split; [|split].
  - intros r Hr. apply in_map_iff in Hr as (r0 & <- & _). apply lookup_insert_eq.
  - intros k Hk. unfold normalize_column_cut. now apply numbers_other.
  - apply std_two_present. destruct (is_nan (std (numbers c data))) eqn:E; [|reflexivity].
    unfold is_nan in E. apply negb_true_iff in E.
    assert (Hnan : std (numbers c data) = nan).
    { apply Prim2SF_inj. rewrite FloatAxioms.eqb_spec in E.
      change (Prim2SF nan) with S754_nan.
      destruct (Prim2SF (std (numbers c data))) as [[]|[]| |[] ? ?] eqn:Es;
        try reflexivity; simpl in E; try discriminate.
      all: unfold SFeqb, SFcompare in E; simpl in E;
        rewrite ?Z.compare_refl, ?Pos.compare_cont_refl in E; discriminate. }
    rewrite Hnan in Hsigma. discriminate.
Qed.

(** In the frame that leaves the Normalizer a constant x column is still
    0.0 everywhere (the y turn drops rows and rewrites y only), and a y
    column that is constant when its turn starts is 0.0 everywhere. *)
Lemma normalizer_constant_x (x y : string) (data : frame) (r : gmap string value) :
  x <> "time"%string -> x <> y ->
  PrimFloat.eqb (std (numbers x data)) 0 = true ->
  In r (rows (normalizer x y data)) -> r !! x = Some (VNum 0).
Proof.
  rewrite normalizer_unfold. intros Hx Hxy Hsigma Hr.
  apply normalize_step_In in Hr as (r1 & Hr1 & Hother & _).
  rewrite Hother by congruence.
  unfold normalize_step in Hr1. apply String.eqb_neq in Hx. rewrite Hx in Hr1.
  unfold normalize_column, normalize_column_cut in Hr1.
  rewrite normalize_with_constant in Hr1 by exact Hsigma.
  apply in_map_iff in Hr1 as (r0 & <- & _). apply lookup_insert_eq.
Qed.

Lemma normalizer_constant_y (x y : string) (data : frame) :
  y <> "time"%string ->
  PrimFloat.eqb (std (numbers y (normalize_step data x))) 0 = true ->
  rows (normalizer x y data)
  = map (fun r => <[y := VNum 0]> r) (rows (normalize_step data x)).
Proof.
  rewrite normalizer_unfold. intros Hy Hsigma.
  unfold normalize_step at 1. apply String.eqb_neq in Hy. rewrite Hy.
  unfold normalize_column, normalize_column_cut.
  now apply normalize_with_constant.
Qed.

(** The y-values of the frame that leaves the x turn are the y-values of
    the rows the x turn kept. *)
Lemma numbers_after_turn (cut mu sigma : float) (x y : string) (data : frame) :
  x <> y ->
  numbers y (normalize_with cut mu sigma x data)
  = map (fun r => num (cell r y)) (kept_rows cut mu sigma x data).
Proof.
  intros Hxy. unfold numbers, column. rewrite normalize_with_rows, !map_map.
  apply map_ext. intros r. unfold cell. now rewrite lookup_insert_ne.
Qed.

(** C1.  With two distinct axis columns other than "time", the mean and
    the standard deviation of the y turn are those of the y-values of
    the rows the x turn kept. *)
Theorem normalizer_sequential_coupling (x y : string) (data : frame) :
  x <> "time"%string -> y <> "time"%string -> x <> y ->
  let survivors :=
    kept_rows Z_OUTLIER_CUT (mean (numbers x data)) (std (numbers x data)) x data in
  let ys := map (fun r => num (cell r y)) survivors in
  numbers y (normalize_column x data) = ys
  /\ normalizer x y data
     = normalize_with Z_OUTLIER_CUT (mean ys) (std ys) y (normalize_column x data).
Proof.
  intros Hx Hy Hxy survivors ys.
  assert (Hys : numbers y (normalize_column x data) = ys)
    by now apply numbers_after_turn.
  split; [exact Hys|].
  rewrite normalizer_unfold. unfold normalize_step.
  apply String.eqb_neq in Hx, Hy. rewrite Hx, Hy.
  unfold normalize_column at 1. unfold normalize_column_cut. now rewrite Hys.
Qed.

(** *** The loop, row by row *)

Lemma filter_map_swap {A B} (f : A -> B) (keep : B -> bool) (l : list A) :
  List.filter keep (map f l) = map f (List.filter (fun a => keep (f a)) l).
Proof.
  induction l as [|a l IH]; [reflexivity|]. simpl.
  destruct (keep (f a)); simpl; now rewrite IH.
Qed.

Lemma filter_filter_and {A} (k1 k2 : A -> bool) (l : list A) :
  List.filter k2 (List.filter k1 l) = List.filter (fun a => k1 a && k2 a) l.
Proof.
  induction l as [|a l IH]; [reflexivity|]. simpl.
  destruct (k1 a); simpl; [destruct (k2 a)|]; now rewrite IH.
Qed.

Lemma filter_all {A} (keep : A -> bool) (l : list A) :
  (forall a, keep a = true) -> List.filter keep l = l.
Proof.
  intros Hall. induction l as [|a l IH]; [reflexivity|]. simpl.
  now rewrite Hall, IH.
Qed.

Lemma filter_nil_all {A} (keep : A -> bool) (l : list A) :
  List.filter keep l = [] <-> forall a, In a l -> keep a = false.
Proof.
  induction l as [|a l IH]; simpl.
  - split; [intros _ a [] | reflexivity].
  - destruct (keep a) eqn:E; split.
    + discriminate.
    + intros Hall. specialize (Hall a (or_introl eq_refl)). congruence.
    + intros Hnil b [<-|Hb]; [exact E | now apply IH].
    + intros Hall. apply IH. intros b Hb. apply Hall. now right.
Qed.

Lemma cell_insert_ne (c k : string) (v : value) (r : gmap string value) :
  c <> k -> cell (<[c := v]> r) k = cell r k.
Proof. intros Hne. unfold cell. now rewrite lookup_insert_ne. Qed.

(** The rows a turn keeps are those whose written value is within the
    cut: on the constant-column branch the value is 0.0, that is. *)
Lemma kept_rows_written (mu sigma : float) (c : string) (data : frame) :
  kept_rows Z_OUTLIER_CUT mu sigma c data
  = List.filter
      (fun r => PrimFloat.leb (PrimFloat.abs (written mu sigma (cell r c))) Z_OUTLIER_CUT)
      (rows data).
Proof.
  unfold kept_rows, written. destruct (negb (PrimFloat.eqb sigma 0)); [reflexivity|].
  symmetry. now apply filter_all.
Qed.

(** One turn of the loop, for any column: "time" is passed over. *)
Lemma normalize_step_rows (data : frame) (c : string) :
  let z := fun r => written (mean (numbers c data)) (std (numbers c data)) (cell r c) in
  rows (normalize_step data c)
  = map (fun r => if String.eqb c "time" then r else <[c := VNum (z r)]> r)
        (List.filter
           (fun r => String.eqb c "time"
                     || PrimFloat.leb (PrimFloat.abs (z r)) Z_OUTLIER_CUT)
           (rows data)).
Proof.
  intros z. unfold normalize_step. destruct (String.eqb c "time"); simpl.
  - rewrite filter_all by reflexivity. now rewrite map_id.
  - unfold normalize_column, normalize_column_cut.
    now rewrite normalize_with_rows, kept_rows_written.
Qed.

(** Both turns, on the rows that entered the Normalizer. *)
Lemma normalizer_rows (x y : string) (data : frame) :
  x <> y ->
  let d1 := normalize_step data x in
  let zx := fun r => written (mean (numbers x data)) (std (numbers x data)) (cell r x) in
  let zy := fun r => written (mean (numbers y d1)) (std (numbers y d1)) (cell r y) in
  let within := fun (c : string) (z : float) =>
    String.eqb c "time" || PrimFloat.leb (PrimFloat.abs z) Z_OUTLIER_CUT in
  let put := fun (c : string) (z : float) (r : gmap string value) =>
    if String.eqb c "time" then r else <[c := VNum z]> r in
  rows (normalizer x y data)
  = map (fun r => put y (zy r) (put x (zx r) r))
        (List.filter (fun r => within x (zx r) && within y (zy r)) (rows data)).
Proof.
  intros Hxy d1 zx zy within put. rewrite normalizer_unfold.
  assert (Hd1 : rows d1
                = map (fun r => put x (zx r) r)
                      (List.filter (fun r => within x (zx r)) (rows data)))
    by apply normalize_step_rows.
  assert (Hout : rows (normalize_step d1 y)
                 = map (fun r => put y (zy r) r)
                       (List.filter (fun r => within y (zy r)) (rows d1)))
    by apply normalize_step_rows.
  change (normalize_step data x) with d1. rewrite Hout, Hd1.
  rewrite filter_map_swap, map_map, filter_filter_and.
  assert (Hy : forall r, zy (put x (zx r) r) = zy r).
  { intros r. unfold zy, put. destruct (String.eqb x "time"); [reflexivity|].
    now rewrite cell_insert_ne. }
  rewrite (filter_ext _ (fun r => within x (zx r) && within y (zy r))).
  2:{ intros r. now rewrite Hy. }
  apply map_ext. intros r. now rewrite Hy.
Qed.


(** *** A single row *)

Lemma div_nan (a : float) : PrimFloat.div a nan = nan.
Proof.
  apply Prim2SF_inj. rewrite div_spec.
  change (Prim2SF nan) with S754_nan. now destruct (Prim2SF a).
Qed.


Lemma normalize_step_nil (data : frame) (c : string) :
  rows data = [] -> rows (normalize_step data c) = [].
Proof.
  intros Hnil. unfold normalize_step. destruct (String.eqb c "time"); [exact Hnil|].
  unfold normalize_column, normalize_column_cut.
  rewrite normalize_with_rows. unfold kept_rows. rewrite Hnil.
  now destruct (negb _).
Qed.

Lemma normalize_column_single (c : string) (data : frame) (r : gmap string value) :
  rows data = [r] -> rows (normalize_column c data) = [].
Proof.
  intros Hrow. unfold normalize_column, normalize_column_cut.
  assert (Hsigma : std (numbers c data) = nan).
  { unfold numbers, column. rewrite Hrow. apply std_single. }
  rewrite Hsigma, normalize_with_rows. unfold kept_rows. rewrite Hrow. simpl.
  unfold within_cut, zscore. now rewrite div_nan.
Qed.

Lemma normalizer_single (x y : string) (data : frame) (r : gmap string value) :
  rows data = [r] ->
  x <> "time"%string \/ y <> "time"%string ->
  rows (normalizer x y data) = [].
Proof.
  intros Hrow Hxy. rewrite normalizer_unfold.
  destruct (String.eqb_spec x "time") as [Hx|Hx].
  - destruct Hxy as [Hxy|Hy]; [contradiction|].
    subst x. apply String.eqb_neq in Hy.
    unfold normalize_step. simpl. rewrite Hy.
    now apply normalize_column_single with r.
  - apply normalize_step_nil. unfold normalize_step.
    apply String.eqb_neq in Hx. rewrite Hx.
    now apply normalize_column_single with r.
Qed.

(** ** Stages that read text as numbers *)

Section Facts.

Context `{TextReader} `{UnicodeDigits}.

(** ** AxisResolver: numeric coercion *)

Lemma to_numeric_is_num (v : value) : exists f, to_numeric v = VNum f.
Proof. destruct v; simpl; eauto. Qed.

Lemma map_column_columns c f df : columns (map_column c f df) = columns df.
Proof. reflexivity. Qed.

Lemma coerce_columns_spec (cs : list string) (df : frame) :
  columns (coerce_columns cs df) = columns df
  /\ rows (coerce_columns cs df) = map (coerce_row cs) (rows df).
Proof.
  revert df. induction cs as [|a cs IH]; intros df; simpl.
  - split; [reflexivity | now rewrite map_id].
  - unfold coerce_columns, coerce_row in *. simpl.
    destruct (String.eqb a "time").
    + apply IH.
    + destruct (IH (map_column a to_numeric df)) as [IHc IHr].
      split; [exact IHc|]. rewrite IHr. simpl. now rewrite map_map.
Qed.

Lemma coerce_row_keeps (cs : list string) (r : gmap string value) c f :
  r !! c = Some (VNum f) -> coerce_row cs r !! c = Some (VNum f).
Proof.
  revert r. induction cs as [|a cs IH]; intros r Hr; simpl; [exact Hr|].
  unfold coerce_row in *. simpl.
  destruct (String.eqb a "time"); [now apply IH|].
  apply IH. destruct (decide (a = c)) as [-> | Hne].
  - rewrite lookup_insert_eq. unfold cell. now rewrite Hr.
  - now rewrite lookup_insert_ne.
Qed.

Lemma coerce_row_numeric (cs : list string) (r : gmap string value) c :
  In c cs -> c <> "time"%string -> exists f, coerce_row cs r !! c = Some (VNum f).
Proof.
  revert r. induction cs as [|a cs IH]; intros r Hin Hc; [destruct Hin|].
  unfold coerce_row in *. simpl.
  destruct Hin as [-> | Hin].
  - apply String.eqb_neq in Hc. rewrite Hc.
    destruct (to_numeric_is_num (cell r c)) as [f Hf]. exists f.
    apply (coerce_row_keeps cs). rewrite lookup_insert_eq. now rewrite Hf.
  - destruct (String.eqb a "time"); now apply IH.
Qed.

Lemma coerce_row_id (cs : list string) (r : gmap string value) :
  (forall c, In c cs -> c <> "time"%string -> exists f, r !! c = Some (VNum f)) ->
  coerce_row cs r = r.
Proof.
  induction cs as [|a cs IH]; intros Hnum; [reflexivity|].
  unfold coerce_row in *. simpl.
  destruct (String.eqb a "time") eqn:Ea.
  - apply IH. intros c Hc. apply Hnum. now right.
  - apply String.eqb_neq in Ea.
    destruct (Hnum a (or_introl eq_refl) Ea) as [f Hf].
    assert (Hid : <[a := to_numeric (cell r a)]> r = r).
    { apply insert_id. unfold cell. now rewrite Hf. }
    rewrite Hid. apply IH. intros c Hc. apply Hnum. now right.
Qed.

Lemma coerce_axes_columns (df : frame) : columns (coerce_axes df) = columns df.
Proof. apply coerce_columns_spec. Qed.

Lemma axis_cols_coerce_axes (df : frame) : axis_cols (coerce_axes df) = axis_cols df.
Proof. unfold axis_cols. now rewrite coerce_axes_columns. Qed.

(** After the AxisResolver every axis column other than "time" holds
    numbers only. *)
Lemma coerce_axes_numeric (df : frame) (c : string) (r : gmap string value) :
  In c (axis_cols df) -> c <> "time"%string -> In r (rows (coerce_axes df)) ->
  exists f, r !! c = Some (VNum f).
Proof.
  intros Hc Hne Hr. unfold coerce_axes in Hr.
  rewrite (proj2 (coerce_columns_spec _ _)) in Hr.
  apply in_map_iff in Hr as (r0 & <- & _).
  now apply coerce_row_numeric.
Qed.

(** ** RowFilter *)

Lemma missing_labels_nil (cs : list string) (df : frame) (c : string) :
  missing_labels cs df = [] -> In c cs -> has_column c df = true.
Proof.
  unfold missing_labels. intros Hnil Hc.
  destruct (has_column c df) eqn:E; [reflexivity|].
  assert (Hin : In c (List.filter (fun c => negb (has_column c df)) cs)).
  { apply filter_In. split; [exact Hc | now rewrite E]. }
  rewrite Hnil in Hin. destruct Hin.
Qed.

(** What [row_filter] returns when it returns. *)
Lemma row_filter_ok (platform : option value) (x y : string) (df data : frame) :
  row_filter platform x y df = Ok data ->
  data = dropna_subset [x; y] (coerce_columns [x; y] (select_platform platform df)).
Proof.
  unfold row_filter.
  destruct (missing_labels (List.filter _ [x; y]) _); [|discriminate].
  destruct (missing_labels [x; y] _); [|discriminate].
  now intros [= <-].
Qed.

Lemma dropna_subset_In (cs : list string) (df : frame) (r : gmap string value) :
  In r (rows (dropna_subset cs df)) <->
  In r (rows df) /\ forall c, In c cs -> isna (cell r c) = false.
Proof.
  unfold dropna_subset. simpl. rewrite filter_In, forallb_forall.
  split; intros [Hr Hc]; (split; [exact Hr|]); intros c Hin.
  - now apply negb_true_iff, Hc.
  - apply negb_true_iff. now apply Hc.
Qed.

Lemma select_platform_In (platform : option value) (df : frame) (r : gmap string value) :
  In r (rows (select_platform platform df)) <->
  In r (rows df)
  /\ exists p, platform = Some p /\ value_eqb (cell r "platform_name") p = true.
Proof.
  unfold select_platform. simpl. rewrite filter_In.
  split; intros [Hr Hp]; (split; [exact Hr|]).
  - destruct platform as [p|]; [eauto | discriminate].
  - now destruct Hp as (p & -> & Hp).
Qed.

(** C6.  On the frame built by the AxisResolver and for axes chosen among
    its axis columns, every row the RowFilter keeps has the chosen
    platform and a value present in both axis columns. *)
Theorem row_filter_postcondition
    (df data : frame) (platform : option value) (x y : string)
    (r : gmap string value) :
  In x (axis_cols df) -> In y (axis_cols df) ->
  row_filter platform x y (coerce_axes df) = Ok data ->
  In r (rows data) ->
  (exists p, platform = Some p /\ value_eqb (cell r "platform_name") p = true)
  /\ isna (cell r x) = false
  /\ isna (cell r y) = false.
Proof.
  intros Hx Hy Hok Hr. apply row_filter_ok in Hok. subst data.
  apply dropna_subset_In in Hr as [Hr Hpresent].
  rewrite (proj2 (coerce_columns_spec _ _)) in Hr.
  apply in_map_iff in Hr as (r0 & <- & Hr0).
  apply select_platform_In in Hr0 as [Hr0 Hp].
  assert (Hid : coerce_row [x; y] r0 = r0).
  { apply coerce_row_id. intros c [<- | [<- | []]] Hne;
      eapply coerce_axes_numeric; eauto. }
  rewrite Hid in *.
  split; [exact Hp|].
  split; apply Hpresent; simpl; auto.
Qed.

(** ** The run *)

Lemma has_column_In (c : string) (df : frame) :
  has_column c df = true <-> In c (columns df).
Proof.
  unfold has_column. rewrite bool_decide_eq_true. apply list_elem_of_In.
Qed.

Lemma has_column_not_In (c : string) (df : frame) :
  has_column c df = false <-> ~ In c (columns df).
Proof.
  rewrite <- has_column_In. destruct (has_column c df); split; congruence.
Qed.

Lemma through_In (c k : string) (cols : list string) :
  In k (through c cols) -> In k cols.
Proof.
  induction cols as [|h t IH]; simpl; [auto|].
  destruct (String.eqb h c); simpl; intuition.
Qed.

(** *** Absent optional columns *)

Lemma scope_columns_absent (df : frame) :
  ~ In "hbb"%string (columns df) -> scope_columns df = df.
Proof.
  intros Habs. apply has_column_not_In in Habs.
  unfold scope_columns. now rewrite Habs.
Qed.

Lemma parse_time_column_absent (df : frame) :
  ~ In "time"%string (columns df) -> parse_time_column df = df.
Proof.
  intros Habs. apply has_column_not_In in Habs.
  unfold parse_time_column. now rewrite Habs.
Qed.

Lemma axis_cols_no_anchor (df : frame) :
  ~ In "latitude"%string (columns df) ->
  axis_cols df
  = if bool_decide ("time"%string ∈ columns df) then "time"%string :: columns df
    else columns df.
Proof.
  intros Habs. unfold axis_cols, lat_idx.
  rewrite (bool_decide_eq_false_2 ("latitude"%string ∈ columns df)); [reflexivity|].
  now rewrite list_elem_of_In.
Qed.

(** *** The columns of the prepared frame *)

Lemma parse_time_column_columns (df : frame) :
  columns (parse_time_column df) = columns df.
Proof. unfold parse_time_column. now destruct (has_column "time" df). Qed.

Lemma scope_columns_In (df : frame) (k : string) :
  In k (columns (scope_columns df)) -> In k (columns df).
Proof.
  unfold scope_columns. destruct (has_column "hbb" df); [|auto].
  simpl. apply through_In.
Qed.

Lemma prepare_columns_In (raw : frame) (k : string) :
  In k (columns (prepare raw)) -> In k (columns raw).
Proof.
  unfold prepare. rewrite coerce_axes_columns, parse_time_column_columns.
  intros Hk. apply scope_columns_In in Hk. now rewrite sanitize_columns in Hk.
Qed.

(** C7.  A file without the "platform_name" column: the lookup of line 65
    raises a KeyError, whatever the selections are. *)
Theorem missing_platform_column_raises
    (raw : frame) (platform : option value) (x y : string) :
  ~ In "platform_name"%string (columns raw) ->
  pipeline raw platform x y = Raised (KeyError ["platform_name"%string]).
Proof.
  intros Habs. unfold pipeline.
  assert (Hcol : has_column "platform_name" (prepare raw) = false).
  { apply has_column_not_In. intros Hin. apply Habs. now apply prepare_columns_In. }
  now rewrite Hcol.
Qed.

(** *** Terminal states *)

Lemma pipeline_before_normalizer raw platform x y data :
  before_normalizer raw platform x y = Some data ->
  pipeline raw platform x y
  = if empty (normalizer x y data) then AllOutliers else Plotted (normalizer x y data).
Proof.
  unfold before_normalizer, pipeline.
  destruct (has_column "platform_name" (prepare raw)); [|discriminate].
  destruct (row_filter platform x y (prepare raw)) as [d|e]; [|discriminate].
  destruct (empty d); [discriminate|].
  destruct (resample_if_time x y d) as [d'|e]; [|discriminate].
  now intros [= ->].
Qed.

Lemma empty_true (df : frame) : empty df = true <-> rows df = [].
Proof. unfold empty. destruct (rows df); split; congruence. Qed.

Lemma empty_false (df : frame) : empty df = false <-> rows df <> [].
Proof. unfold empty. destruct (rows df); split; congruence. Qed.

Ltac outcome_cases :=
  repeat split; intros;
  repeat match goal with
         | H : _ /\ _ |- _ => destruct H
         | H : exists _, _ |- _ => destruct H
         | H : Ok _ = Ok _ |- _ => injection H as <-
         | H : Some _ = Some _ |- _ => injection H as <-
         | H : Plotted _ = Plotted _ |- _ => injection H as <-
         end;
  try discriminate; try contradiction; eauto.

(** The Resampler leaves no row only when the mean of every bucket that
    holds a row is NaN. *)
Lemma resample_nothing (y : string) (d0 d : frame) :
  resample y d0 = Ok d -> rows d = [] ->
  forall p, In p (stamped y d0) ->
    is_nan (group_mean (bucket_values (bucket (fst p)) (by_time (stamped y d0)))) = true.
Proof.
  unfold resample. destruct (String.eqb y "time"); [discriminate|].
  intros [= <-] Hnil p Hp. simpl in Hnil. apply map_eq_nil in Hnil.
  set (pts := by_time (stamped y d0)) in *.
  destruct (is_nan (group_mean (bucket_values (bucket (fst p)) pts))) eqn:E; [reflexivity|].
  assert (Hin : In (bucket (fst p), group_mean (bucket_values (bucket (fst p)) pts))
                   (bucket_means pts)).
  { apply bucket_means_In. split; [|split; [reflexivity | exact E]].
    exists p. split; [now apply by_time_In | reflexivity]. }
  rewrite Hnil in Hin. destruct Hin.
Qed.

Lemma normalize_step_time (data : frame) : normalize_step data "time" = data.
Proof. reflexivity. Qed.

(** C8 (as amended).  The run ends in "no data" exactly when the
    RowFilter leaves no row, and in "all rows removed as outliers"
    exactly when the RowFilter left rows and no row is left after the
    Normalizer.  With an x-axis other than "time" (and another y-axis)
    the second message means what it says: every row the RowFilter left
    failed the cut on x, or on y.  With "time" as the x-axis it is also
    given when the Resampler left no row, the mean of every bucket being
    NaN, and the Normalizer had nothing to reject.  A plotted frame has
    rows, and the two messages are different outcomes. *)
Theorem empty_outcomes_distinguished
    (raw : frame) (platform : option value) (x y : string) :
  (pipeline raw platform x y = NoDataLeft <->
     has_column "platform_name" (prepare raw) = true
     /\ exists d, row_filter platform x y (prepare raw) = Ok d /\ rows d = [])
  /\ (pipeline raw platform x y = AllOutliers <->
        has_column "platform_name" (prepare raw) = true
        /\ exists d0 d, row_filter platform x y (prepare raw) = Ok d0 /\ rows d0 <> []
             /\ resample_if_time x y d0 = Ok d
             /\ rows (normalizer x y d) = [])
  /\ (x <> "time"%string -> x <> y ->
      pipeline raw platform x y = AllOutliers ->
      exists d, row_filter platform x y (prepare raw) = Ok d /\ rows d <> []
        /\ forall r, In r (rows d) ->
             let d1 := normalize_step d x in
             PrimFloat.leb
               (PrimFloat.abs (written (mean (numbers x d)) (std (numbers x d)) (cell r x)))
               Z_OUTLIER_CUT = false
             \/ (y <> "time"%string
                 /\ PrimFloat.leb
                      (PrimFloat.abs
                         (written (mean (numbers y d1)) (std (numbers y d1)) (cell r y)))
                      Z_OUTLIER_CUT = false))
  /\ (x = "time"%string ->
      pipeline raw platform x y = AllOutliers ->
      exists d0 d, row_filter platform x y (prepare raw) = Ok d0 /\ rows d0 <> []
        /\ resample y d0 = Ok d
        /\ ((rows d = []
             /\ forall p, In p (stamped y d0) ->
                  is_nan (group_mean
                            (bucket_values (bucket (fst p)) (by_time (stamped y d0))))
                  = true)
            \/ (rows d <> []
                /\ forall r, In r (rows d) ->
                     PrimFloat.leb
                       (PrimFloat.abs
                          (written (mean (numbers y d)) (std (numbers y d)) (cell r y)))
                       Z_OUTLIER_CUT = false)))
  /\ (forall out, pipeline raw platform x y = Plotted out -> rows out <> [])
  /\ NoDataLeft <> AllOutliers.
Proof.
  assert (Hall : pipeline raw platform x y = AllOutliers <->
            has_column "platform_name" (prepare raw) = true
            /\ exists d0 d, row_filter platform x y (prepare raw) = Ok d0 /\ rows d0 <> []
                 /\ resample_if_time x y d0 = Ok d
                 /\ rows (normalizer x y d) = []).
  { unfold pipeline.
    destruct (has_column "platform_name" (prepare raw)).
    2:{ split; [discriminate | intros [E _]; discriminate]. }
    destruct (row_filter platform x y (prepare raw)) as [d|e].
    2:{ split; [discriminate | intros (_ & d0 & d & E & _); discriminate]. }
    destruct (empty d) eqn:Ed.
    { apply empty_true in Ed. split; [discriminate|].
      intros (_ & d0 & d1 & [= <-] & Hne & _). contradiction. }
    apply empty_false in Ed.
    destruct (resample_if_time x y d) as [d'|e] eqn:Eres.
    2:{ split; [discriminate|]. intros (_ & d0 & d1 & [= <-] & _ & E & _). congruence. }
    destruct (empty (normalizer x y d')) eqn:En.
    - apply empty_true in En. split; [|reflexivity]. intros _.
      split; [reflexivity|]. exists d, d'. auto.
    - apply empty_false in En. split; [discriminate|].
      intros (_ & d0 & d1 & [= <-] & _ & E & Hn).
      rewrite Eres in E. injection E as <-. contradiction. }
  split; [|split; [exact Hall|split; [|split; [|split]]]].
  - unfold pipeline.
    destruct (has_column "platform_name" (prepare raw)); [|outcome_cases].
    destruct (row_filter platform x y (prepare raw)) as [d|e]; [|outcome_cases].
    destruct (empty d) eqn:Ed;
      [apply empty_true in Ed; outcome_cases | apply empty_false in Ed].
    destruct (resample_if_time x y d) as [d'|e]; [|outcome_cases].
    destruct (empty (normalizer x y d')); outcome_cases.
  - intros Hx Hxy Hrun. apply Hall in Hrun as (_ & d0 & d & Hfilter & Hrows & Hres & Hnone).
    unfold resample_if_time in Hres. apply String.eqb_neq in Hx as Hx'.
    rewrite Hx' in Hres. injection Hres as <-.
    exists d0. split; [exact Hfilter|]. split; [exact Hrows|].
    intros r Hr d1. rewrite (normalizer_rows x y d0 Hxy) in Hnone.
    apply map_eq_nil in Hnone.
    pose proof (proj1 (filter_nil_all _ _) Hnone r Hr) as Hrej. cbv beta in Hrej.
    rewrite Hx' in Hrej. simpl in Hrej. fold d1 in Hrej.
    apply andb_false_iff in Hrej as [Hrej|Hrej]; [now left|].
    apply orb_false_iff in Hrej as [Hy Hrej]. right.
    split; [now apply String.eqb_neq | exact Hrej].
  - intros -> Hrun. apply Hall in Hrun as (_ & d0 & d & Hfilter & Hrows & Hres & Hnone).
    unfold resample_if_time in Hres. simpl in Hres.
    exists d0, d. split; [exact Hfilter|]. split; [exact Hrows|]. split; [exact Hres|].
    destruct (rows d) as [|r0 l] eqn:Ed.
    + left. split; [reflexivity|]. now apply (resample_nothing y d0 d).
    + right. split; [discriminate|].
      assert (Hy : "time"%string <> y).
      { intros <-. unfold resample in Hres. simpl in Hres. discriminate. }
      rewrite (normalizer_rows "time" y d Hy) in Hnone.
      apply map_eq_nil in Hnone. rewrite normalize_step_time in Hnone.
      intros r Hr. rewrite <- Ed in Hr.
      pose proof (proj1 (filter_nil_all _ _) Hnone r Hr) as Hrej. cbv beta in Hrej.
      simpl in Hrej. apply orb_false_iff in Hrej as [_ Hrej]. exact Hrej.
  - unfold pipeline.
    destruct (has_column "platform_name" (prepare raw)); [|discriminate].
    destruct (row_filter platform x y (prepare raw)) as [d|e]; [|discriminate].
    destruct (empty d); [discriminate|].
    destruct (resample_if_time x y d) as [d'|e]; [|discriminate].
    destruct (empty (normalizer x y d')) eqn:En; [discriminate|].
    apply empty_false in En. now intros out [= <-].
  - discriminate.
Qed.

(** C10.  When exactly one row reaches the Normalizer and an axis other
    than "time" is processed, the standard deviation is NaN and the run
    ends in "all rows removed as outliers". *)
Theorem single_row_all_outliers
    (raw data : frame) (platform : option value) (x y : string)
    (r : gmap string value) :
  before_normalizer raw platform x y = Some data ->
  rows data = [r] ->
  x <> "time"%string \/ y <> "time"%string ->
  (forall c, std (numbers c data) = nan)
  /\ rows (normalizer x y data) = []
  /\ pipeline raw platform x y = AllOutliers.
Proof.
  intros Hdata Hrow Hxy.
  assert (Hnil : rows (normalizer x y data) = []) by now apply normalizer_single with r.
  split; [|split; [exact Hnil|]].
  - intros c. unfold numbers, column. rewrite Hrow. apply std_single.
  - rewrite (pipeline_before_normalizer _ _ _ _ _ Hdata).
    apply empty_true in Hnil. now rewrite Hnil.
Qed.

End Facts.

(** * Further properties of the stages *)

(** ** Sanitizer: what is kept *)

Lemma isna_replace_cell (v : value) :
  isna (replace_cell v) = isna v || is_sentinel v.
Proof.
  unfold replace_cell. destruct (is_sentinel v) eqn:E.
  - simpl. now rewrite orb_true_r.
  - now rewrite orb_false_r.
Qed.

(** X1.  The Sanitizer drops nothing but the rows that are missing in
    every column: a raw row with a value present is kept, and each of
    its cells that is not the sentinel is kept as it is. *)
Theorem sanitize_keeps_present_rows (df : frame) (r0 : gmap string value) :
  In r0 (rows df) ->
  all_missing (columns df) r0 = false ->
  In (replace_cell <$> r0) (rows (sanitize df))
  /\ (forall c, is_sentinel (cell r0 c) = false ->
                cell (replace_cell <$> r0) c = cell r0 c)
  /\ (length (rows (sanitize df)) <= length (rows df))%nat.
Proof.
  intros Hin Hkeep. rewrite sanitize_rows. split; [|split].
  - apply in_map. apply filter_In. split; [exact Hin | now rewrite Hkeep].
  - intros c Hc. rewrite cell_fmap. unfold cell in *.
    destruct (r0 !! c) as [v|]; simpl in *; [|reflexivity].
    unfold replace_cell. now rewrite Hc.
  - rewrite length_map. apply List.filter_length_le.
Qed.

(** X2.  A row leaves the Sanitizer missing in every column only if it
    held a sentinel: in the raw row every column was missing or the
    sentinel, and at least one was the sentinel. *)
Theorem sanitize_all_missing_origin (df : frame) (r : gmap string value) :
  In r (rows (sanitize df)) ->
  all_missing (columns df) r = true ->
  exists r0, In r0 (rows df)
    /\ r = replace_cell <$> r0
    /\ (forall c, In c (columns df) ->
          isna (cell r0 c) = true \/ is_sentinel (cell r0 c) = true)
    /\ (exists c, In c (columns df) /\ is_sentinel (cell r0 c) = true).
Proof.
  rewrite sanitize_rows. intros Hin Hall.
  apply in_map_iff in Hin as (r0 & <- & Hr0).
  apply filter_In in Hr0 as [Hr0 Hkeep]. apply negb_true_iff in Hkeep.
  exists r0. split; [exact Hr0|]. split; [reflexivity|].
  unfold all_missing in *. rewrite forallb_forall in Hall.
  assert (Hcell : forall c, In c (columns df) ->
            isna (cell r0 c) = true \/ is_sentinel (cell r0 c) = true).
  { intros c Hc. specialize (Hall c Hc). rewrite cell_fmap in Hall.
    unfold cell. destruct (r0 !! c) as [v|]; simpl; [|now left].
    rewrite isna_replace_cell in Hall. now apply orb_true_iff in Hall. }
  split; [exact Hcell|].
  destruct (forallb (fun c => isna (cell r0 c)) (columns df)) eqn:E; [discriminate|].
  clear Hkeep Hall. induction (columns df) as [|c cs IH]; simpl in E; [discriminate|].
  destruct (isna (cell r0 c)) eqn:Ec; simpl in E.
  - destruct IH as (c' & Hc' & Hs); [exact E | intros; apply Hcell; now right |].
    exists c'. split; [now right | exact Hs].
  - exists c. split; [now left|].
    destruct (Hcell c (or_introl eq_refl)) as [Hn|Hs]; [congruence | exact Hs].
Qed.

(** ** ColumnScoper *)

Lemma through_split (c : string) (cols : list string) :
  In c cols ->
  exists before rest,
    cols = before ++ c :: rest /\ ~ In c before /\ through c cols = before ++ [c].
Proof.
  induction cols as [|h t IH]; intros Hin; [destruct Hin|].
  simpl. destruct (String.eqb_spec h c) as [-> | Hne].
  - exists [], t. repeat split. intros [].
  - destruct Hin as [Hhc|Hin]; [contradiction|].
    destruct (IH Hin) as (before & rest & -> & Hnot & ->).
    exists (h :: before), rest. repeat split.
    intros [Hhc|Hb]; [contradiction | now apply Hnot].
Qed.

Lemma through_idempotent (c : string) (cols : list string) :
  through c (through c cols) = through c cols.
Proof.
  induction cols as [|h t IH]; simpl; [reflexivity|].
  destruct (String.eqb h c) eqn:E; simpl; rewrite E; [reflexivity | now rewrite IH].
Qed.

Lemma restrict_lookup (cs : list string) (r : gmap string value) (c : string) :
  restrict cs r !! c = if bool_decide (c ∈ cs) then r !! c else None.
Proof.
  unfold restrict. rewrite map_lookup_filter.
  destruct (r !! c) as [v|]; simpl; [|now destruct (bool_decide _)].
  case_bool_decide as Hc.
  - now rewrite option_guard_True.
  - now rewrite option_guard_False.
Qed.

Lemma restrict_idempotent (cs : list string) (r : gmap string value) :
  restrict cs (restrict cs r) = restrict cs r.
Proof.
  apply map_eq. intros c. rewrite !restrict_lookup.
  now destruct (bool_decide (c ∈ cs)).
Qed.

(** X3.  Trimming the columns a second time changes nothing. *)
Theorem scope_columns_idempotent (df : frame) :
  scope_columns (scope_columns df) = scope_columns df.
Proof.
  destruct (has_column "hbb" df) eqn:Ehbb.
  - assert (Hscope : scope_columns df
                     = Frame (through "hbb" (columns df))
                             (map (restrict (through "hbb" (columns df))) (rows df)))
      by (unfold scope_columns; now rewrite Ehbb).
    rewrite Hscope. apply has_column_In in Ehbb.
    destruct (through_split _ _ Ehbb) as (before & rest & _ & _ & Hthrough).
    unfold scope_columns.
    assert (Hin : has_column "hbb"
                    (Frame (through "hbb" (columns df))
                           (map (restrict (through "hbb" (columns df))) (rows df)))
                  = true).
    { apply has_column_In. simpl. rewrite Hthrough. apply in_or_app. right. now left. }
    rewrite Hin. simpl. rewrite through_idempotent, map_map. f_equal.
    apply map_ext. intros r. apply restrict_idempotent.
  - assert (Hscope : scope_columns df = df)
      by (unfold scope_columns; now rewrite Ehbb).
    now rewrite !Hscope.
Qed.

(** X4.  When "hbb" is a column, the trimmed frame has the columns up to
    and including the first "hbb", in their order; every row keeps its
    cells under these columns and has no cell under any other. *)
Theorem scope_columns_prefix (df : frame) :
  In "hbb"%string (columns df) ->
  exists before rest,
    columns df = before ++ "hbb"%string :: rest
    /\ ~ In "hbb"%string before
    /\ columns (scope_columns df) = before ++ ["hbb"%string]
    /\ rows (scope_columns df) = map (restrict (before ++ ["hbb"%string])) (rows df)
    /\ (forall r c, In c (before ++ ["hbb"%string]) ->
          restrict (before ++ ["hbb"%string]) r !! c = r !! c)
    /\ (forall r c, ~ In c (before ++ ["hbb"%string]) ->
          restrict (before ++ ["hbb"%string]) r !! c = None).
Proof.
  intros Hin. destruct (through_split _ _ Hin) as (before & rest & Hcols & Hnot & Hthrough).
  exists before, rest. unfold scope_columns.
  apply has_column_In in Hin. rewrite Hin. simpl. rewrite Hthrough.
  repeat split; try assumption.
  - intros r c Hc. rewrite restrict_lookup.
    rewrite bool_decide_eq_true_2; [reflexivity | now apply list_elem_of_In].
  - intros r c Hc. rewrite restrict_lookup.
    rewrite bool_decide_eq_false_2; [reflexivity | now rewrite list_elem_of_In].
Qed.

(** ** AxisResolver: the axis columns *)

Lemma index_of_split (c : string) (before rest : list string) :
  ~ In c before ->
  index_of c (before ++ c :: rest) = length before.
Proof.
  induction before as [|h t IH]; intros Hnot; simpl.
  - now rewrite String.eqb_refl.
  - destruct (String.eqb_spec h c) as [->|Hne]; [exfalso; apply Hnot; now left|].
    f_equal. apply IH. intros Hin. apply Hnot. now right.
Qed.

Lemma in_split_first (c : string) (cols : list string) :
  In c cols -> exists before rest, cols = before ++ c :: rest /\ ~ In c before.
Proof.
  intros Hin. destruct (through_split c cols Hin) as (before & rest & Hc & Hnot & _).
  eauto.
Qed.

Lemma In_drop {A} (n : nat) (l : list A) (a : A) : In a (drop n l) -> In a l.
Proof.
  revert l. induction n as [|n IH]; intros [|b l]; simpl; auto.
Qed.

Lemma axis_cols_In (df : frame) (c : string) :
  In c (axis_cols df) -> In c (columns df).
Proof.
  unfold axis_cols. case_bool_decide as Htime.
  - intros [<-|Hc]; [now apply list_elem_of_In | now apply In_drop in Hc].
  - apply In_drop.
Qed.

(** X7.  When "latitude" is a column, the axis columns are "latitude"
    and every column after it, in their order, with "time" put in front
    when the frame has a "time" column. *)
Theorem axis_cols_anchor (df : frame) :
  In "latitude"%string (columns df) ->
  exists before rest,
    columns df = before ++ "latitude"%string :: rest
    /\ ~ In "latitude"%string before
    /\ axis_cols df
       = (if has_column "time" df then ["time"%string] else [])
         ++ "latitude"%string :: rest.
Proof.
  intros Hin. destruct (in_split_first _ _ Hin) as (before & rest & Hcols & Hnot).
  exists before, rest. split; [exact Hcols|]. split; [exact Hnot|].
  unfold axis_cols, lat_idx, has_column.
  rewrite (bool_decide_eq_true_2 ("latitude"%string ∈ columns df))
    by now apply list_elem_of_In.
  assert (Hdrop : drop (index_of "latitude" (columns df)) (columns df)
                  = "latitude"%string :: rest).
  { rewrite Hcols, index_of_split by exact Hnot. apply drop_app_length. }
  rewrite Hdrop. now destruct (bool_decide _).
Qed.

(** ** The platform select box *)

(** [==] on floats, read on the specification of the two numbers: they
    are the same number, or both are zeros. *)
Lemma SFeqb_true (a b : spec_float) :
  SFeqb a b = true ->
  a <> S754_nan /\ b <> S754_nan
  /\ (a = b \/ exists s s', a = S754_zero s /\ b = S754_zero s').
Proof.
  unfold SFeqb, SFcompare.
  destruct a as [s1|s1| |s1 m1 e1], b as [s2|s2| |s2 m2 e2]; intros H;
    try discriminate; (split; [discriminate | split; [discriminate|]]).
  all: try (right; eauto; fail).
  all: try (destruct s1, s2; try discriminate; left; reflexivity).
  left. change (PosDef.Pos.compare_cont Eq m1 m2) with (Pos.compare m1 m2) in H.
  destruct s1, s2; try discriminate;
    destruct (Z.compare_spec e1 e2); try discriminate;
    destruct (Pos.compare_spec m1 m2); try discriminate; subst; reflexivity.
Qed.

Lemma SFeqb_of_eq (a : spec_float) : a <> S754_nan -> SFeqb a a = true.
Proof.
  unfold SFeqb, SFcompare. destruct a as [s|s| |s m e]; try reflexivity.
  - now destruct s.
  - congruence.
  - intros _. rewrite Z.compare_refl, Pos.compare_cont_refl. now destruct s.
Qed.

Lemma float_eqb_trans (a b c : float) :
  PrimFloat.eqb a b = true -> PrimFloat.eqb b c = true -> PrimFloat.eqb a c = true.
Proof.
  rewrite !FloatAxioms.eqb_spec. intros Hab Hbc.
  apply SFeqb_true in Hab as (Ha & Hb & Hab).
  apply SFeqb_true in Hbc as (_ & Hc & Hbc).
  destruct Hab as [->|(s1 & s2 & -> & Eb)].
  - destruct Hbc as [->|(s1 & s2 & -> & ->)]; [now apply SFeqb_of_eq | reflexivity].
  - rewrite Eb in Hbc. destruct Hbc as [<-|(s3 & s4 & _ & ->)]; reflexivity.
Qed.

Lemma value_eqb_trans (u v w : value) :
  value_eqb u v = true -> value_eqb v w = true -> value_eqb u w = true.
Proof.
  destruct u, v, w; simpl; try discriminate.
  - apply float_eqb_trans.
  - intros Ha Hb. apply String.eqb_eq in Ha, Hb. subst. apply String.eqb_refl.
  - intros Ha Hb. apply Z.eqb_eq in Ha, Hb. subst. apply Z.eqb_refl.
Qed.

Lemma value_eqb_refl (v : value) : isna v = false -> value_eqb v v = true.
Proof.
  destruct v; simpl; try discriminate.
  - unfold is_nan. intros Hf. now apply negb_false_iff in Hf.
  - intros _. apply String.eqb_refl.
  - intros _. apply Z.eqb_refl.
Qed.

Lemma unique_In (v : value) (l : list value) : In v (unique l) -> In v l.
Proof.
  induction l as [|a l IH]; simpl; [auto|].
  intros [->|Hv]; [now left|]. apply filter_In in Hv as [Hv _]. right. now apply IH.
Qed.

(** Every value of the list is equal to one that [unique] keeps. *)
Lemma unique_covers (v : value) (l : list value) :
  In v l -> isna v = false ->
  exists w, In w (unique l) /\ value_eqb v w = true.
Proof.
  induction l as [|a l IH]; intros Hin Hv; [destruct Hin|]. simpl.
  destruct (value_eqb v a) eqn:Eva; [exists a; split; [now left | exact Eva]|].
  destruct Hin as [->|Hin]; [rewrite value_eqb_refl in Eva by exact Hv; discriminate|].
  destruct (IH Hin Hv) as (w & Hw & Evw).
  exists w. split; [|exact Evw]. right. apply filter_In. split; [exact Hw|].
  apply negb_true_iff. destruct (value_eqb w a) eqn:Ewa; [|reflexivity].
  rewrite (value_eqb_trans v w a Evw Ewa) in Eva. discriminate.
Qed.

(** No value that [unique] keeps is equal to one it kept before. *)
Lemma unique_distinct (l : list value) :
  ForallOrdPairs (fun v w => value_eqb w v = false) (unique l).
Proof.
  induction l as [|a l IH]; simpl; constructor.
  - apply List.Forall_forall. intros w Hw. apply filter_In in Hw as [_ Hw].
    now apply negb_true_iff.
  - induction IH as [|b l' Hb _ IH']; simpl; [constructor|].
    destruct (negb (value_eqb b a)); [|exact IH'].
    constructor; [|exact IH'].
    apply List.Forall_forall. intros w Hw. apply filter_In in Hw as [Hw _].
    rewrite List.Forall_forall in Hb. now apply Hb.
Qed.

Lemma insert_value_In (v w : value) (l : list value) :
  In w (insert_value v l) <-> w = v \/ In w l.
Proof.
  induction l as [|a l IH]; simpl; [intuition|].
  destruct (value_ltb a v) as [[|]|]; simpl; rewrite ?IH; intuition.
Qed.

Lemma sort_values_In (w : value) (l : list value) :
  In w (sort_values l) <-> In w l.
Proof.
  induction l as [|a l IH]; simpl; [reflexivity|].
  rewrite insert_value_In, IH. intuition.
Qed.

Lemma platforms_In (df : frame) (ps : list value) (p : value) :
  platforms df = Offered ps ->
  (In p ps <->
   In p (unique (List.filter (fun v => negb (isna v)) (column "platform_name" df)))).
Proof.
  unfold platforms. destruct (has_column _ df); [|discriminate].
  destruct (unique _) as [|v u] eqn:Eu; [now intros [= <-]|].
  destruct (forallb (same_kind v) (v :: u)); [|discriminate].
  intros [= <-]. apply (sort_values_In p (v :: u)).
Qed.

(** X8.  Every platform the select box offers is a value present in the
    "platform_name" column of some row, so filtering on it keeps at least
    one row; and every value present in that column is equal to an
    offered platform. *)
Theorem platforms_offered (df : frame) (ps : list value) :
  platforms df = Offered ps ->
  (forall p, In p ps ->
     isna p = false
     /\ exists r, In r (rows (select_platform (Some p) df))
                  /\ cell r "platform_name" = p)
  /\ (forall r, In r (rows df) -> isna (cell r "platform_name") = false ->
        exists p, In p ps /\ value_eqb (cell r "platform_name") p = true).
Proof.
  intros Hps. split.
  - intros p Hp. apply (platforms_In df ps p Hps) in Hp.
    apply unique_In, filter_In in Hp as [Hp Hna]. apply negb_true_iff in Hna.
    split; [exact Hna|].
    apply in_map_iff in Hp as (r & Hcell & Hr).
    exists r. split; [|exact Hcell].
    apply select_platform_In. split; [exact Hr|].
    exists p. split; [reflexivity|]. rewrite Hcell. now apply value_eqb_refl.
  - intros r Hr Hna.
    destruct (unique_covers (cell r "platform_name")
                (List.filter (fun v => negb (isna v)) (column "platform_name" df)))
      as (p & Hp & Heq); [|exact Hna|].
    + apply filter_In. split; [|now rewrite Hna].
      apply in_map_iff. eauto.
    + exists p. split; [|exact Heq]. now apply (platforms_In df ps p Hps).
Qed.

Lemma float_eqb_sym (a b : float) :
  PrimFloat.eqb a b = true -> PrimFloat.eqb b a = true.
Proof.
  rewrite !FloatAxioms.eqb_spec. intros Hab.
  apply SFeqb_true in Hab as (Ha & Hb & [-> | (s1 & s2 & -> & ->)]);
    [now apply SFeqb_of_eq | reflexivity].
Qed.

Lemma value_eqb_sym (v w : value) : value_eqb v w = true -> value_eqb w v = true.
Proof.
  destruct v, w; simpl; try discriminate.
  - apply float_eqb_sym.
  - intros Ha. apply String.eqb_eq in Ha. subst. apply String.eqb_refl.
  - intros Ha. apply Z.eqb_eq in Ha. subst. apply Z.eqb_refl.
Qed.


Lemma occurrences_insert (p v : value) (l : list value) :
  occurrences p (insert_value v l) = occurrences p (v :: l).
Proof.
  unfold occurrences. induction l as [|a l IH]; [reflexivity|].
  simpl. destruct (value_ltb a v) as [[|]|]; try reflexivity.
  simpl. destruct (value_eqb a p); simpl; rewrite IH; simpl;
    destruct (value_eqb v p); reflexivity.
Qed.

Lemma occurrences_sort (p : value) (l : list value) :
  occurrences p (sort_values l) = occurrences p l.
Proof.
  induction l as [|a l IH]; [reflexivity|].
  simpl. rewrite occurrences_insert. unfold occurrences in *. simpl.
  destruct (value_eqb a p); simpl; now rewrite IH.
Qed.

Lemma filter_within {A} (f keep : A -> bool) (l : list A) :
  (forall q, f q = true -> keep q = true) ->
  List.filter f (List.filter keep l) = List.filter f l.
Proof.
  intros Hkeep. induction l as [|b u IH]; [reflexivity|].
  simpl. destruct (keep b) eqn:Eb; simpl.
  - destruct (f b); [now rewrite IH | exact IH].
  - destruct (f b) eqn:Ef; [|exact IH].
    rewrite (Hkeep b Ef) in Eb. discriminate.
Qed.

Lemma filter_without {A} (f keep : A -> bool) (l : list A) :
  (forall q, f q = true -> keep q = false) ->
  List.filter f (List.filter keep l) = [].
Proof.
  intros Hkeep. induction l as [|b u IH]; [reflexivity|].
  simpl. destruct (keep b) eqn:Eb; simpl; [|exact IH].
  destruct (f b) eqn:Ef; [|exact IH].
  rewrite (Hkeep b Ef) in Eb. discriminate.
Qed.

Lemma occurrences_unique (p : value) (l : list value) :
  In p (unique l) -> isna p = false -> occurrences p (unique l) = 1%nat.
Proof.
  unfold occurrences. induction l as [|a l IH]; intros Hin Hp; [destruct Hin|].
  simpl in *. destruct (value_eqb a p) eqn:Eap.
  - simpl. rewrite filter_without; [reflexivity|].
    intros q Hq. apply negb_false_iff.
    exact (value_eqb_trans q p a Hq (value_eqb_sym a p Eap)).
  - destruct Hin as [->|Hin];
      [rewrite value_eqb_refl in Eap by exact Hp; discriminate|].
    apply filter_In in Hin as [Hin _].
    rewrite filter_within; [now apply IH|].
    intros q Hq. apply negb_true_iff.
    destruct (value_eqb q a) eqn:Eqa; [|reflexivity].
    rewrite (value_eqb_trans a q p (value_eqb_sym q a Eqa) Hq) in Eap. discriminate.
Qed.

(** X9.  The select box offers no platform twice: each offered platform
    is equal to exactly one of the options. *)
Theorem platforms_distinct (df : frame) (ps : list value) (p : value) :
  platforms df = Offered ps -> In p ps -> occurrences p ps = 1%nat.
Proof.
  intros Hps Hp. pose proof (proj1 (platforms_In df ps p Hps) Hp) as Hu.
  assert (Hna : isna p = false).
  { apply unique_In, filter_In in Hu as [_ Hna]. now apply negb_true_iff. }
  unfold platforms in Hps. destruct (has_column _ df); [|discriminate].
  destruct (unique _) as [|v u] eqn:Eu; [destruct Hu|].
  destruct (forallb (same_kind v) (v :: u)); [|discriminate].
  assert (Heq : ps = sort_values (v :: u)) by congruence.
  rewrite Heq, occurrences_sort, <- Eu.
  apply occurrences_unique; [now rewrite Eu | exact Hna].
Qed.

Section StageFacts.

Context `{TextReader} `{UnicodeDigits}.

(** ** AxisResolver: what the coercion does to a row *)

Lemma to_numeric_idempotent (v : value) : to_numeric (to_numeric v) = to_numeric v.
Proof. now destruct v. Qed.

Lemma coerce_row_other (cs : list string) (r : gmap string value) (k : string) :
  ~ In k cs \/ k = "time"%string -> coerce_row cs r !! k = r !! k.
Proof.
  revert r. induction cs as [|a cs IH]; intros r Hk; [reflexivity|].
  unfold coerce_row in *. simpl.
  assert (Hk' : ~ In k cs \/ k = "time"%string)
    by (destruct Hk as [Hk|Hk]; [left; intros Hin; apply Hk; now right | now right]).
  destruct (String.eqb_spec a "time") as [Ha|Ha]; [now apply IH|].
  rewrite IH by exact Hk'. apply lookup_insert_ne.
  destruct Hk as [Hk| ->]; [intros <-; apply Hk; now left | exact Ha].
Qed.

Lemma coerce_row_axis (cs : list string) (r : gmap string value) (k : string) :
  In k cs -> k <> "time"%string ->
  coerce_row cs r !! k = Some (to_numeric (cell r k)).
Proof.
  revert r. induction cs as [|a cs IH]; intros r Hin Hk; [destruct Hin|].
  unfold coerce_row in *. simpl.
  destruct (decide (a = k)) as [->|Hne].
  - apply String.eqb_neq in Hk. rewrite Hk.
    destruct (to_numeric_is_num (cell r k)) as [f Hf]. rewrite Hf.
    apply (coerce_row_keeps cs). now rewrite lookup_insert_eq.
  - destruct Hin as [Ha|Hin]; [contradiction|].
    destruct (String.eqb a "time"); [now apply IH|].
    rewrite IH by assumption. unfold cell. now rewrite lookup_insert_ne.
Qed.

(** X10.  The AxisResolver keeps the columns and the rows in place.  In
    every row, the cell of an axis column other than "time" becomes its
    numeric reading (a number stays the number it is, text is read, a
    missing cell stays missing), and every other cell is untouched. *)
Theorem coerce_axes_cells (df : frame) (i : nat) (r : gmap string value) :
  rows (coerce_axes df) !! i = Some r ->
  columns (coerce_axes df) = columns df
  /\ length (rows (coerce_axes df)) = length (rows df)
  /\ exists r0, rows df !! i = Some r0
       /\ (forall k, In k (axis_cols df) -> k <> "time"%string ->
             r !! k = Some (to_numeric (cell r0 k)))
       /\ (forall k, ~ In k (axis_cols df) \/ k = "time"%string -> r !! k = r0 !! k).
Proof.
  unfold coerce_axes. destruct (coerce_columns_spec (axis_cols df) df) as [Hc Hr].
  rewrite Hc, Hr. intros Hi. rewrite list_lookup_fmap in Hi.
  destruct (rows df !! i) as [r0|] eqn:Er0; [|discriminate]. injection Hi as <-.
  split; [reflexivity|]. split; [apply length_map|].
  exists r0. split; [reflexivity|]. split.
  - intros k Hk Ht. now apply coerce_row_axis.
  - intros k Hk. now apply coerce_row_other.
Qed.

Lemma frame_eq (a b : frame) : columns a = columns b -> rows a = rows b -> a = b.
Proof. destruct a, b. simpl. now intros -> ->. Qed.

Lemma coerce_columns_numeric_id (cs : list string) (df : frame) :
  (forall r c, In r (rows df) -> In c cs -> c <> "time"%string ->
     exists f, r !! c = Some (VNum f)) ->
  coerce_columns cs df = df.
Proof.
  intros Hnum. destruct (coerce_columns_spec cs df) as [Hc Hr].
  apply frame_eq; [exact Hc|]. rewrite Hr.
  rewrite <- (map_id (rows df)) at 2. apply map_ext_in.
  intros r Hin. apply coerce_row_id. intros c Hc' Ht. now apply (Hnum r c).
Qed.

(** X11.  Running the numeric coercion of the AxisResolver a second time
    changes nothing. *)
Theorem coerce_axes_idempotent (df : frame) :
  coerce_axes (coerce_axes df) = coerce_axes df.
Proof.
  unfold coerce_axes at 1. rewrite axis_cols_coerce_axes.
  apply coerce_columns_numeric_id. intros r c Hr Hc Ht.
  now apply (coerce_axes_numeric df c r).
Qed.

(** ** RowFilter *)

Lemma select_platform_columns (platform : option value) (df : frame) :
  columns (select_platform platform df) = columns df.
Proof. reflexivity. Qed.

Lemma missing_labels_all_present (cs : list string) (df : frame) :
  (forall c, In c cs -> In c (columns df)) -> missing_labels cs df = [].
Proof.
  intros Hall. unfold missing_labels. induction cs as [|c cs IH]; [reflexivity|].
  simpl. rewrite (proj2 (has_column_In c df)) by (apply Hall; now left).
  simpl. apply IH. intros c' Hc'. apply Hall. now right.
Qed.

Lemma missing_labels_some_absent (cs : list string) (df : frame) (c : string) :
  In c cs -> ~ In c (columns df) -> missing_labels cs df <> [].
Proof.
  intros Hc Habs Hnil. apply Habs, has_column_In.
  now apply (missing_labels_nil cs df c).
Qed.

(** The RowFilter on the frame of the AxisResolver, for axes among its
    axis columns: the second coercion finds numbers only. *)
Lemma row_filter_prepared
    (df : frame) (platform : option value) (x y : string) :
  In x (axis_cols df) -> In y (axis_cols df) ->
  row_filter platform x y (coerce_axes df)
  = Ok (dropna_subset [x; y] (select_platform platform (coerce_axes df))).
Proof.
  intros Hx Hy. unfold row_filter.
  assert (Hcols : forall c, In c [x; y] ->
            In c (columns (select_platform platform (coerce_axes df)))).
  { intros c [<-|[<-|[]]]; rewrite select_platform_columns, coerce_axes_columns;
      now apply axis_cols_In. }
  rewrite missing_labels_all_present.
  2:{ intros c Hc. apply filter_In in Hc as [Hc _]. now apply Hcols. }
  assert (Hid : coerce_columns [x; y] (select_platform platform (coerce_axes df))
                = select_platform platform (coerce_axes df)).
  { apply coerce_columns_numeric_id. intros r c Hr Hc Ht.
    apply select_platform_In in Hr as [Hr _].
    destruct Hc as [<-|[<-|[]]]; now apply (coerce_axes_numeric df _ r). }
  rewrite Hid, missing_labels_all_present by exact Hcols. reflexivity.
Qed.

(** X12.  On the frame of the AxisResolver, with its "platform_name"
    column, and for axes among its axis columns, the RowFilter is the
    platform filter followed by the dropping of rows with a missing axis
    cell: it keeps exactly the rows of the chosen platform with both axis
    cells present, in their order, and changes no cell. *)
Theorem row_filter_exact
    (df : frame) (platform : option value) (x y : string) :
  In "platform_name"%string (columns df) ->
  In x (axis_cols df) -> In y (axis_cols df) ->
  exists data,
    row_filter platform x y (coerce_axes df) = Ok data
    /\ columns data = columns df
    /\ rows data
       = List.filter
           (fun r => forallb (fun c => negb (isna (cell r c))) [x; y])
           (List.filter
              (fun r => match platform with
                        | Some p => value_eqb (cell r "platform_name") p
                        | None => false
                        end)
              (rows (coerce_axes df))).
Proof.
  intros _ Hx Hy. eexists. split; [now apply row_filter_prepared|].
  split; [apply coerce_axes_columns | reflexivity].
Qed.

Lemma has_column_selected (c : string) (cs : list string)
    (platform : option value) (df : frame) :
  has_column c (coerce_columns cs (select_platform platform df)) = has_column c df.
Proof.
  unfold has_column.
  now rewrite (proj1 (coerce_columns_spec _ _)), select_platform_columns.
Qed.

(** X13.  On a frame with a "platform_name" column, the RowFilter
    raises a KeyError exactly when one of the two axis labels is no
    column of the frame. *)
Theorem row_filter_raises_iff
    (df : frame) (platform : option value) (x y : string) :
  In "platform_name"%string (columns df) ->
  ((exists e, row_filter platform x y df = Err e)
   <-> ~ (In x (columns df) /\ In y (columns df))).
Proof.
  intros _. unfold row_filter. split.
  - intros [e He] [Hx Hy].
    rewrite missing_labels_all_present in He.
    2:{ intros c Hc. apply filter_In in Hc as [Hc _].
        rewrite select_platform_columns. destruct Hc as [<-|[<-|[]]]; assumption. }
    rewrite missing_labels_all_present in He; [discriminate|].
    intros c Hc. rewrite (proj1 (coerce_columns_spec _ _)), select_platform_columns.
    destruct Hc as [<-|[<-|[]]]; assumption.
  - intros Hnot.
    destruct (missing_labels (List.filter _ [x; y]) _) as [|c l] eqn:E1; [|eauto].
    destruct (missing_labels [x; y] _) as [|c l] eqn:E2; [|eauto].
    exfalso. apply Hnot.
    split; apply has_column_In;
      rewrite <- (has_column_selected _ [x; y] platform df);
      apply (missing_labels_nil [x; y]); simpl; auto.
Qed.

End StageFacts.

(** ** Resampler: the shape of the output *)

Lemma sorted_NoDup (l : list Z) : StronglySorted Z.lt l -> List.NoDup l.
Proof.
  induction 1 as [|a l Hl IH Ha]; constructor; [|exact IH].
  intros Hin. rewrite List.Forall_forall in Ha. specialize (Ha a Hin). lia.
Qed.

Lemma by_time_length (l : list (Z * float)) : length (by_time l) = length l.
Proof.
  assert (Hins : forall p l', length (insert_by_time p l') = S (length l')).
  { intros p l'. induction l' as [|q l' IH]; simpl; [reflexivity|].
    destruct (fst p <=? fst q); simpl; [reflexivity | now rewrite IH]. }
  induction l as [|a l IH]; simpl; [reflexivity|]. now rewrite Hins, IH.
Qed.

Lemma stamped_length (y : string) (data : frame) :
  (length (stamped y data) <= length (rows data))%nat.
Proof.
  unfold stamped. induction (rows data) as [|r l IH]; [reflexivity|].
  cbn [omap list_omap length]. destruct (cell r "time"); cbn [length]; lia.
Qed.

Lemma bucket_means_length (pts : list (Z * float)) :
  (length (bucket_means pts) <= length pts)%nat.
Proof.
  rewrite <- (length_map fst (bucket_means pts)).
  rewrite <- (length_map (fun p => bucket (fst p)) pts).
  apply List.NoDup_incl_length.
  - apply sorted_NoDup, bucket_means_sorted.
  - intros b Hb. apply in_map_iff in Hb as ([b' m] & <- & Hbm).
    apply bucket_means_In in Hbm as ((p & Hp & Hbucket) & _).
    apply in_map_iff. exists p. split; [exact Hbucket | exact Hp].
Qed.

Lemma bucket_interval (t : Z) : bucket t <= t < bucket t + 900 /\ bucket t mod 900 = 0.
Proof. unfold bucket, BUCKET. Z.to_euclidean_division_equations. lia. Qed.


(** ** Normalizer: what it leaves alone *)

Lemma list_filter_sublist {A} (keep : A -> bool) (l : list A) :
  sublist (List.filter keep l) l.
Proof.
  induction l as [|a l IH]; simpl; [constructor|].
  destruct (keep a); [now apply sublist_skip | now apply sublist_cons].
Qed.

Lemma kept_rows_sublist cut mu sigma c data :
  sublist (kept_rows cut mu sigma c data) (rows data).
Proof.
  unfold kept_rows. destruct (negb _); [apply list_filter_sublist | reflexivity].
Qed.

(** The cells under [k] after one turn of the loop, for a column the
    turn does not write. *)
Lemma normalize_step_sublist (data : frame) (c k : string) :
  k <> c \/ c = "time"%string ->
  sublist (map (fun r => r !! k) (rows (normalize_step data c)))
          (map (fun r => r !! k) (rows data)).
Proof.
  intros Hk. unfold normalize_step.
  destruct (String.eqb_spec c "time") as [Hc|Hc]; [reflexivity|].
  destruct Hk as [Hk|Hk]; [|contradiction].
  unfold normalize_column, normalize_column_cut.
  rewrite normalize_with_rows, map_map.
  rewrite (map_ext _ (fun r => r !! k)).
  - apply (fmap_sublist (fun r : gmap string value => r !! k)), kept_rows_sublist.
  - intros r. now rewrite lookup_insert_ne.
Qed.

(** X15.  The Normalizer keeps the columns, only drops rows and keeps the
    rows in their order: under "time" and under every column that is not
    an axis, the cells of the output are the cells of the input with
    some rows left out. *)
Theorem normalizer_only_drops (x y k : string) (data : frame) :
  (k <> x /\ k <> y) \/ k = "time"%string ->
  columns (normalizer x y data) = columns data
  /\ sublist (map (fun r => r !! k) (rows (normalizer x y data)))
             (map (fun r => r !! k) (rows data))
  /\ (length (rows (normalizer x y data)) <= length (rows data))%nat.
Proof.
  intros Hk. rewrite normalizer_unfold.
  assert (Hx : k <> x \/ x = "time"%string).
  { destruct Hk as [[Hkx _] | ->]; [now left|].
    destruct (String.eqb_spec x "time"); [now right | left; congruence]. }
  assert (Hy : k <> y \/ y = "time"%string).
  { destruct Hk as [[_ Hky] | ->]; [now left|].
    destruct (String.eqb_spec y "time"); [now right | left; congruence]. }
  assert (Hsub : sublist (map (fun r => r !! k)
                              (rows (normalize_step (normalize_step data x) y)))
                         (map (fun r => r !! k) (rows data))).
  { etransitivity; [now apply normalize_step_sublist|].
    now apply normalize_step_sublist. }
  split; [now rewrite !normalize_step_columns|]. split; [exact Hsub|].
  apply sublist_length in Hsub. now rewrite !length_map in Hsub.
Qed.

(** *** A standard deviation that is not a number *)

Lemma is_nan_eq (f : float) : is_nan f = true -> f = nan.
Proof.
  unfold is_nan. rewrite FloatAxioms.eqb_spec. intros Hf.
  apply Prim2SF_inj. change (Prim2SF nan) with S754_nan.
  destruct (Prim2SF f) as [s|s| |s m e]; [destruct s; discriminate Hf
                                         | destruct s; discriminate Hf
                                         | reflexivity | ].
  exfalso. unfold SFeqb, SFcompare in Hf.
  rewrite Z.compare_refl, Pos.compare_cont_refl in Hf.
  destruct s; discriminate.
Qed.

Lemma normalize_column_nan_sigma (c : string) (data : frame) :
  is_nan (std (numbers c data)) = true -> rows (normalize_column c data) = [].
Proof.
  intros Hnan. apply is_nan_eq in Hnan.
  unfold normalize_column, normalize_column_cut.
  rewrite Hnan, normalize_with_rows. unfold kept_rows. simpl.
  induction (rows data) as [|r l IH]; [reflexivity|].
  simpl. unfold within_cut at 1, zscore. rewrite div_nan. simpl. exact IH.
Qed.

(** X16.  When the standard deviation the Normalizer computes for one of
    its columns is NaN, every row is rejected and the Normalizer leaves
    no row, whatever the other column holds. *)
Theorem normalizer_nan_sigma (x y c : string) (data : frame) :
  c <> "time"%string ->
  (c = x /\ is_nan (std (numbers x data)) = true)
  \/ (c = y /\ is_nan (std (numbers y (normalize_step data x))) = true) ->
  rows (normalizer x y data) = [].
Proof.
  intros Hc Hsigma. rewrite normalizer_unfold.
  destruct Hsigma as [[-> Hnan] | [-> Hnan]].
  - apply normalize_step_nil. unfold normalize_step.
    apply String.eqb_neq in Hc. rewrite Hc.
    now apply normalize_column_nan_sigma.
  - unfold normalize_step at 1. apply String.eqb_neq in Hc. rewrite Hc.
    now apply normalize_column_nan_sigma.
Qed.

(** ** The preview table *)

Lemma preview_ok (x y : string) (data shown : frame) :
  preview x y data = Ok shown ->
  shown = Frame [x; y] (firstn 100 (map (restrict [x; y]) (rows data))).
Proof.
  unfold preview, select_columns.
  destruct (missing_labels [x; y] data); [|discriminate].
  now intros [= <-].
Qed.

(** X17.  The preview shows the two axis columns of the first hundred
    rows: it has the smaller of 100 and the number of rows, and its i-th
    row has the cells of the i-th row of the data under both axes and
    no other cell. *)
Theorem preview_rows
    (x y : string) (data shown : frame) (i : nat) (r : gmap string value) :
  preview x y data = Ok shown ->
  rows shown !! i = Some r ->
  (i < 100)%nat
  /\ length (rows shown) = Nat.min 100 (length (rows data))
  /\ columns shown = [x; y]
  /\ exists r0, rows data !! i = Some r0
       /\ r !! x = r0 !! x /\ r !! y = r0 !! y
       /\ forall k, k <> x -> k <> y -> r !! k = None.
Proof.
  intros Hshown Hi. apply preview_ok in Hshown. subst shown. simpl in *.
  apply lookup_take_Some in Hi as [Hi Hlt].
  rewrite list_lookup_fmap in Hi.
  destruct (rows data !! i) as [r0|] eqn:Er0; [|discriminate].
  injection Hi as <-.
  split; [exact Hlt|]. split; [now rewrite length_take, length_map|].
  split; [reflexivity|].
  exists r0. split; [reflexivity|].
  rewrite !restrict_lookup.
  rewrite !bool_decide_eq_true_2 by (apply list_elem_of_In; simpl; auto).
  repeat split. intros k Hx Hy. rewrite restrict_lookup.
  rewrite bool_decide_eq_false_2; [reflexivity|].
  rewrite list_elem_of_In. simpl. intuition congruence.
Qed.

Lemma lookup_first {A} (d : A) (l : list A) :
  (0 <? Z.of_nat (length l)) = true -> l !! 0%nat = Some (hd d l).
Proof. destruct l; [discriminate | reflexivity]. Qed.

Section RunFacts.

Context `{TextReader} `{UnicodeDigits}.

(** ** The run: selections the select boxes offer *)

Lemma prepare_coerced (raw : frame) :
  prepare raw = coerce_axes (parse_time_column (scope_columns (sanitize raw))).
Proof. reflexivity. Qed.

Lemma axis_cols_prepare (raw : frame) :
  axis_cols (prepare raw)
  = axis_cols (parse_time_column (scope_columns (sanitize raw))).
Proof. rewrite prepare_coerced. apply axis_cols_coerce_axes. Qed.

Lemma row_filter_run (raw : frame) (platform : option value) (x y : string) :
  In x (axis_cols (prepare raw)) -> In y (axis_cols (prepare raw)) ->
  row_filter platform x y (prepare raw)
  = Ok (dropna_subset [x; y] (select_platform platform (prepare raw))).
Proof.
  rewrite axis_cols_prepare, prepare_coerced. apply row_filter_prepared.
Qed.

(** With the column of the platforms present and axes among the axis
    columns, the run raises only on "time" against "time". *)
Lemma pipeline_raises (raw : frame) (platform : option value) (x y : string) :
  In "platform_name"%string (columns (prepare raw)) ->
  In x (axis_cols (prepare raw)) -> In y (axis_cols (prepare raw)) ->
  ((exists e, pipeline raw platform x y = Raised e) <->
   x = "time"%string /\ y = "time"%string
   /\ exists r, In r (rows (prepare raw))
        /\ (exists p, platform = Some p /\ value_eqb (cell r "platform_name") p = true)
        /\ isna (cell r "time") = false).
Proof.
  intros Hp Hx Hy. unfold pipeline.
  rewrite (proj2 (has_column_In _ _) Hp), (row_filter_run raw platform x y Hx Hy).
  set (d := dropna_subset [x; y] (select_platform platform (prepare raw))).
  assert (Hrow : forall r, In r (rows d) <->
            In r (rows (prepare raw))
            /\ (exists p, platform = Some p /\ value_eqb (cell r "platform_name") p = true)
            /\ isna (cell r x) = false /\ isna (cell r y) = false).
  { intros r. unfold d. rewrite dropna_subset_In, select_platform_In. split.
    - intros [[Hr Hplat] Hpresent]. repeat split; try assumption;
        apply Hpresent; simpl; auto.
    - intros (Hr & Hplat & Hcx & Hcy). split; [now split|].
      intros c [<-|[<-|[]]]; assumption. }
  destruct (empty d) eqn:Ed.
  - apply empty_true in Ed. split; [intros [e E]; discriminate|].
    intros (-> & -> & r & Hr & Hplat & Ht).
    assert (Hin : In r (rows d)) by (apply Hrow; auto).
    rewrite Ed in Hin. destruct Hin.
  - apply empty_false in Ed. unfold resample_if_time, resample.
    destruct (String.eqb_spec x "time") as [Hxt|Hxt].
    + destruct (String.eqb_spec y "time") as [Hyt|Hyt].
      * split; [|eauto]. intros _. split; [exact Hxt|]. split; [exact Hyt|].
        assert (Hex : exists r, In r (rows d)).
        { clear Hrow. destruct (rows d) as [|r l]; [contradiction|]. exists r. now left. }
        destruct Hex as [r Hin].
        apply Hrow in Hin as (Hr & Hplat & Hcx & _). subst x. eauto.
      * split; [|intros (_ & E & _); contradiction].
        destruct (empty _); intros [e E]; discriminate.
    + split; [|intros (E & _); contradiction].
      destruct (empty _); intros [e E]; discriminate.
Qed.

Lemma platforms_no_column (df : frame) (e : exn) :
  platforms df = NoColumn e -> ~ In "platform_name"%string (columns df).
Proof.
  unfold platforms. destruct (has_column "platform_name" df) eqn:E.
  - destruct (unique _); [discriminate|]. destruct (forallb _ _); discriminate.
  - intros _. now apply has_column_not_In.
Qed.

Lemma platforms_column (df : frame) :
  In "platform_name"%string (columns df) ->
  platforms df = Unorderable \/ exists ps, platforms df = Offered ps.
Proof.
  intros Hp. apply has_column_In in Hp. unfold platforms. rewrite Hp.
  destruct (unique _); [eauto|]. destruct (forallb _ _); eauto.
Qed.


(** X19.  With "time" chosen for both axes, the run raises a KeyError as
    soon as one row of the chosen platform has a timestamp: the
    resampled frame has no "time" column to take the y-values from. *)
Theorem pipeline_time_time_raises
    (raw : frame) (p : value) (r : gmap string value) :
  In "platform_name"%string (columns (prepare raw)) ->
  In "time"%string (axis_cols (prepare raw)) ->
  In r (rows (prepare raw)) ->
  value_eqb (cell r "platform_name") p = true ->
  isna (cell r "time") = false ->
  pipeline raw (Some p) "time" "time" = Raised (KeyError ["time"%string]).
Proof.
  intros Hp Ht Hr Hmatch Hpresent. unfold pipeline.
  rewrite (proj2 (has_column_In _ _) Hp), (row_filter_run raw _ _ _ Ht Ht).
  assert (Hin : In r (rows (dropna_subset ["time"%string; "time"%string]
                             (select_platform (Some p) (prepare raw))))).
  { apply dropna_subset_In. split.
    - apply select_platform_In. split; [exact Hr | eauto].
    - intros c [<-|[<-|[]]]; exact Hpresent. }
  assert (Hne : empty (dropna_subset ["time"%string; "time"%string]
                         (select_platform (Some p) (prepare raw))) = false).
  { apply empty_false. intros Hnil. rewrite Hnil in Hin. destruct Hin. }
  rewrite Hne. reflexivity.
Qed.

(** X20.  When the select box has no platform to offer (its value is
    None), the run ends in "no data" for every choice of axis columns. *)
Theorem pipeline_no_platform (raw : frame) (x y : string) :
  In "platform_name"%string (columns (prepare raw)) ->
  In x (axis_cols (prepare raw)) -> In y (axis_cols (prepare raw)) ->
  pipeline raw None x y = NoDataLeft.
Proof.
  intros Hp Hx Hy. unfold pipeline.
  rewrite (proj2 (has_column_In _ _) Hp), (row_filter_run raw None x y Hx Hy).
  unfold dropna_subset, select_platform, empty. simpl.
  now induction (rows (prepare raw)).
Qed.

(** What a plotted frame is made of. *)
Lemma pipeline_plotted
    (raw data : frame) (platform : option value) (x y : string) :
  pipeline raw platform x y = Plotted data ->
  exists d0 d1,
    row_filter platform x y (prepare raw) = Ok d0
    /\ resample_if_time x y d0 = Ok d1
    /\ data = normalizer x y d1.
Proof.
  unfold pipeline.
  destruct (has_column "platform_name" (prepare raw)); [|discriminate].
  destruct (row_filter platform x y (prepare raw)) as [d0|e]; [|discriminate].
  destruct (empty d0); [discriminate|].
  destruct (resample_if_time x y d0) as [d1|e] eqn:Hres; [|discriminate].
  destruct (empty (normalizer x y d1)); [discriminate|].
  intros [= <-]. exists d0, d1. auto.
Qed.

Lemma normalizer_columns (x y : string) (data : frame) :
  columns (normalizer x y data) = columns data.
Proof. rewrite normalizer_unfold. now rewrite !normalize_step_columns. Qed.

(** X21.  A plotted frame has the two columns "time" and y when "time" is
    the x-axis, and the columns of the prepared frame otherwise. *)
Theorem plotted_columns
    (raw data : frame) (platform : option value) (x y : string) :
  pipeline raw platform x y = Plotted data ->
  columns data
  = if String.eqb x "time" then ["time"%string; y] else columns (prepare raw).
Proof.
  intros Hrun. apply pipeline_plotted in Hrun as (d0 & d1 & Hfil & Hres & ->).
  rewrite normalizer_columns.
  apply row_filter_ok in Hfil. subst d0. unfold resample_if_time, resample in Hres.
  destruct (String.eqb x "time").
  - destruct (String.eqb y "time"); [discriminate|]. now injection Hres as <-.
  - injection Hres as <-.
    exact (proj1 (coerce_columns_spec [x; y] (select_platform platform (prepare raw)))).
Qed.

(** X22.  With an x-axis other than "time", every plotted row comes from
    a row of the prepared frame: a row of the chosen platform with both
    axis cells present, whose cells outside the two axis columns it
    keeps. *)
Theorem plotted_rows_from_platform
    (raw data : frame) (platform : option value) (x y : string)
    (r : gmap string value) :
  x <> "time"%string ->
  In x (axis_cols (prepare raw)) -> In y (axis_cols (prepare raw)) ->
  pipeline raw platform x y = Plotted data ->
  In r (rows data) ->
  exists r0, In r0 (rows (prepare raw))
    /\ (exists p, platform = Some p /\ value_eqb (cell r0 "platform_name") p = true)
    /\ isna (cell r0 x) = false /\ isna (cell r0 y) = false
    /\ forall k, k <> x -> k <> y -> r !! k = r0 !! k.
Proof.
  intros Hxt Hx Hy Hrun Hr.
  apply pipeline_plotted in Hrun as (d0 & d1 & Hfil & Hres & ->).
  rewrite (row_filter_run raw platform x y Hx Hy) in Hfil. injection Hfil as <-.
  unfold resample_if_time in Hres. apply String.eqb_neq in Hxt. rewrite Hxt in Hres.
  injection Hres as <-.
  rewrite normalizer_unfold in Hr.
  apply normalize_step_In in Hr as (r1 & Hr1 & Hy1 & _).
  apply normalize_step_In in Hr1 as (r0 & Hr0 & Hx0 & _).
  apply dropna_subset_In in Hr0 as [Hr0 Hpresent].
  apply select_platform_In in Hr0 as [Hr0 Hplat].
  exists r0. split; [exact Hr0|]. split; [exact Hplat|].
  split; [apply Hpresent; simpl; auto|]. split; [apply Hpresent; simpl; auto|].
  intros k Hkx Hky. now rewrite Hy1, Hx0.
Qed.

Lemma map_filter_sorted {A} (f : A -> Z) (keep : A -> bool) (l : list A) :
  StronglySorted Z.lt (map f l) -> StronglySorted Z.lt (map f (List.filter keep l)).
Proof.
  induction l as [|a l IH]; simpl; intros Hs; [constructor|].
  apply StronglySorted_inv in Hs as [Hs Ha].
  destruct (keep a); simpl; [|now apply IH].
  constructor; [now apply IH|].
  rewrite List.Forall_forall in *. intros b Hb.
  apply in_map_iff in Hb as (c & <- & Hc). apply filter_In in Hc as [Hc _].
  apply Ha. now apply in_map.
Qed.


Lemma row_filter_ok_columns
    (df data : frame) (platform : option value) (x y : string) :
  row_filter platform x y df = Ok data -> In x (columns df) /\ In y (columns df).
Proof.
  unfold row_filter.
  destruct (missing_labels (List.filter _ [x; y]) _); [|discriminate].
  destruct (missing_labels [x; y] _) eqn:Hnone; [|discriminate].
  intros _. split; apply has_column_In;
    rewrite <- (has_column_selected _ [x; y] platform df);
    apply (missing_labels_nil [x; y]); simpl; auto.
Qed.

(** X24.  After a plot the preview table never raises: both axis labels
    are columns of the plotted frame, and the table shows the smaller of
    100 and the number of plotted rows. *)
Theorem plotted_preview
    (raw data : frame) (platform : option value) (x y : string) :
  pipeline raw platform x y = Plotted data ->
  exists shown,
    preview x y data = Ok shown
    /\ columns shown = [x; y]
    /\ length (rows shown) = Nat.min 100 (length (rows data)).
Proof.
  intros Hrun.
  assert (Hcols : forall c, In c [x; y] -> In c (columns data)).
  { apply pipeline_plotted in Hrun as (d0 & d1 & Hfil & Hres & ->).
    rewrite normalizer_columns.
    pose proof (row_filter_ok_columns _ _ _ _ _ Hfil) as [Hx Hy].
    apply row_filter_ok in Hfil. subst d0. unfold resample_if_time, resample in Hres.
    destruct (String.eqb_spec x "time") as [Hxt|Hxt].
    - destruct (String.eqb y "time"); [discriminate|]. injection Hres as <-.
      subst x. simpl. intros c [<-|[<-|[]]]; auto.
    - injection Hres as <-.
      intros c Hc.
      change (In c (columns (coerce_columns [x; y]
                               (select_platform platform (prepare raw))))).
      rewrite (proj1 (coerce_columns_spec _ _)), select_platform_columns.
      destruct Hc as [<-|[<-|[]]]; assumption. }
  unfold preview, select_columns.
  rewrite (missing_labels_all_present _ _ Hcols). eexists. split; [reflexivity|].
  split; [reflexivity|]. simpl. now rewrite length_take, length_map.
Qed.

End RunFacts.

(** * Runs on concrete frames *)

(** The examples read digits with the three scripts of [three_scripts]. *)
#[local] Existing Instance three_scripts.

(** ** TimeParser on concrete texts *)

Example parse_time_epoch : parse_time "1970-01-01T00:00:00Z" = Some 0.
Proof. reflexivity. Qed.

Example parse_time_2021 : parse_time "2021-04-05T12:34:56Z" = Some 1617626096.
Proof. reflexivity. Qed.

Example format_time_2021 : format_time 1617626096 = "2021-04-05T12:34:56Z"%string.
Proof. reflexivity. Qed.

Example parse_time_leap_day :
  parse_time "2020-02-29T23:59:59Z" = Some 1583020799
  /\ parse_time "2021-02-29T23:59:59Z" = None.
Proof. split; reflexivity. Qed.

Example parse_time_rejects :
  parse_time "2021-04-05 12:34:56" = None
  /\ parse_time "2021-04-05T12:34:56" = None
  /\ parse_time "2021-04-05T12:34:56Z " = None
  /\ parse_time "21-04-05T12:34:56Z" = None
  /\ parse_time "2021-13-05T12:34:56Z" = None
  /\ parse_time "2021-04-05T24:00:00Z" = None
  /\ parse_time "" = None.
Proof. repeat split; reflexivity. Qed.

Example parse_time_out_of_range :
  parse_time "2262-04-11T23:47:16Z" = Some TS_MAX
  /\ parse_time "2262-04-11T23:47:17Z" = None
  /\ parse_time "1677-09-21T00:12:44Z" = Some TS_MIN
  /\ parse_time "1677-09-21T00:12:43Z" = None.
Proof. repeat split; reflexivity. Qed.

(** The seconds 60 and 61 are read and carried into the next minute. *)
Example parse_time_carries :
  parse_time "2021-04-05T12:34:60Z" = parse_time "2021-04-05T12:35:00Z"
  /\ parse_time "2021-04-05T12:34:61Z" = parse_time "2021-04-05T12:35:01Z"
  /\ parse_time "2021-04-05T12:34:60Z" = Some 1617626100
  /\ parse_time "2021-04-05T12:34:62Z" = None.
Proof. repeat split; reflexivity. Qed.

(** One-digit fields, a day padded with a blank and lower-case letters
    are read; so are digits of other scripts where the group has [\d]. *)
Example parse_time_lenient :
  parse_time "2021-4-5T1:2:3Z" = parse_time "2021-04-05T01:02:03Z"
  /\ parse_time "2021-04- 5t12:34:56z" = Some 1617626096
  /\ parse_time "٢٠٢١-04-05T12:34:56Z" = Some 1617626096
  /\ parse_time "2021-04-05T1٢:34:56Z" = Some 1617626096
  /\ parse_time "2021-04-05T2٢:34:56Z" = None
  /\ parse_time "2021-0٤-05T12:34:56Z" = None.
Proof. repeat split; vm_compute; reflexivity. Qed.

(** ** Sanitizer *)

Lemma sanitize_postcondition_witness :
  let r := reading "2021-04-05T12:01:00Z" "A" 10 (-9998) in
  In r (rows (sanitize two_readings)) /\ is_sentinel (cell r "flux") = false.
Proof.
  intros r.
  assert (Hin : In r (rows (sanitize two_readings))) by (left; reflexivity).
  split; [exact Hin|].
  exact (proj2 (sanitize_postcondition two_readings r Hin) "flux"%string).
Defined.

(** C2 fails as stated: a row whose only value is the sentinel survives
    the Sanitizer as an entirely missing row, and the mean of a bucket
    can be the sentinel value again. *)
Lemma sanitize_claim_counterexample :
  (exists r, In r (rows (sanitize only_sentinel))
             /\ all_missing (columns (sanitize only_sentinel)) r = true)
  /\ (exists data,
        before_normalizer (H := integer_text) two_readings (Some (VStr "A")) "time" "flux"
        = Some data
        /\ existsb is_sentinel (column "flux" data) = true).
Proof.
  split.
  - eexists. split; [left; reflexivity | reflexivity].
  - eexists. split; [vm_compute; reflexivity | vm_compute; reflexivity].
Qed.

(** ** RowFilter and Resampler *)

Lemma row_filter_postcondition_witness :
  let df := parse_time_column (scope_columns (sanitize ten_rows)) in
  let r := hd ∅ (rows (filtered ten_rows)) in
  In r (rows (filtered ten_rows))
  /\ (exists p, Some (VStr "A") = Some p /\ value_eqb (cell r "platform_name") p = true)
  /\ isna (cell r "time") = false
  /\ isna (cell r "flux") = false.
Proof.
  intros df r.
  assert (Hlen : (0 <? Z.of_nat (length (rows (filtered ten_rows)))) = true)
    by (vm_compute; reflexivity).
  pose proof (In_first ∅ _ Hlen) as Hin.
  assert (Hx : In "time"%string (axis_cols df)) by (vm_compute; left; reflexivity).
  assert (Hy : In "flux"%string (axis_cols df))
    by (vm_compute; do 2 right; left; reflexivity).
  assert (Hok : row_filter (H := integer_text) (Some (VStr "A")) "time" "flux"
                  (coerce_axes (H := integer_text) df) = Ok (filtered ten_rows))
    by (vm_compute; reflexivity).
  split; [exact Hin|].
  exact (row_filter_postcondition (H := integer_text) df (filtered ten_rows)
           (Some (VStr "A")) "time" "flux" r Hx Hy Hok Hin).
Defined.

Example by_time_is_stable :
  by_time [(3, 1%float); (1, 2%float); (3, 4%float); (2, 8%float)]
  = [(1, 2%float); (2, 8%float); (3, 1%float); (3, 4%float)].
Proof. reflexivity. Qed.

Example filtered_ten_rows :
  stamped "flux" (filtered ten_rows)
  = [(1617624060, 1%float); (1617624450, 2%float); (1617624899, 3%float);
     (1617626700, 10%float); (1617627599, 12%float)].
Proof. vm_compute. reflexivity. Qed.

Example bucket_means_ten_rows :
  bucket_means (by_time (stamped "flux" (filtered ten_rows)))
  = [(1617624000, 2%float); (1617626700, 11%float)].
Proof. vm_compute. reflexivity. Qed.



(** ** TimeParser *)



(** ** Normalizer *)

Lemma normalizer_sequential_coupling_witness :
  let survivors :=
    kept_rows Z_OUTLIER_CUT (mean (numbers "latitude" eleven_readings))
              (std (numbers "latitude" eleven_readings)) "latitude" eleven_readings in
  let ys := map (fun r => num (cell r "flux")) survivors in
  numbers "flux" (normalize_column "latitude" eleven_readings) = ys
  /\ normalizer "latitude" "flux" eleven_readings
     = normalize_with Z_OUTLIER_CUT (mean ys) (std ys) "flux"
         (normalize_column "latitude" eleven_readings).
Proof.
  assert (Hx : "latitude"%string <> "time"%string) by discriminate.
  assert (Hy : "flux"%string <> "time"%string) by discriminate.
  assert (Hxy : "latitude"%string <> "flux"%string) by discriminate.
  exact (normalizer_sequential_coupling "latitude" "flux" eleven_readings Hx Hy Hxy).
Defined.

(** The far reading is rejected on its latitude, and the flux is then
    normalised around the mean of the ten readings left, not of all
    eleven. *)
Example eleven_readings_coupling :
  numbers "flux" (normalize_column "latitude" eleven_readings)
  = [1; 2; 3; 4; 5; 6; 7; 8; 9; 10]%float
  /\ mean (numbers "flux" (normalize_column "latitude" eleven_readings)) = 5.5%float
  /\ mean (numbers "flux" eleven_readings) = 0x1.7fa2e8ba2e8bap+6%float
  /\ length (rows (normalizer "latitude" "flux" eleven_readings)) = 10%nat.
Proof. repeat split; vm_compute; reflexivity. Qed.

Lemma normalize_column_zero_variance_witness :
  PrimFloat.eqb (std (numbers "flux" constant_flux)) 0 = true
  /\ rows (normalize_column_cut 3 "flux" constant_flux)
     = map (fun r => <["flux"%string := VNum 0]> r) (rows constant_flux)
  /\ length (rows (normalize_column_cut 3 "flux" constant_flux))
     = length (rows constant_flux)
  /\ (forall r, In r (rows (normalize_column_cut 3 "flux" constant_flux)) ->
        r !! "flux"%string = Some (VNum 0))
  /\ (forall k, k <> "flux"%string ->
        numbers k (normalize_column_cut 3 "flux" constant_flux) = numbers k constant_flux)
  /\ (2 <= length (present (numbers "flux" constant_flux)))%nat.
Proof.
  assert (Hsigma : PrimFloat.eqb (std (numbers "flux" constant_flux)) 0 = true)
    by (vm_compute; reflexivity).
  split; [exact Hsigma|].
  exact (normalize_column_zero_variance 3 "flux" constant_flux Hsigma).
Defined.

(** C3 fails as stated: the three fluxes are the same number, one tenth,
    but their computed mean is the next number up, the standard
    deviation is 1.7e-17 and not zero, and every cell becomes the
    z-score -0.816 instead of 0.0.  A column with one value has the
    standard deviation NaN, and its row is rejected. *)
Lemma zero_variance_claim_counterexample :
  (numbers "flux" tenths
   = [0x1.999999999999ap-4; 0x1.999999999999ap-4; 0x1.999999999999ap-4]%float
   /\ mean (numbers "flux" tenths) = 0x1.999999999999bp-4%float
   /\ std (numbers "flux" tenths) = 0x1.3988e1409212ep-56%float
   /\ PrimFloat.eqb (std (numbers "flux" tenths)) 0 = false
   /\ map (fun r => cell r "flux") (rows (normalize_column "flux" tenths))
      = [VNum (-0x1.a20bd700c2c3fp-1); VNum (-0x1.a20bd700c2c3fp-1);
         VNum (-0x1.a20bd700c2c3fp-1)])
  /\ (length (rows single_reading) = 1%nat
      /\ rows (normalize_column "flux" single_reading) = []).
Proof. repeat split; vm_compute; reflexivity. Qed.


(** Ten of the eleven readings are within the cut on both columns; their
    latitudes, all the same but for the reading that was rejected, are
    the z-score -0.30 and not 0.0. *)
Example eleven_readings_scores :
  map (fun r => cell r "latitude") (rows (normalizer "latitude" "flux" eleven_readings))
  = repeat (VNum (-0x1.34bf63d156826p-2)) 10
  /\ map (fun r => PrimFloat.leb (PrimFloat.abs (num (cell r "flux"))) Z_OUTLIER_CUT)
         (rows (normalizer "latitude" "flux" eleven_readings))
     = repeat true 10.
Proof. split; vm_compute; reflexivity. Qed.


(** ** Whole runs *)

(** Ten rows, platform "A", flux against time: two buckets with the
    means 2 and 11, whose z-scores are -0.707 and 0.707 (the standard
    deviation of two values divides by one). *)
Example ten_rows_run :
  exists data,
    pipeline (H := integer_text) ten_rows (Some (VStr "A")) "time" "flux" = Plotted data
    /\ map (fun r => (cell r "time", cell r "flux")) (rows data)
       = [(VTime 1617624000, VNum (-0x1.6a09e667f3bcdp-1));
          (VTime 1617626700, VNum 0x1.6a09e667f3bcdp-1)].
Proof. eexists. split; vm_compute; reflexivity. Qed.

Lemma missing_platform_column_raises_witness :
  ~ In "platform_name"%string (columns only_sentinel)
  /\ pipeline (H := integer_text) only_sentinel None "flux" "flux"
     = Raised (KeyError ["platform_name"%string]).
Proof.
  assert (Habs : ~ In "platform_name"%string (columns only_sentinel))
    by (intros [E|[]]; discriminate E).
  split; [exact Habs|].
  exact (missing_platform_column_raises (H := integer_text) only_sentinel None
           "flux" "flux" Habs).
Defined.

Lemma empty_outcomes_distinguished_witness :
  (has_column "platform_name" (prepare (H := integer_text) ten_rows) = true
   /\ exists d, row_filter (H := integer_text) (Some (VStr "C")) "time" "flux"
                  (prepare (H := integer_text) ten_rows) = Ok d
                /\ rows d = [])
  /\ (exists d, row_filter (H := integer_text) (Some (VStr "A")) "latitude" "flux"
                  (prepare (H := integer_text) single_reading) = Ok d
                /\ rows d <> []
                /\ forall r, In r (rows d) ->
                     let d1 := normalize_step d "latitude" in
                     PrimFloat.leb
                       (PrimFloat.abs
                          (written (mean (numbers "latitude" d)) (std (numbers "latitude" d))
                                   (cell r "latitude")))
                       Z_OUTLIER_CUT = false
                     \/ ("flux"%string <> "time"%string
                         /\ PrimFloat.leb
                              (PrimFloat.abs
                                 (written (mean (numbers "flux" d1)) (std (numbers "flux" d1))
                                          (cell r "flux")))
                              Z_OUTLIER_CUT = false)).
Proof.
  assert (Hno : pipeline (H := integer_text) ten_rows (Some (VStr "C")) "time" "flux"
                = NoDataLeft) by (vm_compute; reflexivity).
  assert (Hout : pipeline (H := integer_text) single_reading (Some (VStr "A"))
                   "latitude" "flux" = AllOutliers) by (vm_compute; reflexivity).
  assert (Hx : "latitude"%string <> "time"%string) by discriminate.
  assert (Hxy : "latitude"%string <> "flux"%string) by discriminate.
  destruct (empty_outcomes_distinguished (H := integer_text) ten_rows
              (Some (VStr "C")) "time" "flux") as (Hnone & _).
  destruct (empty_outcomes_distinguished (H := integer_text) single_reading
              (Some (VStr "A")) "latitude" "flux") as (_ & _ & Hcut & _).
  split.
  - exact (proj1 Hnone Hno).
  - exact (Hcut Hx Hxy Hout).
Defined.

(** C8 fails as stated: the two readings share a quarter of an hour
    whose mean is NaN, the Resampler leaves no row, and the run says
    that all rows were removed as outliers, although the Normalizer was
    handed no row and rejected none. *)
Lemma empty_outcomes_claim_counterexample :
  length (rows (filtered opposite_infinities)) = 2%nat
  /\ resample_if_time "time" "flux" (filtered opposite_infinities)
     = Ok (Frame ["time"%string; "flux"%string] [])
  /\ pipeline (H := integer_text) opposite_infinities (Some (VStr "A")) "time" "flux"
     = AllOutliers.
Proof. repeat split; vm_compute; reflexivity. Qed.

Lemma single_row_all_outliers_witness :
  (forall c, std (numbers c single_reading) = nan)
  /\ rows (normalizer "latitude" "flux" single_reading) = []
  /\ pipeline (H := integer_text) single_reading (Some (VStr "A")) "latitude" "flux"
     = AllOutliers.
Proof.
  assert (Hdata : before_normalizer (H := integer_text) single_reading (Some (VStr "A"))
                    "latitude" "flux" = Some single_reading)
    by (vm_compute; reflexivity).
  assert (Hrow : rows single_reading = [hd ∅ (rows single_reading)]) by reflexivity.
  assert (Hxy : "latitude"%string <> "time"%string \/ "flux"%string <> "time"%string)
    by (left; discriminate).
  exact (single_row_all_outliers (H := integer_text) single_reading single_reading
           (Some (VStr "A")) "latitude" "flux" _ Hdata Hrow Hxy).
Defined.

(** ** Sanitizer and ColumnScoper on frames *)

Lemma sanitize_keeps_present_rows_witness :
  let r0 := hd ∅ (rows two_readings) in
  In (replace_cell <$> r0) (rows (sanitize two_readings))
  /\ (forall c, is_sentinel (cell r0 c) = false ->
                cell (replace_cell <$> r0) c = cell r0 c)
  /\ (length (rows (sanitize two_readings)) <= length (rows two_readings))%nat.
Proof.
  intros r0.
  assert (Hin : In r0 (rows two_readings)) by (apply In_first; reflexivity).
  assert (Hsome : all_missing (columns two_readings) r0 = false)
    by (vm_compute; reflexivity).
  exact (sanitize_keeps_present_rows two_readings r0 Hin Hsome).
Defined.

Lemma sanitize_all_missing_origin_witness :
  let r := hd ∅ (rows (sanitize only_sentinel)) in
  exists r0, In r0 (rows only_sentinel)
    /\ r = replace_cell <$> r0
    /\ (forall c, In c (columns only_sentinel) ->
          isna (cell r0 c) = true \/ is_sentinel (cell r0 c) = true)
    /\ (exists c, In c (columns only_sentinel) /\ is_sentinel (cell r0 c) = true).
Proof.
  intros r.
  assert (Hin : In r (rows (sanitize only_sentinel)))
    by (apply In_first; vm_compute; reflexivity).
  assert (Hall : all_missing (columns only_sentinel) r = true)
    by (vm_compute; reflexivity).
  exact (sanitize_all_missing_origin only_sentinel r Hin Hall).
Defined.

Lemma scope_columns_prefix_witness :
  In "hbb"%string (columns with_hbb)
  /\ exists before rest,
       columns with_hbb = before ++ "hbb"%string :: rest
       /\ ~ In "hbb"%string before
       /\ columns (scope_columns with_hbb) = before ++ ["hbb"%string]
       /\ rows (scope_columns with_hbb)
          = map (restrict (before ++ ["hbb"%string])) (rows with_hbb)
       /\ (forall r c, In c (before ++ ["hbb"%string]) ->
             restrict (before ++ ["hbb"%string]) r !! c = r !! c)
       /\ (forall r c, ~ In c (before ++ ["hbb"%string]) ->
             restrict (before ++ ["hbb"%string]) r !! c = None).
Proof.
  assert (Hin : In "hbb"%string (columns with_hbb))
    by (do 4 right; left; reflexivity).
  split; [exact Hin|].
  exact (scope_columns_prefix with_hbb Hin).
Defined.

(** ** AxisResolver, select box and RowFilter on frames *)

Lemma axis_cols_anchor_witness :
  In "latitude"%string (columns ten_rows)
  /\ exists before rest,
       columns ten_rows = before ++ "latitude"%string :: rest
       /\ ~ In "latitude"%string before
       /\ axis_cols ten_rows
          = (if has_column "time" ten_rows then ["time"%string] else [])
            ++ "latitude"%string :: rest.
Proof.
  assert (Hin : In "latitude"%string (columns ten_rows))
    by (do 2 right; left; reflexivity).
  split; [exact Hin|].
  exact (axis_cols_anchor ten_rows Hin).
Defined.

Lemma coerce_axes_cells_witness :
  let df := parse_time_column (scope_columns (sanitize ten_rows)) in
  let r := hd ∅ (rows (coerce_axes (H := integer_text) df)) in
  columns (coerce_axes (H := integer_text) df) = columns df
  /\ length (rows (coerce_axes (H := integer_text) df)) = length (rows df)
  /\ exists r0, rows df !! 0%nat = Some r0
       /\ (forall k, In k (axis_cols df) -> k <> "time"%string ->
             r !! k = Some (to_numeric (H := integer_text) (cell r0 k)))
       /\ (forall k, ~ In k (axis_cols df) \/ k = "time"%string -> r !! k = r0 !! k).
Proof.
  intros df r.
  assert (Hi : rows (coerce_axes (H := integer_text) df) !! 0%nat = Some r)
    by (apply lookup_first; vm_compute; reflexivity).
  exact (coerce_axes_cells (H := integer_text) df 0 r Hi).
Defined.

Lemma platforms_offered_witness :
  let df := prepare (H := integer_text) ten_rows in
  platforms df = Offered [VStr "A"; VStr "B"]
  /\ (forall p, In p [VStr "A"; VStr "B"] ->
        isna p = false
        /\ exists r, In r (rows (select_platform (Some p) df))
                     /\ cell r "platform_name" = p)
  /\ (forall r, In r (rows df) -> isna (cell r "platform_name") = false ->
        exists p, In p [VStr "A"; VStr "B"]
                  /\ value_eqb (cell r "platform_name") p = true).
Proof.
  intros df.
  assert (Hps : platforms df = Offered [VStr "A"; VStr "B"])
    by (vm_compute; reflexivity).
  split; [exact Hps|].
  exact (platforms_offered df _ Hps).
Defined.

Lemma platforms_distinct_witness :
  let df := prepare (H := integer_text) ten_rows in
  platforms df = Offered [VStr "A"; VStr "B"]
  /\ occurrences (VStr "B") [VStr "A"; VStr "B"] = 1%nat.
Proof.
  intros df.
  assert (Hps : platforms df = Offered [VStr "A"; VStr "B"])
    by (vm_compute; reflexivity).
  assert (Hin : In (VStr "B") [VStr "A"; VStr "B"]) by (right; left; reflexivity).
  split; [exact Hps|].
  exact (platforms_distinct df _ (VStr "B") Hps Hin).
Defined.

Lemma row_filter_exact_witness :
  let df := parse_time_column (scope_columns (sanitize ten_rows)) in
  exists data,
    row_filter (H := integer_text) (Some (VStr "A")) "time" "flux"
      (coerce_axes (H := integer_text) df) = Ok data
    /\ columns data = columns df
    /\ rows data
       = List.filter
           (fun r => forallb (fun c => negb (isna (cell r c))) ["time"; "flux"]%string)
           (List.filter
              (fun r => value_eqb (cell r "platform_name") (VStr "A"))
              (rows (coerce_axes (H := integer_text) df))).
Proof.
  intros df.
  assert (Hp : In "platform_name"%string (columns df))
    by (vm_compute; right; left; reflexivity).
  assert (Hx : In "time"%string (axis_cols df)) by (vm_compute; left; reflexivity).
  assert (Hy : In "flux"%string (axis_cols df))
    by (vm_compute; do 2 right; left; reflexivity).
  exact (row_filter_exact (H := integer_text) df (Some (VStr "A")) "time" "flux"
           Hp Hx Hy).
Defined.

Lemma row_filter_raises_iff_witness :
  let df := prepare (H := integer_text) ten_rows in
  (exists e, row_filter (H := integer_text) (Some (VStr "A")) "flux" "altitude" df = Err e)
  <-> ~ (In "flux"%string (columns df) /\ In "altitude"%string (columns df)).
Proof.
  intros df.
  assert (Hp : In "platform_name"%string (columns df))
    by (vm_compute; right; left; reflexivity).
  exact (row_filter_raises_iff (H := integer_text) df (Some (VStr "A"))
           "flux" "altitude" Hp).
Defined.

(** ** Resampler, Normalizer and preview on frames *)


Lemma normalizer_only_drops_witness :
  let out := normalizer "latitude" "flux" eleven_readings in
  columns out = columns eleven_readings
  /\ sublist (map (fun r => r !! "platform_name"%string) (rows out))
             (map (fun r => r !! "platform_name"%string) (rows eleven_readings))
  /\ (length (rows out) <= length (rows eleven_readings))%nat.
Proof.
  intros out.
  assert (Hk : ("platform_name"%string <> "latitude"%string
                /\ "platform_name"%string <> "flux"%string)
               \/ "platform_name"%string = "time"%string)
    by (left; split; discriminate).
  exact (normalizer_only_drops "latitude" "flux" "platform_name" eleven_readings Hk).
Defined.

Lemma normalizer_nan_sigma_witness :
  is_nan (std (numbers "latitude" single_reading)) = true
  /\ rows (normalizer "latitude" "flux" single_reading) = [].
Proof.
  assert (Hnan : is_nan (std (numbers "latitude" single_reading)) = true)
    by (vm_compute; reflexivity).
  assert (Hc : "latitude"%string <> "time"%string) by discriminate.
  split; [exact Hnan|].
  exact (normalizer_nan_sigma "latitude" "flux" "latitude" single_reading Hc
           (or_introl (conj eq_refl Hnan))).
Defined.

Lemma preview_rows_witness :
  let shown := previewed "latitude" "flux" eleven_readings in
  let r := hd ∅ (rows shown) in
  (0 < 100)%nat
  /\ length (rows shown) = Nat.min 100 (length (rows eleven_readings))
  /\ columns shown = ["latitude"; "flux"]%string
  /\ exists r0, rows eleven_readings !! 0%nat = Some r0
       /\ r !! "latitude"%string = r0 !! "latitude"%string
       /\ r !! "flux"%string = r0 !! "flux"%string
       /\ forall k, k <> "latitude"%string -> k <> "flux"%string -> r !! k = None.
Proof.
  intros shown r.
  assert (Hok : preview "latitude" "flux" eleven_readings = Ok shown)
    by (vm_compute; reflexivity).
  assert (Hi : rows shown !! 0%nat = Some r)
    by (apply lookup_first; vm_compute; reflexivity).
  exact (preview_rows "latitude" "flux" eleven_readings shown 0 r Hok Hi).
Defined.

(** ** Whole runs: what the selections lead to *)


(** The four ways out of the script by an exception. *)
Example session_exceptions :
  session (H := integer_text) only_sentinel None "flux" "flux"
  = Raised (KeyError ["platform_name"%string])
  /\ session (H := integer_text) mixed_platforms (Some (VStr "A")) "latitude" "flux"
     = Raised TypeError
  /\ session (H := integer_text) one_axis (Some (VStr "A")) "flux" "flux"
     = Raised StreamlitAPIException
  /\ session (H := integer_text) ten_rows (Some (VStr "A")) "time" "time"
     = Raised (KeyError ["time"%string]).
Proof. repeat split; vm_compute; reflexivity. Qed.

Lemma pipeline_time_time_raises_witness :
  pipeline (H := integer_text) ten_rows (Some (VStr "A")) "time" "time"
  = Raised (KeyError ["time"%string]).
Proof.
  set (r := hd ∅ (rows (prepare (H := integer_text) ten_rows))).
  assert (Hp : In "platform_name"%string (columns (prepare (H := integer_text) ten_rows)))
    by (vm_compute; right; left; reflexivity).
  assert (Hx : In "time"%string (axis_cols (prepare (H := integer_text) ten_rows)))
    by (vm_compute; left; reflexivity).
  assert (Hin : In r (rows (prepare (H := integer_text) ten_rows)))
    by (apply In_first; vm_compute; reflexivity).
  assert (Hplat : value_eqb (cell r "platform_name") (VStr "A") = true)
    by (vm_compute; reflexivity).
  assert (Htime : isna (cell r "time") = false) by (vm_compute; reflexivity).
  exact (pipeline_time_time_raises (H := integer_text) ten_rows (VStr "A") r
           Hp Hx Hin Hplat Htime).
Defined.

Lemma pipeline_no_platform_witness :
  pipeline (H := integer_text) ten_rows None "latitude" "flux" = NoDataLeft.
Proof.
  assert (Hp : In "platform_name"%string (columns (prepare (H := integer_text) ten_rows)))
    by (vm_compute; right; left; reflexivity).
  assert (Hx : In "latitude"%string (axis_cols (prepare (H := integer_text) ten_rows)))
    by (vm_compute; right; left; reflexivity).
  assert (Hy : In "flux"%string (axis_cols (prepare (H := integer_text) ten_rows)))
    by (vm_compute; do 2 right; left; reflexivity).
  exact (pipeline_no_platform (H := integer_text) ten_rows "latitude" "flux" Hp Hx Hy).
Defined.

Lemma plotted_columns_witness :
  columns (plotted ten_rows "time" "flux") = ["time"%string; "flux"%string]
  /\ columns (plotted ten_rows "latitude" "flux")
     = columns (prepare (H := integer_text) ten_rows).
Proof.
  assert (Ht : pipeline (H := integer_text) ten_rows (Some (VStr "A")) "time" "flux"
               = Plotted (plotted ten_rows "time" "flux")) by (vm_compute; reflexivity).
  assert (Hl : pipeline (H := integer_text) ten_rows (Some (VStr "A")) "latitude" "flux"
               = Plotted (plotted ten_rows "latitude" "flux")) by (vm_compute; reflexivity).
  split.
  - exact (plotted_columns (H := integer_text) ten_rows _ _ "time" "flux" Ht).
  - exact (plotted_columns (H := integer_text) ten_rows _ _ "latitude" "flux" Hl).
Defined.

Lemma plotted_rows_from_platform_witness :
  let data := plotted ten_rows "latitude" "flux" in
  let r := hd ∅ (rows data) in
  exists r0, In r0 (rows (prepare (H := integer_text) ten_rows))
    /\ (exists p, Some (VStr "A") = Some p
                  /\ value_eqb (cell r0 "platform_name") p = true)
    /\ isna (cell r0 "latitude") = false /\ isna (cell r0 "flux") = false
    /\ forall k, k <> "latitude"%string -> k <> "flux"%string -> r !! k = r0 !! k.
Proof.
  intros data r.
  assert (Hxt : "latitude"%string <> "time"%string) by discriminate.
  assert (Hx : In "latitude"%string (axis_cols (prepare (H := integer_text) ten_rows)))
    by (vm_compute; right; left; reflexivity).
  assert (Hy : In "flux"%string (axis_cols (prepare (H := integer_text) ten_rows)))
    by (vm_compute; do 2 right; left; reflexivity).
  assert (Hrun : pipeline (H := integer_text) ten_rows (Some (VStr "A")) "latitude" "flux"
                 = Plotted data) by (vm_compute; reflexivity).
  assert (Hin : In r (rows data)) by (apply In_first; vm_compute; reflexivity).
  exact (plotted_rows_from_platform (H := integer_text) ten_rows data (Some (VStr "A"))
           "latitude" "flux" r Hxt Hx Hy Hrun Hin).
Defined.


Lemma plotted_preview_witness :
  let data := plotted ten_rows "time" "flux" in
  exists shown,
    preview "time" "flux" data = Ok shown
    /\ columns shown = ["time"%string; "flux"%string]
    /\ length (rows shown) = Nat.min 100 (length (rows data)).
Proof.
  intros data.
  assert (Hrun : pipeline (H := integer_text) ten_rows (Some (VStr "A")) "time" "flux"
                 = Plotted data) by (vm_compute; reflexivity).
  exact (plotted_preview (H := integer_text) ten_rows data (Some (VStr "A"))
           "time" "flux" Hrun).
Defined.
